(** * ARTIC-ASCII: the time-boxed artwork cache of [script.js]

    A shallow embedding of [getPageTotal], [getRandomIDs] and
    [fetchArtworksAndCache] (src/script.js, lines 19-116), and the
    properties of the cache-plus-fetch component stated over it.

    The three functions are asynchronous JavaScript that talks to the
    browser: [localStorage], [fetch], [Date], [Math.random], [console] and
    the DOM.  They are embedded in a state-and-exception monad [JS] over an
    explicit [World]; the behaviour of the network, of the clock and of the
    random source is an oracle carried by the world, so that a theorem
    quantified over worlds is a theorem about every behaviour of the
    browser and of the remote API.

    Idealisations, all on the side of the platform and none of the
    program:
    - a JavaScript number is [NaN] or a rational: there are no infinities
      and no negative zero. The product and the sum of line 49 are rounded
      as IEEE 754 binary64 rounds them (to nearest, ties to even); the
      differences of line 68 and of [length - 1] are exact, as they are in
      binary64 on integers below 2^53 in magnitude, which times in
      milliseconds and lengths are;
    - [localStorage] is a total finite map (no quota, no access error);
    - logical time advances at the suspension points ([fetch] and
      [Response.json]) and between the turns of the event loop. *)

From Stdlib Require Import ZArith QArith Qround Qabs Qpower Lqa String DecimalString.
From stdpp Require Import base numbers gmap strings list.

Local Open Scope Z_scope.

(** ** JavaScript values *)

(** Numbers: [NaN] or a rational. *)
Inductive JSNumber : Type :=
  | NaN
  | Num (q : Q).

(** *** Rounding to binary64 *)

Definition pow2 (e : Z) : Q := (2 ^ e)%Q.

(** The exponent of the binade of a positive rational: the [k] with
    [2^k <= q < 2^(k+1)]. *)
Definition Qlog2 (q : Q) : Z :=
  let k := Z.log2 (Qnum q) - Z.log2 (Zpos (Qden q)) in
  if Qle_bool (pow2 k) q then k else k - 1.

(** The nearest integer, the even one of two that are equally near. *)
Definition round_half_even (q : Q) : Z :=
  let f := Qfloor q in
  match (q - inject_Z f ?= 1 # 2)%Q with
  | Lt => f
  | Gt => f + 1
  | Eq => if Z.even f then f else f + 1
  end.

(** The exponent of the unit of the last place of the doubles of the
    binade of [q]: 53 significant bits, and no exponent below that of the
    subnormal numbers. *)
Definition ulp_exponent (q : Q) : Z := Z.max (Qlog2 (Qabs q) - 52) (-1074).

(** The double nearest to [q], ties to even, in lowest terms. The
    exponent is not bounded above: a result beyond the largest double,
    which is an infinity in IEEE 754, is not reached by the product and
    the sum of line 49 on a draw in [0, 1) and a double. *)
Definition binary64 (q : Q) : Q :=
  if Qeq_bool q 0 then 0%Q
  else
    let e := ulp_exponent q in
    Qred (inject_Z (round_half_even (q / pow2 e)) * pow2 e).

(** [a * b] and [a + b], rounded. *)
Definition num_mul (a b : JSNumber) : JSNumber :=
  match a, b with
  | Num x, Num y => Num (binary64 (x * y))
  | _, _ => NaN
  end.

Definition num_add (a b : JSNumber) : JSNumber :=
  match a, b with
  | Num x, Num y => Num (binary64 (x + y))
  | _, _ => NaN
  end.

(** [a - b], on times and lengths: exact. *)
Definition num_sub (a b : JSNumber) : JSNumber :=
  match a, b with
  | Num x, Num y => Num (x - y)%Q
  | _, _ => NaN
  end.

(** [a < b]; a comparison with [NaN] is false. *)
Definition num_lt (a b : JSNumber) : bool :=
  match a, b with
  | Num x, Num y => negb (Qle_bool y x)
  | _, _ => false
  end.

Definition Math_floor (a : JSNumber) : JSNumber :=
  match a with
  | Num x => Num (inject_Z (Qfloor x))
  | NaN => NaN
  end.

Definition num_of_Z (z : Z) : JSNumber := Num (inject_Z z).

(** The values [JSON.parse] produces, and [undefined]. An object is the
    list of its own properties. *)
#[local] Unset Elimination Schemes.
Inductive JSValue : Type :=
  | JUndefined
  | JNull
  | JBool (b : bool)
  | JNumber (n : JSNumber)
  | JString (s : string)
  | JArray (items : list JSValue)
  | JObject (props : list (string * JSValue)).
#[local] Set Elimination Schemes.

Fixpoint own_property (props : list (string * JSValue)) (k : string) : JSValue :=
  match props with
  | [] => JUndefined
  | (k', v) :: rest => if String.eqb k' k then v else own_property rest k
  end.

(** The double quote, as a one-character string. *)
Definition dquote : string := String (Ascii.ascii_of_nat 34) EmptyString.

(** Errors a [catch] clause can receive: [Error msg] is [new Error(msg)]
    of the program, the others are thrown by the platform. *)
Inductive JSError : Type :=
  | Error (message : string)
  | SyntaxError
  | TypeError
  | FetchRejected.

(** ** The platform *)

(** The parts of ECMAScript the program calls into and whose full
    definition is the standard's, not the repository's. *)
Class Platform : Type := {
  (** [JSON.parse] on a non-empty text; [None] is a [SyntaxError]. *)
  JSON_parse_text : string → option JSValue;
  JSON_stringify : JSValue → string;
  (** [ToNumber] on a string. *)
  StringToNumber : string → JSNumber;
  (** [ToNumber] on an array or object (through [ToPrimitive]); [None] is
      a [TypeError]. *)
  ObjectToNumber : JSValue → option JSNumber;
  (** [Number::toString] on a number that is not an integer below 10^21
      in magnitude. *)
  Number_toString_other : Q → string;
  (** The [message] of an error thrown by the platform. *)
  native_message : JSError → string;
}.

(** ** The world *)

(** An HTTP response: its status and the outcome of reading its body as
    JSON ([None]: [Response.json] rejects). *)
Record Response : Type := {
  status : Z;
  body : option JSValue;
}.

(** [Response.ok]: the status is in the range 200-299. *)
Definition ok (r : Response) : bool :=
  (200 <=? status r) && (status r <=? 299).

Inductive FetchResult : Type :=
  | Rejected
  | Responded (r : Response).

Inductive ConsoleEntry : Type :=
  | console_log_entry (text : string)
  | console_log_time (text : string) (time : JSValue)
  | console_error_entry (text : string) (error : option JSError).

Record World : Type := {
  (** [localStorage], key to value. *)
  localStorage : gmap string string;
  (** The document: element id to [innerHTML]. *)
  document : gmap string string;
  (** What was written to the console, oldest first. *)
  console : list ConsoleEntry;
  (** The URLs requested with [fetch], oldest first. *)
  requests : list string;
  (** The remote side: the outcome of the [n]-th request, given its URL. *)
  network : nat → string → FetchResult;
  (** The number of suspension points passed, and the wall clock
      (milliseconds since the epoch) at each of them. *)
  ticks : nat;
  clock : nat → Z;
  (** The number of calls of [Math.random], and the value of each. *)
  draws : nat;
  entropy : nat → Q;
}.

Definition set_localStorage (f : gmap string string → gmap string string) (w : World) : World :=
  {| localStorage := f (localStorage w); document := document w;
     console := console w; requests := requests w; network := network w;
     ticks := ticks w; clock := clock w; draws := draws w; entropy := entropy w |}.

Definition set_document (f : gmap string string → gmap string string) (w : World) : World :=
  {| localStorage := localStorage w; document := f (document w);
     console := console w; requests := requests w; network := network w;
     ticks := ticks w; clock := clock w; draws := draws w; entropy := entropy w |}.

Definition add_console (e : ConsoleEntry) (w : World) : World :=
  {| localStorage := localStorage w; document := document w;
     console := console w ++ [e]; requests := requests w; network := network w;
     ticks := ticks w; clock := clock w; draws := draws w; entropy := entropy w |}.

Definition add_request (url : string) (w : World) : World :=
  {| localStorage := localStorage w; document := document w;
     console := console w; requests := requests w ++ [url]; network := network w;
     ticks := ticks w; clock := clock w; draws := draws w; entropy := entropy w |}.

Definition tick (w : World) : World :=
  {| localStorage := localStorage w; document := document w;
     console := console w; requests := requests w; network := network w;
     ticks := S (ticks w); clock := clock w; draws := draws w; entropy := entropy w |}.

Definition draw (w : World) : World :=
  {| localStorage := localStorage w; document := document w;
     console := console w; requests := requests w; network := network w;
     ticks := ticks w; clock := clock w; draws := S (draws w); entropy := entropy w |}.

(** ** The monad of JavaScript computations *)

Inductive Completion (A : Type) : Type :=
  | Normal (a : A)
  | Throw (e : JSError).
Arguments Normal {A} a.
Arguments Throw {A} e.

Definition JS (A : Type) : Type := World → Completion A * World.

#[global] Instance JS_ret : MRet JS := λ A a w, (Normal a, w).

#[global] Instance JS_bind : MBind JS := λ A B k m w,
  match m w with
  | (Normal a, w') => k a w'
  | (Throw e, w') => (Throw e, w')
  end.

Definition throw {A : Type} (e : JSError) : JS A := λ w, (Throw e, w).

(** [try { body } catch (e) { handler e }]: what [body] did to the world
    before it threw stays done. *)
Definition try_catch {A : Type} (body : JS A) (handler : JSError → JS A) : JS A := λ w,
  match body w with
  | (Normal a, w') => (Normal a, w')
  | (Throw e, w') => handler e w'
  end.

(** A [for] loop running [body] at [i], [i+1], ..., [i+count-1] over an
    accumulated state. *)
Fixpoint for_count {S : Type} (count i : nat) (body : nat → S → JS S) (s : S) : JS S :=
  match count with
  | O => mret s
  | Datatypes.S count' => s' ← body i s; for_count count' (Datatypes.S i) body s'
  end.

(** ** Platform operations *)

Section Operations.
Context `{Platform}.

(** A step that only computes: it completes, normally or abruptly, and
    leaves the world as it is. *)
Definition eval {A : Type} (c : Completion A) : JS A := λ w, (c, w).

(** [v.k] for the property names the program reads ([timestamp],
    [data], [pagination], [total]): a [TypeError] on [undefined] and
    [null], the own property of an object, and [undefined] on the other
    values, which have no property of these names. *)
Definition property (v : JSValue) (k : string) : Completion JSValue :=
  match v with
  | JUndefined | JNull => Throw TypeError
  | JObject props => Normal (own_property props k)
  | _ => Normal JUndefined
  end.

Definition Get (v : JSValue) (k : string) : JS JSValue := eval (property v k).

Definition coerce_number (v : JSValue) : Completion JSNumber :=
  match v with
  | JUndefined => Normal NaN
  | JNull => Normal (Num 0)
  | JBool b => Normal (Num (if b then 1 else 0))
  | JNumber n => Normal n
  | JString s => Normal (StringToNumber s)
  | JArray _ | JObject _ =>
      match ObjectToNumber v with
      | Some n => Normal n
      | None => Throw TypeError
      end
  end.

Definition ToNumber (v : JSValue) : JS JSNumber := eval (coerce_number v).

(** [v === 0]. *)
Definition strict_equals_zero (v : JSValue) : bool :=
  match v with
  | JNumber (Num q) => Qeq_bool q 0
  | _ => false
  end.

Definition string_of_Z (z : Z) : string := NilZero.string_of_int (Z.to_int z).

Definition Number_toString (n : JSNumber) : string :=
  match n with
  | NaN => "NaN"
  | Num q =>
      let r := Qred q in
      if Pos.eqb (Qden r) 1 && (Z.abs (Qnum r) <? 10 ^ 21)
      then string_of_Z (Qnum r)
      else Number_toString_other q
  end.

(** [arr.join(sep)] on an array of numbers. *)
Definition join (sep : string) (arr : list JSNumber) : string :=
  String.concat sep (map Number_toString arr).

Definition message (e : JSError) : string :=
  match e with
  | Error m => m
  | _ => native_message e
  end.

(** [JSON.parse]: the empty text is not JSON. *)
Definition parse (text : string) : Completion JSValue :=
  match text with
  | EmptyString => Throw SyntaxError
  | _ =>
      match JSON_parse_text text with
      | Some v => Normal v
      | None => Throw SyntaxError
      end
  end.

Definition JSON_parse (text : string) : JS JSValue := eval (parse text).

Definition localStorage_getItem (key : string) : JS (option string) := λ w,
  (Normal (localStorage w !! key), w).

Definition localStorage_setItem (key value : string) : JS unit := λ w,
  (Normal tt, set_localStorage (insert key value) w).

(** [new Date().getTime()]. *)
Definition Date_getTime : JS JSNumber := λ w,
  (Normal (num_of_Z (clock w (ticks w))), w).

Definition Math_random : JS JSNumber := λ w,
  (Normal (Num (entropy w (draws w))), draw w).

Definition console_log (text : string) : JS unit := λ w,
  (Normal tt, add_console (console_log_entry text) w).

Definition console_log_with_time (text : string) (time : JSValue) : JS unit := λ w,
  (Normal tt, add_console (console_log_time text time) w).

Definition console_error (text : string) (e : option JSError) : JS unit := λ w,
  (Normal tt, add_console (console_error_entry text e) w).

(** [await fetch(url)]: the request is recorded, then the promise
    settles. *)
Definition fetch (url : string) : JS Response := λ w,
  let w' := tick (add_request url w) in
  match network w (length (requests w)) url with
  | Rejected => (Throw FetchRejected, w')
  | Responded r => (Normal r, w')
  end.

(** [await response.json()]. *)
Definition Response_json (r : Response) : JS JSValue := λ w,
  match body r with
  | Some v => (Normal v, tick w)
  | None => (Throw SyntaxError, tick w)
  end.

(** [document.getElementById(id)]: the element, named by its id, or
    [null]. *)
Definition document_getElementById (id : string) : JS (option string) := λ w,
  (Normal (if decide (is_Some (document w !! id)) then Some id else None), w).

(** [element.innerHTML = html]; a [TypeError] when [element] is [null]. *)
Definition set_innerHTML (element : option string) (html : string) : JS unit :=
  match element with
  | Some id => λ w, (Normal tt, set_document (insert id html) w)
  | None => throw TypeError
  end.

End Operations.

(** ** The program *)

Section Program.
Context `{Platform}.

(** Lines 2-4. *)
Definition ARTWORKS_URL : string := "https://api.artic.edu/api/v1/artworks".
Definition CACHE_KEY : string := "aicArtworksCache".
Definition CACHE_DURATION : JSNumber := num_of_Z (60 * 60 * 1000).

(** Lines 19-39. *)
Definition getPageTotal : JS JSValue :=
  try_catch
    (countResponse ← fetch (ARTWORKS_URL +:+ "?limit=0");
     (if negb (ok countResponse)
      then throw (Error ("HTTP error! status: " +:+ string_of_Z (status countResponse)))
      else mret tt);;
     countData ← Response_json countResponse;
     pagination ← Get countData "pagination";
     totalArtworks ← Get pagination "total";
     if strict_equals_zero totalArtworks then
       console_error "Error: Total artwork count is zero." None;;
       mret JNull
     else
       mret totalArtworks)
    (λ error,
       console_error "An error occurred while fetching total artwork count:" (Some error);;
       mret JNull).

(** Line 49: [Math.floor(Math.random() * response) + 1], in the
    arithmetic of doubles. The draw comes first, then the coercion of
    [response]. *)
Definition randomID (response : JSValue) : JS JSNumber :=
  r ← Math_random;
  total ← ToNumber response;
  mret (num_add (Math_floor (num_mul r total)) (Num 1)).

(** Lines 45-53. *)
Definition getRandomIDs : JS (list JSNumber) :=
  response ← getPageTotal;
  for_count 10 0 (λ i idArr, id ← randomID response; mret (idArr ++ [id])) [].

Definition truthy (cachedData : option string) : bool :=
  match cachedData with
  | Some (String _ _) => true
  | _ => false
  end.

(** Lines 60-83, the cache lookup: [Some data] is the early
    [return cache.data], [None] falls through to the fetch. *)
Definition fetchArtworksAndCache_cached : JS (option JSValue) :=
  cachedData ← localStorage_getItem CACHE_KEY;
  if truthy cachedData then
    try_catch
      (cache ← JSON_parse (default EmptyString cachedData);
       now ← Date_getTime;
       timestamp ← Get cache "timestamp";
       t ← ToNumber timestamp;
       if num_lt (num_sub now t) CACHE_DURATION then
         console_log_with_time "Data retrieved from CACHE." timestamp;;
         data ← Get cache "data";
         mret (Some data)
       else
         console_log "Cached data found but has EXPIRED. Fetching new data...";;
         mret None)
      (λ e,
         console_error "Error parsing cached data. Fetching new data." (Some e);;
         mret None)
  else
    console_log "No cached data found. Fetching from API...";;
    mret None.

Definition batch_url (idString : string) : string :=
  ARTWORKS_URL +:+ "?ids=" +:+ idString +:+
  "&fields=id,title,image_id,artist_display,date_display".

Definition cachePayload (timestamp : JSNumber) (artworks : JSValue) : JSValue :=
  JObject [("timestamp", JNumber timestamp); ("data", artworks)].

(** Line 113, the template literal. *)
Definition failure_html (error : JSError) : string :=
  "<li class=" +:+ dquote +:+ "text-red-600" +:+ dquote +:+
  ">Failed to load data: " +:+ message error +:+ "</li>".

(** Lines 111-115, the [catch] clause of the fetch. *)
Definition fetchArtworksAndCache_catch (error : JSError) : JS JSValue :=
  console_error "An error occurred during API fetch:" (Some error);;
  element ← document_getElementById "artworks-list";
  set_innerHTML element (failure_html error);;
  mret JNull.

(** Lines 85-115, the fetch from the API. *)
Definition fetchArtworksAndCache_remote : JS JSValue :=
  try_catch
    (ids ← getRandomIDs;
     let idString := join "," ids in
     console_log idString;;
     response ← fetch (batch_url idString);
     (if negb (ok response)
      then throw (Error ("HTTP error! Status: " +:+ string_of_Z (status response)))
      else mret tt);;
     apiResponse ← Response_json response;
     artworks ← Get apiResponse "data";
     timestamp ← Date_getTime;
     localStorage_setItem CACHE_KEY (JSON_stringify (cachePayload timestamp artworks));;
     console_log_with_time
       "Successfully fetched data from API and updated the CACHE."
       (JNumber timestamp);;
     mret artworks)
    fetchArtworksAndCache_catch.

(** Lines 59-116. *)
Definition fetchArtworksAndCache : JS JSValue :=
  cached ← fetchArtworksAndCache_cached;
  match cached with
  | Some data => mret data
  | None => fetchArtworksAndCache_remote
  end.

End Program.

(** ** Vocabulary of the specification *)

Section Vocabulary.
Context `{Platform}.

(** The metadata request of [getPageTotal]. *)
Definition total_url : string := ARTWORKS_URL +:+ "?limit=0".

(** The time-to-live, in milliseconds. *)
Definition TTL : Z := 3600000.

(** What [new Date().getTime()] reads in a world. *)
Definition now (w : World) : JSNumber := num_of_Z (clock w (ticks w)).

(** The freshness test of line 68. *)
Definition fresh (w : World) (timestamp : JSNumber) : bool :=
  num_lt (num_sub (now w) timestamp) CACHE_DURATION.

(** A double: a rational that rounding leaves as it is. *)
Definition is_binary64 (q : Q) : Prop := (binary64 q == q)%Q.

(** The identifier line 49 computes from one draw. *)
Definition id_of_draw (r : Q) (total : JSNumber) : JSNumber :=
  num_add (Math_floor (num_mul (Num r) total)) (Num 1).

(** The ten identifiers of a call that starts drawing in [w]. *)
Definition random_ids (w : World) (total : JSNumber) : list JSNumber :=
  map (λ j, id_of_draw (entropy w (draws w + j)%nat) total) (seq 0 10).

(** The world after [n] more calls of [Math.random]. *)
Definition after_draws (n : nat) (w : World) : World := Nat.iter n draw w.

(** The world after lines 106-108: the slot overwritten, the success
    logged. *)
Definition stored (timestamp : JSNumber) (artworks : JSValue) (w : World) : World :=
  add_console
    (console_log_time "Successfully fetched data from API and updated the CACHE."
       (JNumber timestamp))
    (set_localStorage
       (insert CACHE_KEY (JSON_stringify (cachePayload timestamp artworks))) w).

(** The world [w] with the cache slot removed. *)
Definition without_cache (w : World) : World :=
  set_localStorage (delete CACHE_KEY) w.

(** A record sequence: an array. *)
Definition is_sequence (v : JSValue) : Prop := ∃ items, v = JArray items.

(** A failed [fetch]: rejected, or answered with a status outside
    200-299. *)
Definition transport_failure (result : FetchResult) : Prop :=
  match result with
  | Rejected => True
  | Responded r => ok r = false
  end.

(** The record sequence a batch request delivers: the [data] of the body
    of a response with a success status; [None] when the request is
    rejected, the status is not a success, the body is not JSON or has no
    [data] to read. *)
Definition batch_data (result : FetchResult) : option JSValue :=
  match result with
  | Rejected => None
  | Responded response =>
      if ok response then
        match body response with
        | Some apiResponse =>
            match property apiResponse "data" with
            | Normal artworks => Some artworks
            | Throw _ => None
            end
        | None => None
        end
      else None
  end.

(** The position of the batch request among the requests: a call that
    fetches asks for the total first. *)
Definition batch_index (w : World) : nat := S (length (requests w)).

(** How a failed fetch ends, seen from the caller: [null] is returned
    when the page has the element [artworks-list]; when it has not, the
    [catch] clause itself throws. *)
Definition failure_signal (w : World) (c : Completion JSValue) : Prop :=
  match document w !! "artworks-list" with
  | Some _ => c = Normal JNull
  | None => c = Throw TypeError
  end.

(** The three ways the fetch from the API, in a call started in [w], can
    end, with completion [c] in world [w']: before the batch request, on a
    batch request that delivers nothing, or with the slot overwritten. *)
Inductive RemoteOutcome (w : World) (c : Completion JSValue) (w' : World) : Prop :=
  | remote_no_batch :
      requests w' = requests w ++ [total_url] →
      localStorage w' = localStorage w →
      failure_signal w c →
      RemoteOutcome w c w'
  | remote_batch_failed url :
      requests w' = requests w ++ [total_url; url] →
      batch_data (network w (batch_index w) url) = None →
      localStorage w' = localStorage w →
      failure_signal w c →
      RemoteOutcome w c w'
  | remote_stored url artworks t :
      requests w' = requests w ++ [total_url; url] →
      batch_data (network w (batch_index w) url) = Some artworks →
      (ticks w ≤ t)%nat →
      localStorage w' =
        <[CACHE_KEY := JSON_stringify (cachePayload (num_of_Z (clock w t)) artworks)]>
          (localStorage w) →
      c = Normal artworks →
      RemoteOutcome w c w'.

(** The ways a call of [fetchArtworksAndCache] started in [w] can end: on
    a fresh cache entry, or as the fetch from the API does. *)
Inductive Outcome (w : World) (c : Completion JSValue) (w' : World) : Prop :=
  | outcome_hit text cache timestamp t data :
      localStorage w !! CACHE_KEY = Some text →
      parse text = Normal cache →
      property cache "timestamp" = Normal timestamp →
      coerce_number timestamp = Normal t →
      fresh w t = true →
      property cache "data" = Normal data →
      c = Normal data →
      requests w' = requests w →
      localStorage w' = localStorage w →
      Outcome w c w'
  | outcome_miss :
      RemoteOutcome w c w' →
      Outcome w c w'.

(** What line 28 reads from the metadata response, when the code gets
    there: the response is a success, its body is JSON, and
    [countData.pagination.total] can be read. *)
Definition pagination_total (result : FetchResult) : option JSValue :=
  match result with
  | Rejected => None
  | Responded countResponse =>
      if ok countResponse then
        match body countResponse with
        | Some countData =>
            match property countData "pagination" with
            | Normal pagination =>
                match property pagination "total" with
                | Normal totalArtworks => Some totalArtworks
                | Throw _ => None
                end
            | Throw _ => None
            end
        | None => None
        end
      else None
  end.

(** What the metadata step hands to the generation of the identifiers:
    the total that the response carries, and [null] when it carries none
    or the number 0. *)
Definition reported_total (result : FetchResult) : JSValue :=
  match pagination_total result with
  | Some totalArtworks => if strict_equals_zero totalArtworks then JNull else totalArtworks
  | None => JNull
  end.

(** The fresh fetch of a call that starts in [w] and ends with the
    completion [c] in the world [w']. The metadata request is sent. Ten
    identifiers are generated from what it reports, one from each of the
    next ten draws, and one batch request carries them, comma-joined. When
    that request delivers records, they are returned and the slot is
    overwritten with an entry made of a timestamp and of them; when it
    does not, the call ends with the failure signal and [localStorage] is
    as it was. (When what the metadata step reports cannot be coerced to a
    number, the call ends with the failure signal before the batch
    request.) *)
Definition fresh_fetch (w : World) (c : Completion JSValue) (w' : World) : Prop :=
  let metadata := "https://api.artic.edu/api/v1/artworks?limit=0" in
  match coerce_number (reported_total (network w (length (requests w)) metadata)) with
  | Throw _ =>
      requests w' = requests w ++ [metadata] ∧
      failure_signal w c ∧
      localStorage w' = localStorage w
  | Normal total =>
      let ids := map (λ j, id_of_draw (entropy w (draws w + j)%nat) total) (seq 0 10) in
      let batch :=
        "https://api.artic.edu/api/v1/artworks?ids=" +:+ join "," ids +:+
        "&fields=id,title,image_id,artist_display,date_display" in
      requests w' = requests w ++ [metadata; batch] ∧
      draws w' = (draws w + 10)%nat ∧
      match batch_data (network w (S (length (requests w))) batch) with
      | Some artworks =>
          c = Normal artworks ∧
          ∃ timestamp,
            localStorage w' =
              <["aicArtworksCache" :=
                  JSON_stringify
                    (JObject [("timestamp", JNumber (num_of_Z timestamp));
                              ("data", artworks)])]>
                (localStorage w)
      | None =>
          failure_signal w c ∧
          localStorage w' = localStorage w
      end
  end.

(** The call returns a record sequence or [null], and does not throw. *)
Definition returns_sequence_or_null (w : World) : Prop :=
  ∃ v w', fetchArtworksAndCache w = (Normal v, w') ∧ (v = JNull ∨ is_sequence v).
End Vocabulary.

(** [w'] is [w] after requests for [urls] and nothing else that the rest
    of a call can observe: storage, document and random source are as they
    were, time has not gone back. *)
Record fetched (urls : list string) (w w' : World) : Prop := {
  fetched_localStorage : localStorage w' = localStorage w;
  fetched_document : document w' = document w;
  fetched_requests : requests w' = requests w ++ urls;
  fetched_network : network w' = network w;
  fetched_clock : clock w' = clock w;
  fetched_entropy : entropy w' = entropy w;
  fetched_draws : draws w' = draws w;
  fetched_ticks : (ticks w ≤ ticks w')%nat;
}.

(** Two worlds that differ in [localStorage] and in the console only. *)
Record same_outside_cache (w1 w2 : World) : Prop := {
  same_document : document w1 = document w2;
  same_requests : requests w1 = requests w2;
  same_network : network w1 = network w2;
  same_ticks : ticks w1 = ticks w2;
  same_clock : clock w1 = clock w2;
  same_draws : draws w1 = draws w2;
  same_entropy : entropy w1 = entropy w2;
}.

(** A computation that neither reads [localStorage] nor the console: run
    in two such worlds, it completes alike and leaves two such worlds. *)
Definition oblivious {A : Type} (m : JS A) : Prop :=
  ∀ w1 w2, same_outside_cache w1 w2 →
    fst (m w1) = fst (m w2) ∧ same_outside_cache (snd (m w1)) (snd (m w2)).

(** ** A concrete platform and concrete worlds

    A small platform on which the program can be run: its JSON covers
    the integers, strings without escapes, arrays and objects, and it reads
    back the texts of [readable] only. The worlds below are the inputs at
    which the theorems are instantiated and the program is evaluated. *)

Module Demo.

Definition defined (v : JSValue) : bool :=
  match v with
  | JUndefined => false
  | _ => true
  end.

Fixpoint stringify (v : JSValue) : string :=
  match v with
  | JUndefined | JNull => "null"
  | JBool b => if b then "true" else "false"
  | JNumber NaN => "null"
  | JNumber (Num q) => string_of_Z (Qfloor q)
  | JString s => dquote +:+ s +:+ dquote
  | JArray items => "[" +:+ String.concat "," (map stringify items) +:+ "]"
  | JObject props =>
      "{" +:+
      String.concat ","
        ((fix members (l : list (string * JSValue)) : list string :=
            match l with
            | [] => []
            | (k, v) :: rest =>
                if defined v
                then (dquote +:+ k +:+ dquote +:+ ":" +:+ stringify v) :: members rest
                else members rest
            end) props) +:+
      "}"
  end.

Definition artwork : JSValue :=
  JObject [("id", JNumber (Num 1)); ("title", JString "Untitled");
           ("image_id", JString "e966799b"); ("artist_display", JString "Unknown");
           ("date_display", JString "1900")].

Definition artworks : JSValue := JArray [artwork].

(** A cache entry written at time 1000, and one whose [data] is the
    number 5. *)
Definition entry : JSValue := cachePayload (Num 1000) artworks.
Definition entry_with_number : JSValue := cachePayload (Num 1000) (JNumber (Num 5)).

Definition readable : list JSValue := [entry; entry_with_number].

Definition parse_text (text : string) : option JSValue :=
  find (λ v, String.eqb (stringify v) text) readable.

Definition platform : Platform := {|
  JSON_parse_text := parse_text;
  JSON_stringify := stringify;
  StringToNumber s :=
    match s with
    | EmptyString => Num 0
    | _ =>
        match NilZero.int_of_string s with
        | Some d => num_of_Z (Z.of_int d)
        | None => NaN
        end
    end;
  ObjectToNumber v :=
    match v with
    | JArray [] => Some (Num 0)
    | _ => Some NaN
    end;
  Number_toString_other q := "NaN";
  native_message e :=
    match e with
    | Error m => m
    | SyntaxError => "Unexpected token"
    | TypeError => "Cannot read properties of null"
    | FetchRejected => "Failed to fetch"
    end;
|}.

Definition respond (status : Z) (body : JSValue) : FetchResult :=
  Responded {| status := status; body := Some body |}.

(** The metadata response reporting [total] artworks. *)
Definition total_response (total : Z) : FetchResult :=
  respond 200 (JObject [("pagination", JObject [("total", JNumber (num_of_Z total))])]).

(** A batch response with one artwork. *)
Definition batch_response : FetchResult :=
  respond 200 (JObject [("data", artworks)]).

(** A server error. *)
Definition server_error : FetchResult :=
  Responded {| status := 500; body := None |}.

(** A page with the element the [catch] clause writes to, and one
    without it. *)
Definition page_with_list : gmap string string := {[ "artworks-list" := "" ]}.
Definition page_without_list : gmap string string := ∅.

(** A world at the start of a call: the cache slot, the page, the
    outcome of the first and of the later requests, and the wall clock at
    the start; a second passes at each suspension point, and the [i]-th
    random draw is [i/(i+1)]. *)
Definition world (slot : option string) (page : gmap string string)
    (first later : FetchResult) (start : Z) : World :=
  {| localStorage := from_option (λ text, {[CACHE_KEY := text]}) ∅ slot;
     document := page;
     console := [];
     requests := [];
     network := λ n _, match n with O => first | _ => later end;
     ticks := 0;
     clock := λ n, start + 1000 * Z.of_nat n;
     draws := 0;
     entropy := λ i, Z.of_nat i # Pos.of_succ_nat i |}.

Definition ones : string := "1,1,1,1,1,1,1,1,1,1".

(** The slot holds [entry], written at 1000; the call starts at 2000. *)
Definition fresh_world : World :=
  world (Some (stringify entry)) page_with_list (total_response 5000) batch_response 2000.

(** The same slot, the call starts exactly one hour after the entry was
    written. *)
Definition stale_world : World :=
  world (Some (stringify entry)) page_with_list (total_response 5000) batch_response 3601000.

(** The slot holds a text that is not JSON. *)
Definition corrupt_world : World :=
  world (Some "not json") page_with_list (total_response 5000) batch_response 0.

(** No slot, 5000 artworks, the batch request succeeds. *)
Definition empty_world : World :=
  world None page_with_list (total_response 5000) batch_response 0.

(** No slot, 5000 artworks, the batch request is answered with status
    500. *)
Definition batch_error_world : World :=
  world None page_with_list (total_response 5000) server_error 0.

(** No slot, the metadata response reports a total of zero. *)
Definition total_zero_world : World :=
  world None page_with_list (total_response 0) batch_response 0.

(** No slot, the metadata request is answered with status 500. *)
Definition metadata_error_world : World :=
  world None page_with_list server_error batch_response 0.

(** No slot, the metadata request is rejected (network error). *)
Definition metadata_rejected_world : World :=
  world None page_with_list Rejected batch_response 0.

(** The slot holds a fresh entry whose [data] is the number 5. *)
Definition number_world : World :=
  world (Some (stringify entry_with_number)) page_with_list
    (total_response 5000) batch_response 2000.

(** No slot, no network, and a page without the element
    [artworks-list]. *)
Definition offline_world : World :=
  world None page_without_list Rejected Rejected 0.

(** The batch request of a call that starts drawing at the first draw,
    for a total of 5000. *)
Definition demo_batch_url : string :=
  batch_url "1,2501,3334,3751,4001,4167,4286,4376,4445,4501".

End Demo.

(** * More of the code: the rest of the cache component

    Further vocabulary for properties of [getPageTotal], [getRandomIDs]
    and [fetchArtworksAndCache] beyond the ones above. *)

Section MoreVocabulary.
Context `{Platform}.


(** A parsed slot content that cannot pass the freshness test: reading
    its [timestamp] throws, or the timestamp does not coerce to a number
    (the coercion throws or gives [NaN]). *)
Definition no_numeric_timestamp (cache : JSValue) : Prop :=
  match property cache "timestamp" with
  | Throw _ => True
  | Normal timestamp =>
      match coerce_number timestamp with
      | Normal (Num _) => False
      | _ => True
      end
  end.


End MoreVocabulary.

(** Further concrete worlds, on the platform of [Demo] and on one that
    also reads the JSON texts [null] and [{}]. *)

Module Scenarios.

Definition parse_text (text : string) : option JSValue :=
  if String.eqb text "null" then Some JNull
  else if String.eqb text "{}" then Some (JObject [])
  else Demo.parse_text text.

Definition platform : Platform := {|
  JSON_parse_text := parse_text;
  JSON_stringify := Demo.stringify;
  StringToNumber := @StringToNumber Demo.platform;
  ObjectToNumber := @ObjectToNumber Demo.platform;
  Number_toString_other := @Number_toString_other Demo.platform;
  native_message := @native_message Demo.platform;
|}.

(** No slot, 5000 artworks, the batch request succeeds; the call starts at
    -3000, so that the entry it writes, four suspension points later, is
    stamped 1000 and is [Demo.entry]. *)
Definition cold_world : World :=
  Demo.world None Demo.page_with_list (Demo.total_response 5000) Demo.batch_response (-3000).


(** The slot holds the JSON text [{}]. *)
Definition empty_object_world : World :=
  Demo.world (Some "{}") Demo.page_with_list (Demo.total_response 5000) Demo.batch_response 0.

(** No slot, 3 artworks, and every draw is the double
    0.6666666666666666, whose product with 3 rounds to 2. *)
Definition rounding_world : World :=
  {| localStorage := ∅;
     document := Demo.page_with_list;
     console := [];
     requests := [];
     network := λ n _, match n with O => Demo.total_response 3 | _ => Demo.batch_response end;
     ticks := 0;
     clock := λ n, 1000 * Z.of_nat n;
     draws := 0;
     entropy := λ _, 6004799503160661 # 9007199254740992 |}.

End Scenarios.

(** * More of the code: the page

    The functions of [script.js] that use the cache component:
    [getImageUrl] (lines 129-136), [renderArtworkData] (lines 141-184) with
    the promise chain of its image request (lines 157-177), [setIsRevealed]
    (lines 397-406) and the handlers of the Next button, of the overlay and
    of the settings panel (lines 305-331, 368-391, 409-412).

    They read and write globals of the script and properties of elements
    of the page; these are the fields of a [Page], which also holds the
    browser [World] of the cache component. A call of an [async] function
    that is not awaited, and a [fetch] whose promise is handled by [then]
    and [catch], are recorded in the page: the caller does not wait for
    them. The canvas library (textmode) and the panel library (Tweakpane)
    are outside the model; [renderImage] (lines 222-245), which only
    drives the canvas library, is recorded as a call with its arguments,
    and is the list of what it asks of the library. *)

(** What the page needs of ECMAScript and of the browser beyond
    [Platform]. *)
Class PagePlatform : Type := {
  (** [ToString] on an array or object (through [ToPrimitive]); [None] is
      a [TypeError]. *)
  ObjectToString : JSValue → option string;
  (** [response.statusText]. *)
  statusText : Response → string;
}.

#[global] Instance Completion_ret : MRet Completion := λ A a, Normal a.

#[global] Instance Completion_bind : MBind Completion := λ A B k c,
  match c with
  | Normal a => k a
  | Throw e => Throw e
  end.

Section PageValues.
Context `{Platform} `{PagePlatform}.

(** [ToBoolean]. *)
Definition ToBoolean (v : JSValue) : bool :=
  match v with
  | JUndefined | JNull => false
  | JBool b => b
  | JNumber NaN => false
  | JNumber (Num q) => negb (Qeq_bool q 0)
  | JString EmptyString => false
  | JString _ => true
  | JArray _ | JObject _ => true
  end.

(** [a || b]. *)
Definition logical_or (a b : JSValue) : JSValue :=
  if ToBoolean a then a else b.

(** [ToString]. *)
Definition to_string (v : JSValue) : Completion string :=
  match v with
  | JUndefined => Normal "undefined"
  | JNull => Normal "null"
  | JBool b => Normal (if b then "true" else "false")
  | JNumber n => Normal (Number_toString n)
  | JString s => Normal s
  | JArray _ | JObject _ =>
      match ObjectToString v with
      | Some s => Normal s
      | None => Throw TypeError
      end
  end.

(** [v.length]: the number of elements of an array, of code units of a
    string (a string is the sequence of its code units), the own property
    of an object; [undefined] on booleans and numbers. *)
Definition length_of (v : JSValue) : Completion JSValue :=
  match v with
  | JUndefined | JNull => Throw TypeError
  | JArray items => Normal (JNumber (num_of_Z (Z.of_nat (length items))))
  | JString s => Normal (JNumber (num_of_Z (Z.of_nat (String.length s))))
  | JObject props => Normal (own_property props "length")
  | JBool _ | JNumber _ => Normal JUndefined
  end.

(** [v[i]] for an index [i] that is a natural number. *)
Definition element (v : JSValue) (i : nat) : Completion JSValue :=
  match v with
  | JUndefined | JNull => Throw TypeError
  | JArray items => Normal (default JUndefined (items !! i))
  | JString s =>
      Normal match String.get i s with
             | Some c => JString (String c EmptyString)
             | None => JUndefined
             end
  | JObject props => Normal (own_property props (string_of_Z (Z.of_nat i)))
  | JBool _ | JNumber _ => Normal JUndefined
  end.

(** The condition [artworkData && artworkData.length > 0]. *)
Definition has_elements (artworkData : JSValue) : Completion bool :=
  if ToBoolean artworkData then
    len ← length_of artworkData;
    n ← coerce_number len;
    mret (num_lt (Num 0) n)
  else mret false.

(** The string an assignment to [innerHTML] stores: [null] is the empty
    string, every other value its [ToString]. *)
Definition html_of (v : JSValue) : Completion string :=
  match v with
  | JNull => Normal EmptyString
  | _ => to_string v
  end.

(** [v === 'sampled']. *)
Definition is_sampled (v : JSValue) : bool :=
  match v with
  | JString s => String.eqb s "sampled"
  | _ => false
  end.

End PageValues.

(** A call that the caller does not wait for. *)
Inductive Call : Type :=
  | call_renderArtworkData
  | call_renderImage (args : list JSValue)
  | call_pane_refresh.

(** An image request whose promise chain is waiting: the position of
    the request among the requests, and the [tempImageUrl] and
    [artworkData] that the chain has captured. *)
Record ImageFetch : Type := {
  request_index : nat;
  captured_url : JSValue;
  captured_data : JSValue;
}.

(** [PARAMS] (lines 258-263). *)
Record Params : Type := {
  charColor : JSValue;
  cellColor : JSValue;
  charColorMode : JSValue;
  cellColorMode : JSValue;
}.

Record Page : Type := {
  browser : World;
  (** The globals [currentIndex] (only ever set to 0 or incremented: a
      natural number), [isRevealed] and [imageUrl]. *)
  currentIndex : nat;
  isRevealed : bool;
  imageUrl : JSValue;
  PARAMS : Params;
  (** The [hidden] flags of the two colour bindings of the panel. *)
  charColorBinding_hidden : bool;
  cellColorBinding_hidden : bool;
  (** What the script assigned to properties of elements other than
      [innerHTML], by element id and property path, as assigned. *)
  assigned : gmap (string * string) JSValue;
  (** The [offsetHeight] of the element [artwork-text], as the layout has
      it. *)
  offsetHeight : Z;
  (** The calls not waited for, and the image requests whose promise
      chain is waiting, oldest first. *)
  calls : list Call;
  image_fetches : list ImageFetch;
}.

Definition set_browser (w : World) (p : Page) : Page :=
  {| browser := w; currentIndex := currentIndex p; isRevealed := isRevealed p;
     imageUrl := imageUrl p; PARAMS := PARAMS p;
     charColorBinding_hidden := charColorBinding_hidden p;
     cellColorBinding_hidden := cellColorBinding_hidden p;
     assigned := assigned p; offsetHeight := offsetHeight p;
     calls := calls p; image_fetches := image_fetches p |}.

Definition set_currentIndex (i : nat) (p : Page) : Page :=
  {| browser := browser p; currentIndex := i; isRevealed := isRevealed p;
     imageUrl := imageUrl p; PARAMS := PARAMS p;
     charColorBinding_hidden := charColorBinding_hidden p;
     cellColorBinding_hidden := cellColorBinding_hidden p;
     assigned := assigned p; offsetHeight := offsetHeight p;
     calls := calls p; image_fetches := image_fetches p |}.

Definition set_isRevealed (b : bool) (p : Page) : Page :=
  {| browser := browser p; currentIndex := currentIndex p; isRevealed := b;
     imageUrl := imageUrl p; PARAMS := PARAMS p;
     charColorBinding_hidden := charColorBinding_hidden p;
     cellColorBinding_hidden := cellColorBinding_hidden p;
     assigned := assigned p; offsetHeight := offsetHeight p;
     calls := calls p; image_fetches := image_fetches p |}.

Definition set_imageUrl (v : JSValue) (p : Page) : Page :=
  {| browser := browser p; currentIndex := currentIndex p; isRevealed := isRevealed p;
     imageUrl := v; PARAMS := PARAMS p;
     charColorBinding_hidden := charColorBinding_hidden p;
     cellColorBinding_hidden := cellColorBinding_hidden p;
     assigned := assigned p; offsetHeight := offsetHeight p;
     calls := calls p; image_fetches := image_fetches p |}.

Definition set_PARAMS (params : Params) (p : Page) : Page :=
  {| browser := browser p; currentIndex := currentIndex p; isRevealed := isRevealed p;
     imageUrl := imageUrl p; PARAMS := params;
     charColorBinding_hidden := charColorBinding_hidden p;
     cellColorBinding_hidden := cellColorBinding_hidden p;
     assigned := assigned p; offsetHeight := offsetHeight p;
     calls := calls p; image_fetches := image_fetches p |}.

Definition set_charColorBinding_hidden (b : bool) (p : Page) : Page :=
  {| browser := browser p; currentIndex := currentIndex p; isRevealed := isRevealed p;
     imageUrl := imageUrl p; PARAMS := PARAMS p;
     charColorBinding_hidden := b;
     cellColorBinding_hidden := cellColorBinding_hidden p;
     assigned := assigned p; offsetHeight := offsetHeight p;
     calls := calls p; image_fetches := image_fetches p |}.

Definition set_cellColorBinding_hidden (b : bool) (p : Page) : Page :=
  {| browser := browser p; currentIndex := currentIndex p; isRevealed := isRevealed p;
     imageUrl := imageUrl p; PARAMS := PARAMS p;
     charColorBinding_hidden := charColorBinding_hidden p;
     cellColorBinding_hidden := b;
     assigned := assigned p; offsetHeight := offsetHeight p;
     calls := calls p; image_fetches := image_fetches p |}.

Definition set_assigned (f : gmap (string * string) JSValue → gmap (string * string) JSValue)
    (p : Page) : Page :=
  {| browser := browser p; currentIndex := currentIndex p; isRevealed := isRevealed p;
     imageUrl := imageUrl p; PARAMS := PARAMS p;
     charColorBinding_hidden := charColorBinding_hidden p;
     cellColorBinding_hidden := cellColorBinding_hidden p;
     assigned := f (assigned p); offsetHeight := offsetHeight p;
     calls := calls p; image_fetches := image_fetches p |}.

Definition add_call (c : Call) (p : Page) : Page :=
  {| browser := browser p; currentIndex := currentIndex p; isRevealed := isRevealed p;
     imageUrl := imageUrl p; PARAMS := PARAMS p;
     charColorBinding_hidden := charColorBinding_hidden p;
     cellColorBinding_hidden := cellColorBinding_hidden p;
     assigned := assigned p; offsetHeight := offsetHeight p;
     calls := calls p ++ [c]; image_fetches := image_fetches p |}.

Definition add_image_fetch (f : ImageFetch) (p : Page) : Page :=
  {| browser := browser p; currentIndex := currentIndex p; isRevealed := isRevealed p;
     imageUrl := imageUrl p; PARAMS := PARAMS p;
     charColorBinding_hidden := charColorBinding_hidden p;
     cellColorBinding_hidden := cellColorBinding_hidden p;
     assigned := assigned p; offsetHeight := offsetHeight p;
     calls := calls p; image_fetches := image_fetches p ++ [f] |}.

Definition set_calls (cs : list Call) (p : Page) : Page :=
  {| browser := browser p; currentIndex := currentIndex p; isRevealed := isRevealed p;
     imageUrl := imageUrl p; PARAMS := PARAMS p;
     charColorBinding_hidden := charColorBinding_hidden p;
     cellColorBinding_hidden := cellColorBinding_hidden p;
     assigned := assigned p; offsetHeight := offsetHeight p;
     calls := cs; image_fetches := image_fetches p |}.

Definition set_image_fetches (fs : list ImageFetch) (p : Page) : Page :=
  {| browser := browser p; currentIndex := currentIndex p; isRevealed := isRevealed p;
     imageUrl := imageUrl p; PARAMS := PARAMS p;
     charColorBinding_hidden := charColorBinding_hidden p;
     cellColorBinding_hidden := cellColorBinding_hidden p;
     assigned := assigned p; offsetHeight := offsetHeight p;
     calls := calls p; image_fetches := fs |}.

Definition with_charColorMode (v : JSValue) (params : Params) : Params :=
  {| charColor := charColor params; cellColor := cellColor params;
     charColorMode := v; cellColorMode := cellColorMode params |}.

Definition with_cellColorMode (v : JSValue) (params : Params) : Params :=
  {| charColor := charColor params; cellColor := cellColor params;
     charColorMode := charColorMode params; cellColorMode := v |}.

(** ** The monad of the page *)

(** What a function of the page can throw: an error of the cache
    component's kind, or the [ReferenceError] of an identifier that
    resolves to nothing. *)
Inductive PageError : Type :=
  | Thrown (e : JSError)
  | ReferenceError (name : string).

Inductive Settled (A : Type) : Type :=
  | Fulfilled (a : A)
  | Failed (e : PageError).
Arguments Fulfilled {A} a.
Arguments Failed {A} e.

Definition Task (A : Type) : Type := Page → Settled A * Page.

#[global] Instance Task_ret : MRet Task := λ A a p, (Fulfilled a, p).

#[global] Instance Task_bind : MBind Task := λ A B k m p,
  match m p with
  | (Fulfilled a, p') => k a p'
  | (Failed e, p') => (Failed e, p')
  end.

Definition task_throw {A : Type} (e : PageError) : Task A := λ p, (Failed e, p).

Definition task_catch {A : Type} (body : Task A) (handler : PageError → Task A) : Task A :=
  λ p,
  match body p with
  | (Fulfilled a, p') => (Fulfilled a, p')
  | (Failed e, p') => handler e p'
  end.

(** A computation of the cache component, run in the browser of the
    page. *)
Definition in_browser {A : Type} (m : JS A) : Task A := λ p,
  match m (browser p) with
  | (Normal a, w) => (Fulfilled a, set_browser w p)
  | (Throw e, w) => (Failed (Thrown e), set_browser w p)
  end.

(** A step that only computes. *)
Definition compute {A : Type} (c : Completion A) : Task A := λ p,
  match c with
  | Normal a => (Fulfilled a, p)
  | Throw e => (Failed (Thrown e), p)
  end.

(** Reading and updating the page. *)
Definition read {A : Type} (field : Page → A) : Task A := λ p, (Fulfilled (field p), p).

Definition update (f : Page → Page) : Task unit := λ p, (Fulfilled tt, f p).

(** [element.prop = v] for an element got by id when the script was
    loaded: a [TypeError] when there is no such element. *)
Definition assign (id prop : string) (v : JSValue) : Task unit := λ p,
  match document (browser p) !! id with
  | Some _ => (Fulfilled tt, set_assigned (insert (id, prop) v) p)
  | None => (Failed (Thrown TypeError), p)
  end.

(** [element.offsetHeight] for the element [artwork-text] got by id when
    the script was loaded: a [TypeError] when there is no such element. *)
Definition read_offsetHeight (id : string) : Task Z := λ p,
  match document (browser p) !! id with
  | Some _ => (Fulfilled (offsetHeight p), p)
  | None => (Failed (Thrown TypeError), p)
  end.

(** A call that is not awaited: it is recorded and runs in a later turn.
    (In the browser the part of the call before its first suspension runs
    at once; the callers here do nothing after the call but log, so that
    only the order of the console entries depends on it.) *)
Definition start (c : Call) : Task unit := update (add_call c).

Section PageProgram.
Context `{Platform} `{PagePlatform}.

(** Line 122. *)
Definition characters : string := " .:-=+*#%@".

(** Line 133, the template literal. *)
Definition image_url (image_id : string) : string :=
  "https://www.artic.edu/iiif/2/" +:+ image_id +:+ "/full/843,/0/default.jpg".

(** Lines 129-136. *)
Definition getImageUrl : Task JSValue :=
  artworkData ← in_browser fetchArtworksAndCache;
  nonempty ← compute (has_elements artworkData);
  if (nonempty : bool) then
    i ← read currentIndex;
    artwork ← compute (element artworkData i);
    image_id ← compute (property artwork "image_id");
    id ← compute (to_string image_id);
    mret (JString (image_url id))
  else
    mret JUndefined.

(** [element.innerHTML = v]. *)
Definition assign_innerHTML (element : option string) (v : JSValue) : Task unit :=
  html ← compute (html_of v);
  in_browser (set_innerHTML element html).

(** [title.innerHTML = text] outside the block that declares [title]
    (lines 180 and 182): the identifier resolves to the element of the page
    with the id [title], if the page has one, and to nothing if not. *)
Definition assign_title_innerHTML (text : string) : Task unit :=
  title ← in_browser (document_getElementById "title");
  match title with
  | Some _ => in_browser (set_innerHTML title text)
  | None => task_throw (ReferenceError "title")
  end.

(** Lines 157-177, the call [fetch(tempImageUrl)]: the request is made,
    its promise chain waits. The call is not awaited: the time until the
    answer passes before the chain runs, in a turn of its own ([turn]). *)
Definition fetch_image (tempImageUrl artworkData : JSValue) : Task unit :=
  url ← compute (to_string tempImageUrl);
  index ← read (λ p, length (requests (browser p)));
  in_browser (λ w, (Normal tt, add_request url w));;
  update (add_image_fetch
            {| request_index := index; captured_url := tempImageUrl;
               captured_data := artworkData |}).

(** Lines 141-184, without the callbacks of the promise chain. *)
Definition renderArtworkData : Task unit :=
  artworkData ← in_browser fetchArtworksAndCache;
  nonempty ← compute (has_elements artworkData);
  if (nonempty : bool) then
    i ← read currentIndex;
    artwork ← compute (element artworkData i);
    title ← in_browser (document_getElementById "artwork-title");
    artist ← in_browser (document_getElementById "artwork-artist");
    date ← in_browser (document_getElementById "artwork-date");
    artwork_title ← compute (property artwork "title");
    assign_innerHTML title artwork_title;;
    artist_display ← compute (property artwork "artist_display");
    assign_innerHTML artist (logical_or artist_display (JString "N/A"));;
    date_display ← compute (property artwork "date_display");
    assign_innerHTML date (logical_or date_display (JString "N/A"));;
    tempImageUrl ← getImageUrl;
    fetch_image tempImageUrl artworkData
  else if negb (ToBoolean artworkData) then
    assign_title_innerHTML
      "Could not retrieve artwork data due to an error. Check console for details."
  else
    assign_title_innerHTML "No artworks were found with the current query.".

(** Lines 161-165 and 370-374:
    [if (currentIndex < (artworkData.length - 1)) currentIndex++;
     else currentIndex = 0]. *)
Definition advance_currentIndex (artworkData : JSValue) : Task unit :=
  i ← read currentIndex;
  len ← compute (length_of artworkData);
  n ← compute (coerce_number len);
  if num_lt (num_of_Z (Z.of_nat i)) (num_sub n (Num 1))
  then update (set_currentIndex (S i))
  else update (set_currentIndex 0).

(** The six arguments of the calls of [renderImage] of lines 171, 309,
    317, 325, 330. *)
Definition renderImage_args (p : Page) : list JSValue :=
  [imageUrl p; JString characters; charColorMode (PARAMS p); cellColorMode (PARAMS p);
   charColor (PARAMS p); cellColor (PARAMS p)].

(** What [console.error('Fetch error:', error)] logs. *)
Definition logged (error : PageError) : option JSError :=
  match error with
  | Thrown e => Some e
  | ReferenceError _ => None
  end.

(** Lines 157-177, the promise chain of the image request, run when the
    request has settled with [result]. *)
Definition image_settled (f : ImageFetch) (result : FetchResult) : Task unit :=
  task_catch
    (match result with
     | Rejected => task_throw (Thrown FetchRejected)
     | Responded response =>
         if negb (ok response) then
           advance_currentIndex (captured_data f);;
           start call_renderArtworkData;;
           task_throw (Thrown (Error ("Error fetching image: " +:+ statusText response)))
         else
           update (set_imageUrl (captured_url f));;
           assign "image" "src" (captured_url f);;
           args ← read renderImage_args;
           start (call_renderImage args)
     end)
    (λ error, in_browser (console_error "Fetch error:" (logged error))).

(** Lines 397-406. *)
Definition setIsRevealed (revealed : bool) : Task unit :=
  update (set_isRevealed revealed);;
  if revealed then
    height ← read_offsetHeight "artwork-text";
    assign "image-container" "style.top" (JString (string_of_Z (height + 32) +:+ "px"));;
    assign "artwork-text" "style.opacity" (JNumber (Num 1))
  else
    assign "image-container" "style.top" (JNumber (Num 0));;
    assign "artwork-text" "style.opacity" (JNumber (Num 0)).

(** Lines 368-378, the handler of the Next button. *)
Definition nextBtn_click : Task unit :=
  artworkData ← in_browser fetchArtworksAndCache;
  advance_currentIndex artworkData;;
  setIsRevealed false;;
  assign "overlay" "style.display" (JString "flex");;
  start call_renderArtworkData.

(** Lines 409-412, the handler of a click on the overlay. *)
Definition overlay_click : Task unit :=
  setIsRevealed true;;
  assign "overlay" "style.display" (JString "none").

(** Lines 305-310, the handler of a change of the character colour
    mode to [value]. *)
Definition charColorMode_change (value : JSValue) : Task unit :=
  let isHidden := is_sampled value in
  update (set_charColorBinding_hidden isHidden);;
  update (λ p, set_PARAMS (with_charColorMode value (PARAMS p)) p);;
  args ← read renderImage_args;
  start (call_renderImage args).

(** Lines 316-318, the handler of a change of the character colour. *)
Definition charColor_change : Task unit :=
  args ← read renderImage_args;
  start (call_renderImage args).

(** Lines 321-326, the handler of a change of the cell colour mode to
    [value]. *)
Definition cellColorMode_change (value : JSValue) : Task unit :=
  let isHidden := is_sampled value in
  update (set_cellColorBinding_hidden isHidden);;
  update (λ p, set_PARAMS (with_cellColorMode value (PARAMS p)) p);;
  args ← read renderImage_args;
  start (call_renderImage args).

(** Lines 329-331, the handler of a change of the cell colour. *)
Definition cellColor_change : Task unit :=
  args ← read renderImage_args;
  start (call_renderImage args).

(** Lines 386-391, the handler of the Reset Colors button: [renderImage]
    is called with four arguments. *)
Definition resetBtn_click : Task unit :=
  update (λ p, set_PARAMS (with_charColorMode (JString "sampled") (PARAMS p)) p);;
  update (λ p, set_PARAMS (with_cellColorMode (JString "fixed") (PARAMS p)) p);;
  args ← read (λ p, [imageUrl p; JString characters;
                     charColorMode (PARAMS p); cellColorMode (PARAMS p)]);
  start (call_renderImage args);;
  start call_pane_refresh.

(** Time passes: the clock is at its next reading (which need not be a
    later time). *)
Definition pass_time (p : Page) : Page := set_browser (tick (browser p)) p.

(** One turn of the event loop on what the page has recorded. Time
    passes, and then the call that was started first runs, a render as far
    as its image request (a call into a library leaves the model), or the
    oldest image request settles with the answer of the network and its
    promise chain runs. *)
Inductive turn : Page → Page → Prop :=
  | turn_render p rest :
      calls p = call_renderArtworkData :: rest →
      turn p (snd (renderArtworkData (set_calls rest (pass_time p))))
  | turn_library p c rest :
      calls p = c :: rest →
      c ≠ call_renderArtworkData →
      turn p (set_calls rest (pass_time p))
  | turn_image p f rest url :
      image_fetches p = f :: rest →
      requests (browser p) !! request_index f = Some url →
      turn p (snd (image_settled f (network (browser p) (request_index f) url)
                     (set_image_fetches rest (pass_time p)))).

End PageProgram.

(** ** [renderImage] *)

(** The calls of the canvas library. *)
Inductive CanvasCall : Type :=
  | t_loadImage (imageUrl : JSValue)
  | myImage_characters (characters : JSValue)
  | myImage_charColorMode (mode : JSValue)
  | myImage_cellColorMode (mode : JSValue)
  | myImage_charColor (color : JSValue)
  | myImage_cellColor (color : JSValue)
  | t_resizeCanvas (width height : Z)
  | t_image.

(** The [i]-th argument of a call, [undefined] when it is not given. *)
Definition argument (args : list JSValue) (i : nat) : JSValue :=
  default JUndefined (args !! i).

(** A parameter with a default value: the default stands for
    [undefined]. *)
Definition with_default (v d : JSValue) : JSValue :=
  match v with
  | JUndefined => d
  | _ => v
  end.

(** Lines 222-245: the calls of the canvas library that [renderImage]
    makes, in order, when the image loads. *)
Definition renderImage (args : list JSValue) : list CanvasCall :=
  let imageUrl := argument args 0 in
  let characters := argument args 1 in
  let charColorMode := argument args 2 in
  let cellColorMode := argument args 3 in
  let charColorVal := with_default (argument args 4) (JString "ffffff") in
  let cellColorVal := with_default (argument args 5) (JString "000000") in
  [t_loadImage imageUrl;
   myImage_characters characters;
   myImage_charColorMode charColorMode;
   myImage_cellColorMode cellColorMode;
   myImage_charColor charColorVal;
   myImage_cellColor cellColorVal;
   t_resizeCanvas 600 600;
   t_image].

(** ** Vocabulary of the page *)

Section PageVocabulary.
Context `{Platform} `{PagePlatform}.

(** The page after the index update on the records [items]. *)
Definition next_page (items : list JSValue) (p : Page) : Page :=
  snd (advance_currentIndex (JArray items) p).

(** The page once [renderArtworkData] has written title, artist and
    date. *)
Definition shown (title_html artist_html date_html : string) (p : Page) : Page :=
  set_browser
    (set_document (insert "artwork-date" date_html)
       (set_document (insert "artwork-artist" artist_html)
          (set_document (insert "artwork-title" title_html) (browser p)))) p.

(** The page after the handler of the Next button, on the records
    [items]. *)
Definition after_next (items : list JSValue) (p : Page) : Page :=
  add_call call_renderArtworkData
    (set_assigned (insert ("overlay", "style.display") (JString "flex"))
       (set_assigned (insert ("artwork-text", "style.opacity") (JNumber (Num 0)))
          (set_assigned (insert ("image-container", "style.top") (JNumber (Num 0)))
             (set_isRevealed false
                (set_currentIndex
                   (if bool_decide (S (currentIndex p) < length items)%nat
                    then S (currentIndex p) else 0%nat) p))))).

(** What [s || 'N/A'] shows for a string [s]. *)
Definition or_NA (s : string) : string :=
  match s with
  | EmptyString => "N/A"
  | _ => s
  end.

(** An artwork whose four displayed fields are strings. *)
Definition displayable (artwork : JSValue) : Prop :=
  ∃ title artist date image_id,
    property artwork "title" = Normal (JString title) ∧
    property artwork "artist_display" = Normal (JString artist) ∧
    property artwork "date_display" = Normal (JString date) ∧
    property artwork "image_id" = Normal (JString image_id).

(** A page whose cache holds an entry stamped [timestamp] with the
    records [items], all displayable, whose three text elements exist,
    whose index is in range, and for which every request from the [n0]-th
    on is answered with a status that is not a success. *)
Record gallery_with_broken_images
    (items : list JSValue) (n0 : nat) (timestamp : Q) (p : Page) : Prop := {
  broken_entry : ∃ text cache,
    localStorage (browser p) !! CACHE_KEY = Some text ∧
    parse text = Normal cache ∧
    property cache "timestamp" = Normal (JNumber (Num timestamp)) ∧
    property cache "data" = Normal (JArray items);
  broken_items : Forall displayable items;
  broken_index : (currentIndex p < length items)%nat;
  broken_title : is_Some (document (browser p) !! "artwork-title");
  broken_artist : is_Some (document (browser p) !! "artwork-artist");
  broken_date : is_Some (document (browser p) !! "artwork-date");
  broken_network : ∀ n url, (n0 ≤ n)%nat →
    ∃ response, network (browser p) n url = Responded response ∧ ok response = false;
  broken_requests : (n0 ≤ length (requests (browser p)))%nat;
}.

(** What is waiting: one render and nothing else, or one image request
    and nothing else. *)
Definition render_pending (p : Page) : Prop :=
  calls p = [call_renderArtworkData] ∧ image_fetches p = [].

Definition image_pending (items : list JSValue) (n0 : nat) (p : Page) : Prop :=
  calls p = [] ∧
  ∃ f, image_fetches p = [f] ∧ captured_data f = JArray items ∧
       (n0 ≤ request_index f < length (requests (browser p)))%nat.

(** Nothing is waiting. *)
Definition at_rest (p : Page) : Prop := calls p = [] ∧ image_fetches p = [].

(** The entry stamped [timestamp] is fresh, or stale, at the [k]-th
    reading of the clock after the present one. *)
Definition fresh_at (p : Page) (timestamp : Q) (k : nat) : Prop :=
  (inject_Z (clock (browser p) (ticks (browser p) + k)%nat) - timestamp < inject_Z TTL)%Q.

Definition stale_at (p : Page) (timestamp : Q) (k : nat) : Prop :=
  (inject_Z TTL <= inject_Z (clock (browser p) (ticks (browser p) + k)%nat) - timestamp)%Q.

(** The address of the image of one of the records [items]. *)
Definition image_of (items : list JSValue) (url : string) : Prop :=
  ∃ artwork image_id,
    artwork ∈ items ∧
    property artwork "image_id" = Normal (JString image_id) ∧
    url = "https://www.artic.edu/iiif/2/" +:+ image_id +:+ "/full/843,/0/default.jpg".

(** The colour field of each mode is hidden exactly when the mode is
    'sampled'. *)
Definition panel_consistent (p : Page) : Prop :=
  charColorBinding_hidden p = is_sampled (charColorMode (PARAMS p)) ∧
  cellColorBinding_hidden p = is_sampled (cellColorMode (PARAMS p)).

End PageVocabulary.

(** ** A concrete page *)

Module PageDemo.

Definition platform : PagePlatform := {|
  ObjectToString v := Some "[object Object]";
  statusText response := if status response =? 404 then "Not Found" else EmptyString;
|}.

(** The elements of the page that the script gets by id. *)
Definition elements : gmap string string :=
  list_to_map
    [("artworks-list", EmptyString); ("artwork-title", EmptyString);
     ("artwork-artist", EmptyString); ("artwork-date", EmptyString);
     ("image", EmptyString); ("image-container", EmptyString);
     ("artwork-text", EmptyString); ("overlay", EmptyString)].

(** The page as the script sets it up (lines 5-6, 123, 258-263, 313),
    with the index at [i], in the browser [w]. *)
Definition page (w : World) (i : nat) : Page :=
  {| browser := w; currentIndex := i; isRevealed := false; imageUrl := JUndefined;
     PARAMS := {| charColor := JString "#ffffff"; cellColor := JString "#000000";
                  charColorMode := JString "sampled"; cellColorMode := JString "fixed" |};
     charColorBinding_hidden := true; cellColorBinding_hidden := false;
     assigned := ∅; offsetHeight := 100; calls := []; image_fetches := [] |}.

Definition not_found_response : Response := {| status := 404; body := None |}.
Definition not_found : FetchResult := Responded not_found_response.

(** The slot holds [Demo.entry], written at 1000; it is 2000. *)
Definition fresh_world : World :=
  Demo.world (Some (Demo.stringify Demo.entry)) elements
    (Demo.total_response 5000) Demo.batch_response 2000.

(** The same, and every request is answered 404. *)
Definition broken_world : World :=
  Demo.world (Some (Demo.stringify Demo.entry)) elements not_found not_found 2000.

(** No slot; the batch request is answered with status 500. *)
Definition failing_world : World :=
  Demo.world None elements (Demo.total_response 5000) Demo.server_error 0.

(** No slot; the batch request delivers one artwork that has a title and
    an image, and neither artist nor date. *)
Definition anonymous : JSValue :=
  JObject [("id", JNumber (Num 2)); ("title", JString "Study"); ("image_id", JString "0a1b2c")].

(** An image request that waits, made by a render that had fetched two
    records. *)
Definition image_request : ImageFetch :=
  {| request_index := 0;
     captured_url := JString "https://www.artic.edu/iiif/2/e966799b/full/843,/0/default.jpg";
     captured_data := JArray [Demo.artwork; anonymous] |}.

Definition anonymous_world : World :=
  Demo.world None elements (Demo.total_response 5000)
    (Demo.respond 200 (JObject [("data", JArray [anonymous])])) 0.

(** No slot, 5000 artworks, the batch request delivers [Demo.artworks];
    the call starts at -3000, so that the entry is stamped 1000. *)
Definition cold_world : World :=
  Demo.world None elements (Demo.total_response 5000) Demo.batch_response (-3000).

(** The page in [broken_world], with the initial render waiting. *)
Definition waiting_page : Page := add_call call_renderArtworkData (page broken_world 0).

(** The same slot and network, one second before the entry, written at
    1000, is one hour old; the initial render is waiting. *)
Definition expiring_page : Page :=
  add_call call_renderArtworkData
    (page (Demo.world (Some (Demo.stringify Demo.entry)) elements not_found not_found 3600000)
       0).

End PageDemo.

(** * Properties *)

(** ** Running the monad *)

Ltac js_unfold :=
  unfold mbind, mret, JS_bind, JS_ret, try_catch, throw, eval, Get, ToNumber,
    JSON_parse, fetch, Response_json,
    console_error, console_log, console_log_with_time, localStorage_getItem,
    localStorage_setItem, Date_getTime, Math_random, document_getElementById in *.

Ltac js_simpl := repeat (js_unfold; cbn beta iota zeta in * ).

Ltac world_simpl :=
  unfold stored, without_cache in *;
  cbn [fst snd localStorage document console requests network ticks clock draws entropy
       set_localStorage set_document add_console add_request tick draw] in *.

Ltac fetched_done :=
  eexists _, _; split; [reflexivity | split; cbn; auto with lia].

Section Runs.
Context `{Platform}.

(** [getPageTotal] never throws, and issues the metadata request and no
    other. *)
Lemma getPageTotal_run w :
  ∃ v w', getPageTotal w = (Normal v, w') ∧ fetched [total_url] w w'.
Proof.
  unfold getPageTotal. js_simpl. fold total_url.
  destruct (network w _ _) as [|r]; [fetched_done|].
  destruct (ok r); cbn [negb]; [|fetched_done].
  destruct (body r) as [countData|]; [|fetched_done].
  destruct (property countData _) as [pagination|]; [|fetched_done].
  destruct (property pagination _) as [totalArtworks|]; [|fetched_done].
  destruct (strict_equals_zero totalArtworks); fetched_done.
Qed.

Lemma randomID_run response w :
  randomID response w =
  (match coerce_number response with
   | Normal total => Normal (id_of_draw (entropy w (draws w)) total)
   | Throw e => Throw e
   end, draw w).
Proof. unfold randomID. js_simpl. by destruct (coerce_number response). Qed.

Lemma after_draws_S n w : after_draws n (draw w) = after_draws (S n) w.
Proof. unfold after_draws. by rewrite Nat.iter_succ_r. Qed.

Lemma draws_after_draws n w : draws (after_draws n w) = (n + draws w)%nat.
Proof.
  induction n as [|n IH]; [done|].
  change (after_draws (S n) w) with (draw (after_draws n w)). cbn. by rewrite IH.
Qed.

Lemma after_draws_fields n w :
  localStorage (after_draws n w) = localStorage w ∧
  document (after_draws n w) = document w ∧
  console (after_draws n w) = console w ∧
  requests (after_draws n w) = requests w ∧
  network (after_draws n w) = network w ∧
  ticks (after_draws n w) = ticks w ∧
  clock (after_draws n w) = clock w ∧
  entropy (after_draws n w) = entropy w.
Proof.
  induction n as [|n IH]; [done|].
  change (after_draws (S n) w) with (draw (after_draws n w)). cbn. exact IH.
Qed.

(** The loop of lines 48-51, for a [response] that coerces to a number:
    one identifier per draw, appended in order. *)
Lemma for_count_randomID response total count : ∀ i idArr w,
  coerce_number response = Normal total →
  for_count count i (λ _ idArr, id ← randomID response; mret (idArr ++ [id])) idArr w =
  (Normal (idArr ++ map (λ j, id_of_draw (entropy w (draws w + j)%nat) total) (seq 0 count)),
   after_draws count w).
Proof.
  induction count as [|count IH]; intros i idArr w Ht.
  - cbn. by rewrite app_nil_r.
  - cbn [for_count]. unfold mbind at 1, JS_bind at 1. unfold mbind at 1, JS_bind at 1.
    rewrite randomID_run, Ht. cbn [mret JS_ret].
    rewrite IH by done. rewrite after_draws_S. f_equal. f_equal.
    rewrite <- app_assoc. f_equal. cbn [seq map app]. rewrite Nat.add_0_r. f_equal.
    rewrite <- seq_shift, map_map. apply map_ext. intros j. cbn. by rewrite Nat.add_succ_r.
Qed.

Lemma getRandomIDs_run w v w1 :
  getPageTotal w = (Normal v, w1) →
  getRandomIDs w =
  match coerce_number v with
  | Normal total => (Normal (random_ids w1 total), after_draws 10 w1)
  | Throw e => (Throw e, draw w1)
  end.
Proof.
  intros Hv. unfold getRandomIDs. unfold mbind at 1, JS_bind at 1. rewrite Hv.
  destruct (coerce_number v) as [total|e] eqn:Ht.
  - by rewrite (for_count_randomID v total).
  - cbn [for_count]. unfold mbind at 1, JS_bind at 1. unfold mbind at 1, JS_bind at 1.
    by rewrite randomID_run, Ht.
Qed.

(** The [catch] clause returns [null] when the page has the element
    [artworks-list], and throws a [TypeError] of its own when not. *)
Lemma catch_run error w :
  fetchArtworksAndCache_catch error w =
  let w' := add_console (console_error_entry "An error occurred during API fetch:" (Some error)) w in
  match document w !! "artworks-list" with
  | Some _ => (Normal JNull, set_document (insert "artworks-list" (failure_html error)) w')
  | None => (Throw TypeError, w')
  end.
Proof.
  unfold fetchArtworksAndCache_catch. js_simpl. cbn [document add_console].
  destruct (document w !! "artworks-list") eqn:E.
  - rewrite decide_True by eauto. reflexivity.
  - rewrite decide_False by (intros [? ?]; congruence). reflexivity.
Qed.

(** The fetch from the API, path by path. *)
Lemma remote_run w v w1 :
  getPageTotal w = (Normal v, w1) →
  fetchArtworksAndCache_remote w =
  match coerce_number v with
  | Throw e => fetchArtworksAndCache_catch e (draw w1)
  | Normal total =>
      let idString := join "," (random_ids w1 total) in
      let w2 := tick (add_request (batch_url idString)
                  (add_console (console_log_entry idString) (after_draws 10 w1))) in
      match network w1 (length (requests w1)) (batch_url idString) with
      | Rejected => fetchArtworksAndCache_catch FetchRejected w2
      | Responded response =>
          if ok response then
            match body response with
            | None => fetchArtworksAndCache_catch SyntaxError (tick w2)
            | Some apiResponse =>
                match property apiResponse "data" with
                | Throw e => fetchArtworksAndCache_catch e (tick w2)
                | Normal artworks =>
                    (Normal artworks,
                     stored (num_of_Z (clock w1 (S (S (ticks w1))))) artworks (tick w2))
                end
            end
          else
            fetchArtworksAndCache_catch
              (Error ("HTTP error! Status: " +:+ string_of_Z (status response))) w2
      end
  end.
Proof.
  intros Hv. unfold fetchArtworksAndCache_remote, try_catch.
  unfold mbind at 1, JS_bind at 1. rewrite (getRandomIDs_run w v w1 Hv).
  destruct (coerce_number v) as [total|e]; [|done].
  destruct (after_draws_fields 10 w1) as (_ & _ & _ & Hr & Hn & Ht & Hc & _).
  cbn zeta. generalize (join "," (random_ids w1 total)). intros idString.
  generalize dependent (after_draws 10 w1). intros w2 Hr Hn Ht Hc.
  js_simpl. cbn [network requests clock ticks add_console add_request tick].
  rewrite Hr, Hn.
  destruct (network w1 _ _) as [|response]; [done|].
  destruct (ok response); cbn [negb]; [|done].
  destruct (body response) as [apiResponse|]; [|done].
  destruct (property apiResponse "data") as [artworks|e]; [|done].
  cbn [clock ticks add_console add_request tick]. by rewrite Ht, Hc.
Qed.

(** The cache lookup on an absent or empty slot. *)
Lemma cached_absent w :
  truthy (localStorage w !! CACHE_KEY) = false →
  fetchArtworksAndCache_cached w =
  (Normal None, add_console (console_log_entry "No cached data found. Fetching from API...") w).
Proof. intros Hs. unfold fetchArtworksAndCache_cached. js_simpl. by rewrite Hs. Qed.

(** The cache lookup on a non-empty slot, path by path. *)
Lemma cached_present w text :
  localStorage w !! CACHE_KEY = Some text →
  truthy (Some text) = true →
  fetchArtworksAndCache_cached w =
  let parse_error e :=
    console_error_entry "Error parsing cached data. Fetching new data." (Some e) in
  match parse text with
  | Throw e => (Normal None, add_console (parse_error e) w)
  | Normal cache =>
      match property cache "timestamp" with
      | Throw e => (Normal None, add_console (parse_error e) w)
      | Normal timestamp =>
          match coerce_number timestamp with
          | Throw e => (Normal None, add_console (parse_error e) w)
          | Normal t =>
              if fresh w t then
                match property cache "data" with
                | Normal data =>
                    (Normal (Some data),
                     add_console (console_log_time "Data retrieved from CACHE." timestamp) w)
                | Throw e =>
                    (Normal None,
                     add_console (parse_error e)
                       (add_console (console_log_time "Data retrieved from CACHE." timestamp) w))
                end
              else
                (Normal None,
                 add_console
                   (console_log_entry "Cached data found but has EXPIRED. Fetching new data...") w)
          end
      end
  end.
Proof.
  intros Hs Ht. unfold fetchArtworksAndCache_cached. js_simpl. rewrite Hs, Ht.
  cbn [default from_option id].
  destruct (parse text) as [cache|e]; [|reflexivity].
  destruct (property cache "timestamp") as [timestamp|e]; [|reflexivity].
  destruct (coerce_number timestamp) as [t|e]; [|reflexivity].
  unfold fresh, now. destruct (num_lt _ _); [|reflexivity].
  by destruct (property cache "data").
Qed.

(** The cache lookup never throws and touches nothing but the console. *)
Lemma cached_run w :
  ∃ cached w', fetchArtworksAndCache_cached w = (Normal cached, w') ∧ fetched [] w w'.
Proof.
  destruct (truthy (localStorage w !! CACHE_KEY)) eqn:Ht.
  - destruct (localStorage w !! CACHE_KEY) as [text|] eqn:Hs; [|discriminate].
    rewrite (cached_present w text Hs Ht). cbn zeta.
    repeat case_match;
      (eexists _, _; split; [reflexivity | split; cbn; rewrite ?app_nil_r; auto with lia]).
  - rewrite (cached_absent w Ht).
    eexists _, _; split; [reflexivity | split; cbn; rewrite ?app_nil_r; auto with lia].
Qed.

(** A text that parses is not empty, hence truthy. *)
Lemma parse_truthy text v : parse text = Normal v → truthy (Some text) = true.
Proof. by destruct text. Qed.

Lemma truthy_false_cases (slot : option string) :
  truthy slot = false ↔ slot = None ∨ slot = Some EmptyString.
Proof.
  destruct slot as [[|? ?]|]; cbn; split; auto; try discriminate;
    intros [?|?]; discriminate.
Qed.

Lemma CACHE_DURATION_TTL : CACHE_DURATION = num_of_Z TTL.
Proof. reflexivity. Qed.

End Runs.

(** ** The fetch from the API does not depend on the cache *)

Create HintDb oblivious.

Section Oblivious.
Context {A B : Type}.

Lemma oblivious_ret (a : A) : oblivious (mret a).
Proof. by intros w1 w2 Hw. Qed.

Lemma oblivious_throw (e : JSError) : oblivious (throw (A:=A) e).
Proof. by intros w1 w2 Hw. Qed.

Lemma oblivious_eval (c : Completion A) : oblivious (eval c).
Proof. by intros w1 w2 Hw. Qed.

Lemma oblivious_bind (m : JS A) (k : A → JS B) :
  oblivious m → (∀ a, oblivious (k a)) → oblivious (m ≫= k).
Proof.
  intros Hm Hk w1 w2 Hw. unfold mbind, JS_bind.
  destruct (Hm w1 w2 Hw) as [Hc Hw']. revert Hc Hw'.
  destruct (m w1) as [[a1|e1] w1'], (m w2) as [[a2|e2] w2']; cbn;
    intros [= <-] Hw'; auto. by apply Hk.
Qed.

Lemma oblivious_try_catch (body : JS A) (handler : JSError → JS A) :
  oblivious body → (∀ e, oblivious (handler e)) → oblivious (try_catch body handler).
Proof.
  intros Hm Hk w1 w2 Hw. unfold try_catch.
  destruct (Hm w1 w2 Hw) as [Hc Hw']. revert Hc Hw'.
  destruct (body w1) as [[a1|e1] w1'], (body w2) as [[a2|e2] w2']; cbn;
    intros [= <-] Hw'; auto. by apply Hk.
Qed.

Lemma oblivious_if (b : bool) (m1 m2 : JS A) :
  oblivious m1 → oblivious m2 → oblivious (if b then m1 else m2).
Proof. by destruct b. Qed.

End Oblivious.

Lemma oblivious_for_count {S : Type} (body : nat → S → JS S) count :
  (∀ i s, oblivious (body i s)) → ∀ i s, oblivious (for_count count i body s).
Proof.
  intros Hbody. induction count as [|count IH]; intros i s; cbn [for_count].
  - apply oblivious_ret.
  - apply oblivious_bind; auto.
Qed.

Ltac oblivious_primitive :=
  let Hw := fresh in
  intros ? ? Hw; destruct Hw; js_simpl; cbn;
  repeat match goal with H : _ = _ |- _ => rewrite H end;
  repeat case_match; split; try split; cbn; congruence.

Section ObliviousProgram.
Context `{Platform}.

Lemma oblivious_fetch url : oblivious (fetch url).
Proof. oblivious_primitive. Qed.

Lemma oblivious_json r : oblivious (Response_json r).
Proof. oblivious_primitive. Qed.

Lemma oblivious_random : oblivious Math_random.
Proof. oblivious_primitive. Qed.

Lemma oblivious_getTime : oblivious Date_getTime.
Proof. oblivious_primitive. Qed.

Lemma oblivious_console_log text : oblivious (console_log text).
Proof. oblivious_primitive. Qed.

Lemma oblivious_console_log_with_time text time :
  oblivious (console_log_with_time text time).
Proof. oblivious_primitive. Qed.

Lemma oblivious_console_error text e : oblivious (console_error text e).
Proof. oblivious_primitive. Qed.

Lemma oblivious_setItem k v : oblivious (localStorage_setItem k v).
Proof. oblivious_primitive. Qed.

Lemma oblivious_getElementById id : oblivious (document_getElementById id).
Proof. oblivious_primitive. Qed.

Lemma oblivious_set_innerHTML el html : oblivious (set_innerHTML el html).
Proof. destruct el; oblivious_primitive. Qed.

#[local] Hint Resolve oblivious_ret oblivious_throw oblivious_eval oblivious_bind
  oblivious_try_catch oblivious_if oblivious_for_count oblivious_fetch oblivious_json
  oblivious_random oblivious_getTime oblivious_console_log oblivious_console_log_with_time
  oblivious_console_error oblivious_setItem oblivious_getElementById
  oblivious_set_innerHTML : oblivious.

Lemma oblivious_getPageTotal : oblivious getPageTotal.
Proof. unfold getPageTotal, Get. auto 20 with oblivious. Qed.

Lemma oblivious_getRandomIDs : oblivious getRandomIDs.
Proof.
  unfold getRandomIDs, randomID, ToNumber.
  auto 20 using oblivious_getPageTotal with oblivious.
Qed.

Lemma oblivious_catch e : oblivious (fetchArtworksAndCache_catch e).
Proof. unfold fetchArtworksAndCache_catch. auto 20 with oblivious. Qed.

Lemma oblivious_remote : oblivious fetchArtworksAndCache_remote.
Proof.
  unfold fetchArtworksAndCache_remote, Get.
  auto 30 using oblivious_getRandomIDs, oblivious_catch with oblivious.
Qed.

End ObliviousProgram.

(** ** Every call ends in one of the four outcomes *)

Section Outcomes.
Context `{Platform}.

Lemma catch_outcome e w :
  requests (snd (fetchArtworksAndCache_catch e w)) = requests w ∧
  localStorage (snd (fetchArtworksAndCache_catch e w)) = localStorage w ∧
  failure_signal w (fst (fetchArtworksAndCache_catch e w)).
Proof.
  rewrite catch_run. unfold failure_signal. cbn zeta.
  by destruct (document w !! "artworks-list").
Qed.

(** The fetch from the API, started in a world [w] that the cache lookup
    made of [w0]. *)
Lemma remote_outcome w0 w :
  fetched [] w0 w →
  RemoteOutcome w0 (fst (fetchArtworksAndCache_remote w))
    (snd (fetchArtworksAndCache_remote w)).
Proof.
  intros [Hls Hdoc Hreq Hnet Hclock _ _ Hticks]. rewrite app_nil_r in Hreq.
  destruct (getPageTotal_run w)
    as (v & w1 & Hv & [Hls1 Hdoc1 Hreq1 Hnet1 Hclock1 _ _ Hticks1]).
  rewrite (remote_run w v w1 Hv).
  destruct (after_draws_fields 10 w1) as (Hls2 & Hdoc2 & _ & Hreq2 & _).
  assert (∀ e w2, requests w2 = requests w0 ++ [total_url] →
            localStorage w2 = localStorage w0 → document w2 = document w0 →
            RemoteOutcome w0 (fst (fetchArtworksAndCache_catch e w2))
              (snd (fetchArtworksAndCache_catch e w2))) as Hno_batch.
  { intros e w2 Hr Hl Hd. destruct (catch_outcome e w2) as (Hr' & Hl' & Hf).
    apply remote_no_batch; [congruence..|]. unfold failure_signal in *. by rewrite <- Hd. }
  assert (∀ e w2 url, requests w2 = requests w0 ++ [total_url; url] →
            batch_data (network w0 (batch_index w0) url) = None →
            localStorage w2 = localStorage w0 → document w2 = document w0 →
            RemoteOutcome w0 (fst (fetchArtworksAndCache_catch e w2))
              (snd (fetchArtworksAndCache_catch e w2))) as Hbatch.
  { intros e w2 url Hr Hb Hl Hd. destruct (catch_outcome e w2) as (Hr' & Hl' & Hf).
    apply (remote_batch_failed _ _ _ url); [congruence..|].
    unfold failure_signal in *. by rewrite <- Hd. }
  assert (length (requests w1) = batch_index w0) as Hidx.
  { unfold batch_index. rewrite Hreq1, Hreq, length_app. cbn. lia. }
  assert (∀ url, requests w1 ++ [url] = requests w0 ++ [total_url; url]) as Hurls.
  { intros url. by rewrite Hreq1, Hreq, <- app_assoc. }
  destruct (coerce_number v) as [total|e]; cbn zeta.
  2:{ apply Hno_batch; world_simpl; congruence. }
  generalize (join "," (random_ids w1 total)). intros idString.
  generalize dependent (after_draws 10 w1). intros w2 Hls2 Hdoc2 Hreq2.
  set (url := batch_url idString).
  rewrite Hidx, Hnet1, Hnet.
  destruct (network w0 _ _) as [|response] eqn:Hresult.
  { apply (Hbatch _ _ url); world_simpl; rewrite ?Hreq2, ?Hresult; try congruence; done. }
  destruct (ok response) eqn:Hok.
  2:{ apply (Hbatch _ _ url); world_simpl; rewrite ?Hreq2, ?Hresult; cbn; rewrite ?Hok;
        try congruence; done. }
  destruct (body response) as [apiResponse|] eqn:Hbody.
  2:{ apply (Hbatch _ _ url); world_simpl; rewrite ?Hreq2, ?Hresult; cbn;
        rewrite ?Hok, ?Hbody; try congruence; done. }
  destruct (property apiResponse "data") as [artworks|e] eqn:Hdata.
  2:{ apply (Hbatch _ _ url); world_simpl; rewrite ?Hreq2, ?Hresult; cbn;
        rewrite ?Hok, ?Hbody, ?Hdata; try congruence; done. }
  eapply (remote_stored _ _ _ _ artworks (S (S (ticks w1)))); world_simpl.
  - by rewrite Hreq2.
  - rewrite Hresult. cbn. by rewrite Hok, Hbody, Hdata.
  - lia.
  - rewrite Hls2, Hls1, Hls, Hclock1, Hclock. reflexivity.
  - reflexivity.
Qed.

Ltac remote_after_lookup :=
  apply outcome_miss, remote_outcome; split; world_simpl; rewrite ?app_nil_r; auto.

Lemma fetch_outcome w :
  Outcome w (fst (fetchArtworksAndCache w)) (snd (fetchArtworksAndCache w)).
Proof.
  unfold fetchArtworksAndCache, mbind, JS_bind.
  destruct (truthy (localStorage w !! CACHE_KEY)) eqn:Ht.
  - destruct (localStorage w !! CACHE_KEY) as [text|] eqn:Hs; [|discriminate].
    rewrite (cached_present w text Hs Ht). cbn zeta.
    destruct (parse text) as [cache|e] eqn:Hp; [|remote_after_lookup].
    destruct (property cache "timestamp") as [timestamp|e] eqn:Hts; [|remote_after_lookup].
    destruct (coerce_number timestamp) as [t|e] eqn:Hn; [|remote_after_lookup].
    destruct (fresh w t) eqn:Hf; [|remote_after_lookup].
    destruct (property cache "data") as [data|e] eqn:Hd; [|remote_after_lookup].
    by eapply outcome_hit.
  - rewrite (cached_absent w Ht). remote_after_lookup.
Qed.

(** What [getPageTotal] yields, read off the answer to its request. *)
Lemma getPageTotal_reported w :
  ∃ w',
    getPageTotal w =
      (Normal (reported_total (network w (length (requests w)) total_url)), w') ∧
    fetched [total_url] w w'.
Proof.
  unfold getPageTotal, reported_total, pagination_total. js_simpl. fold total_url.
  destruct (network w _ _) as [|r]; [eexists; split; [reflexivity|split; cbn; auto with lia]|].
  destruct (ok r); cbn [negb];
    [|eexists; split; [reflexivity|split; cbn; auto with lia]].
  destruct (body r) as [countData|];
    [|eexists; split; [reflexivity|split; cbn; auto with lia]].
  destruct (property countData _) as [pagination|];
    [|eexists; split; [reflexivity|split; cbn; auto with lia]].
  destruct (property pagination _) as [totalArtworks|];
    [|eexists; split; [reflexivity|split; cbn; auto with lia]].
  destruct (strict_equals_zero totalArtworks);
    eexists; (split; [reflexivity|split; cbn; auto with lia]).
Qed.

Lemma catch_draws e w : draws (snd (fetchArtworksAndCache_catch e w)) = draws w.
Proof. rewrite catch_run. cbn zeta. by destruct (document w !! "artworks-list"). Qed.

(** The fetch from the API, started in a world [w] that the cache lookup
    made of [w0], is the fresh fetch of the call. *)
Lemma remote_fresh_fetch w0 w :
  fetched [] w0 w →
  fresh_fetch w0 (fst (fetchArtworksAndCache_remote w))
    (snd (fetchArtworksAndCache_remote w)).
Proof.
  intros [Hls Hdoc Hreq Hnet Hclock Hent Hdraws Hticks]. rewrite app_nil_r in Hreq.
  destruct (getPageTotal_reported w)
    as (w1 & Hv & [Hls1 Hdoc1 Hreq1 Hnet1 Hclock1 Hent1 Hdraws1 Hticks1]).
  rewrite (remote_run w _ w1 Hv). unfold fresh_fetch.
  change "https://api.artic.edu/api/v1/artworks?limit=0" with total_url.
  rewrite <- Hreq, <- Hnet.
  assert (∀ e w2, document w2 = document w0 →
            failure_signal w0 (fst (fetchArtworksAndCache_catch e w2))) as Hsignal.
  { intros e w2 Hd. destruct (catch_outcome e w2) as (_ & _ & Hf).
    unfold failure_signal in *. by rewrite <- Hd. }
  destruct (coerce_number _) as [total|e]; cbn zeta.
  2:{ destruct (catch_outcome e (draw w1)) as (Hr' & Hl' & _).
      rewrite Hr', Hl'. world_simpl. split_and!; [done| |congruence].
      apply Hsignal. world_simpl. congruence. }
  assert (random_ids w1 total =
          map (λ j, id_of_draw (entropy w0 (draws w0 + j)%nat) total) (seq 0 10)) as <-.
  { unfold random_ids. by rewrite Hent1, Hent, Hdraws1, Hdraws. }
  assert (S (length (requests w)) = length (requests w1)) as ->.
  { rewrite Hreq1, length_app. cbn. lia. }
  change ("https://api.artic.edu/api/v1/artworks?ids=" +:+ join "," (random_ids w1 total) +:+
          "&fields=id,title,image_id,artist_display,date_display")
    with (batch_url (join "," (random_ids w1 total))).
  rewrite <- Hnet1.
  destruct (after_draws_fields 10 w1) as (Hls2 & Hdoc2 & _ & Hreq2 & _).
  pose proof (draws_after_draws 10 w1) as Hdraws2.
  generalize (join "," (random_ids w1 total)). intros idString.
  generalize dependent (after_draws 10 w1). intros w2 Hls2 Hdoc2 Hreq2 Hdraws2.
  set (url := batch_url idString).
  assert (∀ e w3, requests w3 = requests w1 ++ [url] → draws w3 = draws w2 →
            localStorage w3 = localStorage w1 → document w3 = document w1 →
            requests (snd (fetchArtworksAndCache_catch e w3)) =
              requests w ++ [total_url; url] ∧
            draws (snd (fetchArtworksAndCache_catch e w3)) = (draws w + 10)%nat ∧
            failure_signal w0 (fst (fetchArtworksAndCache_catch e w3)) ∧
            localStorage (snd (fetchArtworksAndCache_catch e w3)) = localStorage w) as Hfail.
  { intros e w3 Hr Hd Hl Hdc. destruct (catch_outcome e w3) as (Hr' & Hl' & _).
    rewrite Hr', Hl', catch_draws, Hr, Hd, Hdraws2, Hreq1, <- app_assoc, Hl, Hls1, Hdraws1.
    split_and!; try done; [lia|]. apply Hsignal. congruence. }
  unfold batch_data.
  destruct (network w1 _ _) as [|response].
  { destruct (Hfail FetchRejected
                (tick (add_request url (add_console (console_log_entry idString) w2))))
      as (? & ? & ? & ?); world_simpl; try congruence.
    split_and!; try done; congruence. }
  destruct (ok response).
  2:{ destruct (Hfail (Error ("HTTP error! Status: " +:+ string_of_Z (status response)))
                  (tick (add_request url (add_console (console_log_entry idString) w2))))
        as (? & ? & ? & ?); world_simpl; try congruence.
      split_and!; try done; congruence. }
  destruct (body response) as [apiResponse|].
  2:{ destruct (Hfail SyntaxError
                  (tick (tick (add_request url
                                 (add_console (console_log_entry idString) w2)))))
        as (? & ? & ? & ?); world_simpl; try congruence.
      split_and!; try done; congruence. }
  destruct (property apiResponse "data") as [artworks|e].
  2:{ destruct (Hfail e
                  (tick (tick (add_request url
                                 (add_console (console_log_entry idString) w2)))))
        as (? & ? & ? & ?); world_simpl; try congruence.
      split_and!; try done; congruence. }
  world_simpl. split_and!.
  - by rewrite Hreq2, Hreq1, <- app_assoc.
  - rewrite Hdraws2, Hdraws1. lia.
  - done.
  - exists (clock w1 (S (S (ticks w1)))). by rewrite Hls2, Hls1, Hls.
Qed.

Lemma batch_lookup (l : list string) (urls : list string) :
  (l ++ urls) !! S (length l) = urls !! 1%nat.
Proof. rewrite lookup_app_r by lia. f_equal. lia. Qed.

Lemma batch_data_transport_failure result :
  transport_failure result → batch_data result = None.
Proof. destruct result as [|r]; cbn; [done|]. by intros ->. Qed.

End Outcomes.

(** ** Rounding to binary64 *)

Section Rounding.

Lemma pow2_pos e : (0 < pow2 e)%Q.
Proof. apply Qpower_0_lt. reflexivity. Qed.

Lemma pow2_add a b : (pow2 (a + b) == pow2 a * pow2 b)%Q.
Proof. apply Qpower_plus. discriminate. Qed.

Lemma pow2_le a b : a ≤ b → (pow2 a <= pow2 b)%Q.
Proof. intros. apply Qpower_le_compat_l; [done|]. discriminate. Qed.

Lemma pow2_lt a b : a < b → (pow2 a < pow2 b)%Q.
Proof. intros. apply Qpower_lt_compat_l; [done|]. reflexivity. Qed.

Lemma pow2_lt_inv a b : (pow2 a < pow2 b)%Q → a < b.
Proof. intros. eapply Qpower_lt_compat_l_inv; [done|]. reflexivity. Qed.

Lemma pow2_Z e : 0 ≤ e → (pow2 e == inject_Z (2 ^ e))%Q.
Proof. intros. unfold pow2. by rewrite Zpower_Qpower. Qed.

Lemma pow2_opp e : (pow2 (- e) * pow2 e == 1)%Q.
Proof. rewrite <- pow2_add. by replace (- e + e) with 0 by lia. Qed.

(** [Qlog2 q] is the exponent of the binade of a positive [q]. *)
Lemma Qlog2_spec q : (0 < q)%Q → (pow2 (Qlog2 q) <= q)%Q ∧ (q < pow2 (Qlog2 q + 1))%Q.
Proof.
  intros Hq. destruct q as [n d]. unfold Qlog2. cbn [Qnum Qden].
  assert (0 < n) as Hn.
  { unfold Qlt in Hq. cbn in Hq. lia. }
  set (a := Z.log2 n). set (b := Z.log2 (Z.pos d)).
  assert (0 ≤ a) as Ha by apply Z.log2_nonneg.
  assert (0 ≤ b) as Hb by apply Z.log2_nonneg.
  destruct (Z.log2_spec n Hn) as [Hn1 Hn2]. fold a in Hn1, Hn2.
  destruct (Z.log2_spec (Z.pos d) ltac:(lia)) as [Hd1 Hd2]. fold b in Hd1, Hd2.
  assert (n # d == inject_Z n / inject_Z (Z.pos d))%Q as Hq' by apply Qmake_Qdiv.
  assert (0 < inject_Z (Z.pos d))%Q as Hdpos by (unfold Qlt; cbn; lia).
  assert (∀ k, pow2 (a - b + k) == pow2 k * inject_Z (2 ^ a) / inject_Z (2 ^ b))%Q as Hpow.
  { intros k. replace (a - b + k) with (k + a + - b) by lia.
    rewrite !pow2_add, <- (pow2_Z a), <- (pow2_Z b) by done.
    unfold pow2 at 3. rewrite Qpower_opp. fold (pow2 b). reflexivity. }
  assert (0 < inject_Z (2 ^ b))%Q as Hbpos.
  { rewrite <- pow2_Z by done. apply pow2_pos. }
  assert (inject_Z (2 ^ a) <= inject_Z n)%Q as Q1 by (by rewrite <- Zle_Qle).
  assert (inject_Z n < inject_Z (2 ^ Z.succ a))%Q as Q2 by (by rewrite <- Zlt_Qlt).
  assert (inject_Z (2 ^ b) <= inject_Z (Z.pos d))%Q as Q3 by (by rewrite <- Zle_Qle).
  assert (inject_Z (Z.pos d) < inject_Z (2 ^ Z.succ b))%Q as Q4 by (by rewrite <- Zlt_Qlt).
  rewrite Z.pow_succ_r in Q2, Q4 by done.
  rewrite inject_Z_mult in Q2, Q4.
  set (N := inject_Z n) in *. set (D := inject_Z (Z.pos d)) in *.
  set (A := inject_Z (2 ^ a)) in *. set (B := inject_Z (2 ^ b)) in *.
  assert (0 < A)%Q as HApos.
  { unfold A. rewrite <- pow2_Z by done. apply pow2_pos. }
  change (inject_Z 2) with 2%Q in *.
  (* q < 2 A / B and A / (2 B) < q *)
  assert (N / D < 2 * A / B)%Q as Hup.
  { apply Qlt_shift_div_r; [done|].
    assert (2 * A / B * D == 2 * A * (D / B))%Q as -> by (field; lra).
    assert (1 <= D / B)%Q by (apply Qle_shift_div_l; lra).
    nra. }
  assert (A / (2 * B) < N / D)%Q as Hlow.
  { apply Qlt_shift_div_l; [lra|].
    assert (A / (2 * B) * D == A * (D / (2 * B)))%Q as -> by (field; lra).
    assert (D / (2 * B) < 1)%Q by (apply Qlt_shift_div_r; lra).
    nra. }
  destruct (Qle_bool (pow2 (a - b)) (n # d)) eqn:E.
  - apply Qle_bool_iff in E. split; [done|].
    rewrite Hq', Hpow. change (pow2 1) with 2%Q. lra.
  - assert (¬ (pow2 (a - b) <= n # d)%Q) as E' by (rewrite <- Qle_bool_iff; congruence).
    apply Qnot_le_lt in E'. split.
    + replace (a - b - 1) with (a - b + -1) by lia. rewrite Hq', Hpow.
      change (pow2 (-1)) with (1 # 2)%Q.
      assert ((1 # 2) * A / B == A / (2 * B))%Q as -> by (field; lra). lra.
    + by replace (a - b - 1 + 1) with (a - b) by lia.
Qed.

Lemma Qfloor_bounds q : (inject_Z (Qfloor q) <= q)%Q ∧ (q < inject_Z (Qfloor q) + 1)%Q.
Proof.
  split; [apply Qfloor_le|].
  pose proof (Qlt_floor q) as Hlt. rewrite inject_Z_plus in Hlt. exact Hlt.
Qed.

Lemma round_half_even_cases q :
  round_half_even q = Qfloor q ∧ (q - inject_Z (Qfloor q) <= 1 # 2)%Q ∨
  round_half_even q = Qfloor q + 1 ∧ (1 # 2 <= q - inject_Z (Qfloor q))%Q.
Proof.
  unfold round_half_even.
  destruct (q - inject_Z (Qfloor q) ?= 1 # 2)%Q eqn:E.
  - apply Qeq_alt in E. destruct (Z.even (Qfloor q)); [left|right]; (split; [done|lra]).
  - apply Qlt_alt in E. left. split; [done|lra].
  - apply Qgt_alt in E. right. split; [done|lra].
Qed.

Lemma round_half_even_comp q q' : (q == q')%Q → round_half_even q = round_half_even q'.
Proof.
  intros Hq. unfold round_half_even. rewrite (Qfloor_comp _ _ Hq).
  assert (q - inject_Z (Qfloor q') == q' - inject_Z (Qfloor q'))%Q as Hd by (by rewrite Hq).
  by rewrite (Qcompare_comp _ _ Hd _ _ (Qeq_refl (1 # 2))).
Qed.

Lemma round_half_even_le K q : (q <= inject_Z K)%Q → round_half_even q ≤ K.
Proof.
  intros Hq. destruct (Qfloor_bounds q) as [Hf1 Hf2].
  assert (Qfloor q ≤ K) as HfK.
  { rewrite <- (Qfloor_Z K). by apply Qfloor_resp_le. }
  destruct (round_half_even_cases q) as [[-> _]|[-> Hhalf]]; [done|].
  cut (Qfloor q < K); [lia|]. rewrite Zlt_Qlt. lra.
Qed.

Lemma round_half_even_ge K q : (inject_Z K <= q)%Q → K ≤ round_half_even q.
Proof.
  intros Hq.
  assert (K ≤ Qfloor q) as HfK.
  { rewrite <- (Qfloor_Z K). by apply Qfloor_resp_le. }
  destruct (round_half_even_cases q) as [[-> _]|[-> _]]; lia.
Qed.

Lemma round_half_even_below K q : (q < inject_Z K - (1 # 2))%Q → round_half_even q < K.
Proof.
  intros Hq. destruct (Qfloor_bounds q) as [Hf1 Hf2].
  assert (Qfloor q < K) as HfK by (rewrite Zlt_Qlt; lra).
  destruct (round_half_even_cases q) as [[-> _]|[-> Hhalf]]; [done|].
  cut (Qfloor q + 1 < K); [lia|]. rewrite Zlt_Qlt, inject_Z_plus.
  change (inject_Z 1) with 1%Q. lra.
Qed.

Lemma round_half_even_Z K : round_half_even (inject_Z K) = K.
Proof.
  apply Z.le_antisymm; [apply round_half_even_le|apply round_half_even_ge]; lra.
Qed.

Lemma binary64_eq q :
  ¬ (q == 0)%Q →
  binary64 q = Qred (inject_Z (round_half_even (q / pow2 (ulp_exponent q))) *
                     pow2 (ulp_exponent q)).
Proof.
  intros Hq. unfold binary64.
  destruct (Qeq_bool q 0) eqn:E; [|done]. by apply Qeq_bool_iff in E.
Qed.

Lemma binary64_nonneg q : (0 <= q)%Q → (0 <= binary64 q)%Q.
Proof.
  intros Hq. unfold binary64. destruct (Qeq_bool q 0); [lra|]. cbn zeta.
  rewrite Qred_correct. pose proof (pow2_pos (ulp_exponent q)) as Hu.
  apply Qmult_le_0_compat; [|lra].
  change 0%Q with (inject_Z 0). rewrite <- Zle_Qle. apply round_half_even_ge.
  change (inject_Z 0) with 0%Q. apply Qle_shift_div_l; lra.
Qed.

Lemma Qabs_nonneg_eq q : (0 <= q)%Q → Qabs q = q.
Proof.
  destruct q as [n d]. unfold Qle. cbn. intros Hn. f_equal. apply Z.abs_eq. lia.
Qed.


Lemma Qlog2_mono x y : (0 < x)%Q → (x <= y)%Q → Qlog2 x ≤ Qlog2 y.
Proof.
  intros Hx Hxy. destruct (Qlog2_spec x Hx) as [Hx1 _].
  destruct (Qlog2_spec y ltac:(lra)) as [_ Hy2].
  cut (Qlog2 x < Qlog2 y + 1); [lia|]. apply pow2_lt_inv. lra.
Qed.

Lemma ulp_exponent_pos q : (0 < q)%Q → ulp_exponent q = Z.max (Qlog2 q - 52) (-1074).
Proof. intros Hq. unfold ulp_exponent. rewrite Qabs_nonneg_eq; [done|lra]. Qed.

Lemma ulp_exponent_mono x y : (0 < x)%Q → (x <= y)%Q → ulp_exponent x ≤ ulp_exponent y.
Proof.
  intros Hx Hxy. rewrite !ulp_exponent_pos by lra.
  pose proof (Qlog2_mono x y Hx Hxy). lia.
Qed.

Lemma binary64_value q :
  ¬ (q == 0)%Q →
  (binary64 q == inject_Z (round_half_even (q / pow2 (ulp_exponent q))) *
                 pow2 (ulp_exponent q))%Q.
Proof. intros Hq. rewrite binary64_eq by done. apply Qred_correct. Qed.

Lemma pow2_split a b : b ≤ a → (pow2 a == inject_Z (2 ^ (a - b)) * pow2 b)%Q.
Proof.
  intros Hab. rewrite <- pow2_Z by lia. rewrite <- pow2_add.
  by replace (a - b + b) with a by lia.
Qed.

(** A positive double is a multiple of every power of two up to its
    unit of the last place. *)
Lemma double_multiple T e :
  (0 < T)%Q → is_binary64 T → e ≤ ulp_exponent T → ∃ K, (T == inject_Z K * pow2 e)%Q.
Proof.
  intros HT Hdouble He. unfold is_binary64 in Hdouble.
  rewrite binary64_value in Hdouble by lra.
  pose proof (pow2_split (ulp_exponent T) e He) as Hsplit.
  set (m := round_half_even _) in Hdouble.
  exists (m * 2 ^ (ulp_exponent T - e)).
  etransitivity; [symmetry; exact Hdouble|].
  rewrite inject_Z_mult, <- Qmult_assoc, <- Hsplit. reflexivity.
Qed.

Lemma Qinv_pow2 e : (/ pow2 e == pow2 (- e))%Q.
Proof. unfold pow2. by rewrite Qpower_opp. Qed.

(** A product of a factor of at most [1 - 2^-53] and a positive integer
    double [T] rounds to a double below [T]. *)
Lemma binary64_product_below r T :
  (0 <= r)%Q → (r <= 1 - pow2 (-53))%Q → 1 ≤ T → is_binary64 (inject_Z T) →
  (binary64 (r * inject_Z T) < inject_Z T)%Q.
Proof.
  intros Hr0 Hr1 HT Hdouble.
  assert (1 <= inject_Z T)%Q as HT1 by (change 1%Q with (inject_Z 1); rewrite <- Zle_Qle; lia).
  pose proof (pow2_pos (-53)) as H53.
  set (x := (r * inject_Z T)%Q).
  assert (0 <= x)%Q as Hx0 by (unfold x; nra).
  assert (x <= inject_Z T - inject_Z T * pow2 (-53))%Q as Hx1 by (unfold x; nra).
  destruct (Qeq_dec x 0) as [Hzero|Hnz].
  { unfold binary64. rewrite (proj2 (Qeq_bool_iff _ _) Hzero). lra. }
  assert (0 < x)%Q as Hxpos by (destruct (Qlt_le_dec 0 x); [done|]; exfalso; apply Hnz; lra).
  rewrite binary64_value by done.
  destruct (Qlog2_spec x Hxpos) as [HL1 HL2].
  pose proof (ulp_exponent_pos x Hxpos) as He.
  set (L := Qlog2 x) in *. set (e := ulp_exponent x) in *.
  destruct (double_multiple (inject_Z T) e) as [K HK]; [lra|done| |].
  { apply ulp_exponent_mono; [done|]. nra. }
  pose proof (pow2_pos e) as Hu. pose proof (Qinv_pow2 e) as Hinv.
  pose proof (pow2_pos (- e)) as Hv. pose proof (pow2_opp e) as Huv.
  assert (x / pow2 e == x * pow2 (- e))%Q as Hdiv by (unfold Qdiv; by rewrite Hinv).
  set (u := pow2 e) in *. set (v := pow2 (- e)) in *.
  assert (inject_Z K == inject_Z T * v)%Q as HKv.
  { rewrite HK. rewrite <- Qmult_assoc, (Qmult_comm u v), Huv. ring. }
  (* [T] exceeds [2^52] units of the last place *)
  assert (pow2 52 < inject_Z T * v)%Q as Hgap.
  { unfold v. rewrite He. destruct (Z.max_spec (L - 52) (-1074)) as [[_ ->]|[_ ->]].
    - pose proof (pow2_pos (- -1074)).
      assert (pow2 52 < pow2 (- -1074))%Q by (by apply pow2_lt). nra.
    - assert (pow2 52 == pow2 L * pow2 (- (L - 52)))%Q as ->.
      { rewrite <- pow2_add. by replace (L + - (L - 52)) with 52 by lia. }
      pose proof (pow2_pos (- (L - 52))). pose proof (pow2_pos L).
      assert (pow2 L < inject_Z T)%Q by nra. nra. }
  assert (round_half_even (x / u) < K) as Hround.
  { apply round_half_even_below. rewrite Hdiv, HKv.
    assert (pow2 52 * pow2 (-53) == 1 # 2)%Q as Hhalf by reflexivity.
    assert (inject_Z T * pow2 (-53) * v > 1 # 2)%Q.
    { rewrite <- Hhalf. nra. }
    nra. }
  assert (inject_Z (round_half_even (x / u)) + 1 <= inject_Z K)%Q as Hround'.
  { change 1%Q with (inject_Z 1). rewrite <- inject_Z_plus, <- Zle_Qle. lia. }
  rewrite HK. nra.
Qed.

(** Rounding does not cross a double. *)
Lemma binary64_le_double q T :
  (0 < q)%Q → (q <= T)%Q → is_binary64 T → (binary64 q <= T)%Q.
Proof.
  intros Hq HqT Hdouble. rewrite binary64_value by lra.
  destruct (double_multiple T (ulp_exponent q)) as [K HK]; [lra|done| |].
  { by apply ulp_exponent_mono. }
  pose proof (pow2_pos (ulp_exponent q)) as Hu. set (u := pow2 (ulp_exponent q)) in *.
  assert (round_half_even (q / u) ≤ K) as Hround.
  { apply round_half_even_le. apply Qle_shift_div_r; [done|]. by rewrite <- HK. }
  rewrite Zle_Qle in Hround. rewrite HK. nra.
Qed.

Lemma binary64_ge_one q : (1 <= q)%Q → (1 <= binary64 q)%Q.
Proof.
  intros Hq. rewrite binary64_value by lra.
  destruct (Qlog2_spec q ltac:(lra)) as [HL1 HL2].
  pose proof (ulp_exponent_pos q ltac:(lra)) as He.
  assert (0 ≤ Qlog2 q) as HL.
  { cut (0 < Qlog2 q + 1); [lia|]. apply pow2_lt_inv. change (pow2 0) with 1%Q. lra. }
  set (L := Qlog2 q) in *. set (e := ulp_exponent q) in *.
  assert (e = L - 52) as He' by lia.
  pose proof (pow2_pos e) as Hu.
  assert (pow2 L == inject_Z (2 ^ 52) * pow2 e)%Q as Hsplit.
  { rewrite (pow2_split L e) by lia. by replace (L - e) with 52 by lia. }
  assert (2 ^ 52 ≤ round_half_even (q / pow2 e)) as Hround.
  { apply round_half_even_ge. apply Qle_shift_div_l; [done|]. by rewrite <- Hsplit. }
  rewrite Zle_Qle in Hround.
  assert (1 <= pow2 L)%Q by (change 1%Q with (pow2 0); by apply pow2_le).
  set (u := pow2 e) in *. nra.
Qed.

Lemma Qred_inject_Z q k : (q == inject_Z k)%Q → Qred q = inject_Z k.
Proof.
  intros Hq. rewrite (Qred_complete _ _ Hq). apply Qcanon.Qred_identity. cbn. apply Z.gcd_1_r.
Qed.

(** A positive integer rounds to an integer. *)
Lemma binary64_integer z : 0 < z → ∃ k, binary64 (inject_Z z) = inject_Z k.
Proof.
  intros Hz.
  assert (1 <= inject_Z z)%Q as Hz1 by (change 1%Q with (inject_Z 1); rewrite <- Zle_Qle; lia).
  rewrite binary64_eq by lra.
  destruct (Qlog2_spec (inject_Z z) ltac:(lra)) as [HL1 HL2].
  pose proof (ulp_exponent_pos (inject_Z z) ltac:(lra)) as He.
  assert (0 ≤ Qlog2 (inject_Z z)) as HL.
  { cut (0 < Qlog2 (inject_Z z) + 1); [lia|]. apply pow2_lt_inv. change (pow2 0) with 1%Q. lra. }
  set (e := ulp_exponent (inject_Z z)) in *.
  destruct (Z.le_gt_cases 0 e) as [Hpos|Hneg].
  - exists (round_half_even (inject_Z z / pow2 e) * 2 ^ e).
    apply Qred_inject_Z. by rewrite inject_Z_mult, <- pow2_Z.
  - exists z. apply Qred_inject_Z.
    rewrite (round_half_even_comp _ (inject_Z (z * 2 ^ (- e)))).
    2:{ unfold Qdiv. rewrite Qinv_pow2, inject_Z_mult, pow2_Z by lia. reflexivity. }
    rewrite round_half_even_Z, inject_Z_mult, <- pow2_Z by lia.
    rewrite <- Qmult_assoc, pow2_opp. ring.
Qed.

(** A double in [0, 1) is at most [1 - 2^-53]. *)
Lemma double_below_one r :
  is_binary64 r → (0 <= r)%Q → (r < 1)%Q → (r <= 1 - pow2 (-53))%Q.
Proof.
  intros Hdouble Hr0 Hr1.
  destruct (Qeq_dec r 0) as [Hzero|Hnz].
  { rewrite Hzero. pose proof (pow2_lt (-53) 0 ltac:(lia)). change (pow2 0) with 1%Q in *. lra. }
  assert (0 < r)%Q as Hrpos by (destruct (Qlt_le_dec 0 r); [done|]; exfalso; apply Hnz; lra).
  unfold is_binary64 in Hdouble. rewrite binary64_value in Hdouble by done.
  destruct (Qlog2_spec r Hrpos) as [HL1 HL2].
  pose proof (ulp_exponent_pos r Hrpos) as He.
  assert (Qlog2 r < 0) as HL.
  { apply pow2_lt_inv. change (pow2 0) with 1%Q. lra. }
  set (e := ulp_exponent r) in *. set (m := round_half_even (r / pow2 e)) in *.
  pose proof (pow2_pos e) as Hu.
  destruct (Z.le_gt_cases (Qlog2 r) (-2)) as [Hsmall|Hbig].
  - assert (pow2 (Qlog2 r + 1) <= pow2 (-1))%Q by (apply pow2_le; lia).
    assert (pow2 (-53) <= pow2 (-1))%Q by (apply pow2_le; lia).
    change (pow2 (-1)) with (1 # 2)%Q in *. lra.
  - assert (e = -53) as -> by lia.
    assert (1 == inject_Z (2 ^ 53) * pow2 (-53))%Q as Hone by reflexivity.
    assert (m < 2 ^ 53) as Hm.
    { rewrite Zlt_Qlt. apply Qmult_lt_r with (pow2 (-53)); [done|]. by rewrite Hdouble, <- Hone. }
    assert (inject_Z m + 1 <= inject_Z (2 ^ 53))%Q as Hm'.
    { change 1%Q with (inject_Z 1). rewrite <- inject_Z_plus, <- Zle_Qle. lia. }
    rewrite <- Hdouble. nra.
Qed.

End Rounding.

(** ** Arithmetic of the identifiers *)

Section Identifiers.
Context `{Platform}.

Lemma inject_Z_succ k : (inject_Z k + 1)%Q = inject_Z (k + 1).
Proof. unfold inject_Z, Qplus. cbn. by rewrite !Z.mul_1_r. Qed.

(** Line 49 in doubles: on the draw 0.6666666666666666 and the total 3
    the product rounds to 2 and the identifier is 3, where the exact
    product, below 2, would give 2. *)
Lemma id_of_draw_rounds :
  id_of_draw (6004799503160661 # 9007199254740992) (Num 3) = Num 3.
Proof. vm_compute. reflexivity. Qed.

(** The identifier of a draw in [0, 1), for a positive total: an integer
    in [1, total], rounding included. *)
Lemma id_of_draw_in_range r total :
  0 < total → is_binary64 (inject_Z total) →
  is_binary64 r → (0 <= r)%Q → (r < 1)%Q →
  ∃ k, id_of_draw r (num_of_Z total) = num_of_Z k ∧ 1 ≤ k ≤ total.
Proof.
  intros Htotal Hdouble Hr Hr0 Hr1.
  unfold id_of_draw, num_of_Z. cbn [num_mul Math_floor num_add].
  pose proof (binary64_nonneg (r * inject_Z total)) as Hy0.
  pose proof (binary64_product_below r total Hr0 (double_below_one r Hr Hr0 Hr1)
                ltac:(lia) Hdouble) as Hy1.
  assert (0 < inject_Z total)%Q as HT.
  { change 0%Q with (inject_Z 0). by rewrite <- Zlt_Qlt. }
  specialize (Hy0 ltac:(nra)).
  set (y := binary64 (r * inject_Z total)) in *.
  destruct (Qfloor_bounds y) as [Hf1 Hf2].
  assert (0 ≤ Qfloor y).
  { rewrite <- (Qfloor_Z 0). by apply Qfloor_resp_le. }
  assert (Qfloor y < total) by (rewrite Zlt_Qlt; lra).
  rewrite inject_Z_succ. set (z := Qfloor y + 1) in *.
  destruct (binary64_integer z ltac:(lia)) as [k Hk]. rewrite Hk.
  assert (1 <= inject_Z z)%Q as Hz1.
  { change 1%Q with (inject_Z 1). rewrite <- Zle_Qle. lia. }
  exists k. split; [done|]. split.
  - pose proof (binary64_ge_one (inject_Z z) Hz1) as Hge. rewrite Hk in Hge.
    change 1%Q with (inject_Z 1) in Hge. by rewrite <- Zle_Qle in Hge.
  - pose proof (binary64_le_double (inject_Z z) (inject_Z total)) as Hle.
    rewrite Hk in Hle. rewrite Zle_Qle. apply Hle; [lra| |done].
    rewrite <- Zle_Qle. lia.
Qed.

(** [null] coerces to 0, and [floor (r * 0) + 1] is 1. *)
Lemma id_of_draw_zero r : id_of_draw r (Num 0) = Num 1.
Proof.
  unfold id_of_draw. cbn [num_mul].
  assert (binary64 (r * 0) = 0%Q) as ->.
  { unfold binary64. rewrite (proj2 (Qeq_bool_iff (r * 0) 0)); [done|ring]. }
  vm_compute. reflexivity.
Qed.

Lemma random_ids_length w total : length (random_ids w total) = 10%nat.
Proof. reflexivity. Qed.

Lemma random_ids_lookup w total j :
  (j < 10)%nat →
  random_ids w total !! j = Some (id_of_draw (entropy w (draws w + j)%nat) total).
Proof.
  intros Hj. unfold random_ids. rewrite list_lookup_fmap.
  rewrite lookup_seq_lt by done. reflexivity.
Qed.

Lemma random_ids_zero w : random_ids w (Num 0) = replicate 10 (Num 1).
Proof. unfold random_ids. cbn [seq map]. by rewrite !id_of_draw_zero. Qed.

Lemma join_ones : join "," (replicate 10 (Num 1)) = "1,1,1,1,1,1,1,1,1,1".
Proof. reflexivity. Qed.

End Identifiers.

(** ** The cache *)

Section Cache.
Context `{Platform}.

Lemma fresh_true w timestamp :
  (inject_Z (clock w (ticks w)) - timestamp < inject_Z TTL)%Q →
  fresh w (Num timestamp) = true.
Proof.
  intros Hlt. unfold fresh, now. cbn.
  apply negb_true_iff, not_true_is_false. rewrite Qle_bool_iff.
  by apply Qlt_not_le.
Qed.

Lemma fresh_false w timestamp :
  (inject_Z TTL <= inject_Z (clock w (ticks w)) - timestamp)%Q →
  fresh w (Num timestamp) = false.
Proof.
  intros Hle. unfold fresh, now. cbn.
  apply negb_false_iff. by rewrite Qle_bool_iff.
Qed.

Lemma remote_requests w :
  ∃ rest, requests (snd (fetchArtworksAndCache_remote w)) = requests w ++ total_url :: rest.
Proof.
  assert (fetched [] w w) as Hw by (split; rewrite ?app_nil_r; auto).
  destruct (remote_outcome w w Hw) as [Hreq _ _|? Hreq _ _ _|? ? ? Hreq _ _ _ _];
    rewrite Hreq; eauto.
Qed.

(** A call whose cache lookup misses behaves as a call on the world
    without the slot: same completion, same requests, same draws, same
    page; and it starts with the metadata request. *)
Lemma miss_like_absent w entry :
  fetchArtworksAndCache_cached w = (Normal None, add_console entry w) →
  fst (fetchArtworksAndCache w) = fst (fetchArtworksAndCache (without_cache w)) ∧
  requests (snd (fetchArtworksAndCache w)) =
    requests (snd (fetchArtworksAndCache (without_cache w))) ∧
  draws (snd (fetchArtworksAndCache w)) =
    draws (snd (fetchArtworksAndCache (without_cache w))) ∧
  document (snd (fetchArtworksAndCache w)) =
    document (snd (fetchArtworksAndCache (without_cache w))) ∧
  ∃ rest, requests (snd (fetchArtworksAndCache w)) = requests w ++ total_url :: rest.
Proof.
  intros Hc. unfold fetchArtworksAndCache, mbind, JS_bind. rewrite Hc.
  rewrite (cached_absent (without_cache w)).
  2:{ cbn. unfold without_cache. by rewrite lookup_delete_eq. }
  edestruct (oblivious_remote (add_console entry w)) as [Hfst Hsnd]; [|rewrite Hfst].
  2:{ destruct Hsnd. split_and!; try done. apply (remote_requests (add_console entry w)). }
  by split.
Qed.

(** A call whose cache lookup misses goes through the fresh fetch. *)
Lemma miss_fresh_fetch w entry :
  fetchArtworksAndCache_cached w = (Normal None, add_console entry w) →
  fresh_fetch w (fst (fetchArtworksAndCache w)) (snd (fetchArtworksAndCache w)).
Proof.
  intros Hc. unfold fetchArtworksAndCache, mbind, JS_bind. rewrite Hc.
  apply remote_fresh_fetch. split; world_simpl; rewrite ?app_nil_r; auto.
Qed.

(** C1: for every cache slot whose content parses to an entry with
    [now - timestamp < TTL] (one hour), [fetchArtworksAndCache] returns the
    [data] of the entry as it is, makes no request and leaves
    [localStorage] as it was. *)
Theorem fresh_entry_is_returned w text cache timestamp data :
  localStorage w !! CACHE_KEY = Some text →
  parse text = Normal cache →
  property cache "timestamp" = Normal (JNumber (Num timestamp)) →
  property cache "data" = Normal data →
  (inject_Z (clock w (ticks w)) - timestamp < inject_Z TTL)%Q →
  ∃ w', fetchArtworksAndCache w = (Normal data, w') ∧
        requests w' = requests w ∧
        localStorage w' = localStorage w.
Proof.
  intros Hs Hp Hts Hd Hlt. unfold fetchArtworksAndCache, mbind, JS_bind.
  rewrite (cached_present w text Hs (parse_truthy _ _ Hp)), Hp, Hts.
  cbn beta iota zeta delta [coerce_number].
  rewrite (fresh_true w timestamp Hlt), Hd. eauto.
Qed.

(** C2: for every cache slot whose content parses to an entry with
    [now - timestamp >= TTL], the cache lookup yields nothing, so that the
    stale data is not returned from the cache, and the call goes through
    the fresh fetch: the metadata request, the generation of ten
    identifiers from ten draws, the batch request for them, and then the
    records returned and the slot overwritten, or the failure signal. It
    does so exactly as on an absent slot: it completes as the call on the
    world without the slot does, with the same requests, the same draws and
    the same page. *)
Theorem stale_entry_is_ignored w text cache timestamp :
  localStorage w !! CACHE_KEY = Some text →
  parse text = Normal cache →
  property cache "timestamp" = Normal (JNumber (Num timestamp)) →
  (inject_Z TTL <= inject_Z (clock w (ticks w)) - timestamp)%Q →
  (∃ w0, fetchArtworksAndCache_cached w = (Normal None, w0)) ∧
  fresh_fetch w (fst (fetchArtworksAndCache w)) (snd (fetchArtworksAndCache w)) ∧
  fst (fetchArtworksAndCache w) = fst (fetchArtworksAndCache (without_cache w)) ∧
  requests (snd (fetchArtworksAndCache w)) =
    requests (snd (fetchArtworksAndCache (without_cache w))) ∧
  draws (snd (fetchArtworksAndCache w)) =
    draws (snd (fetchArtworksAndCache (without_cache w))) ∧
  document (snd (fetchArtworksAndCache w)) =
    document (snd (fetchArtworksAndCache (without_cache w))).
Proof.
  intros Hs Hp Hts Hle.
  assert (fetchArtworksAndCache_cached w =
          (Normal None,
           add_console
             (console_log_entry "Cached data found but has EXPIRED. Fetching new data...") w))
    as Hmiss.
  { rewrite (cached_present w text Hs (parse_truthy _ _ Hp)), Hp, Hts.
    cbn beta iota zeta delta [coerce_number]. by rewrite (fresh_false w timestamp Hle). }
  split; [eauto|]. split; [by eapply miss_fresh_fetch|].
  destruct (miss_like_absent w _ Hmiss) as (? & ? & ? & ? & _). done.
Qed.

(** C5: for every cache slot that is absent or whose content fails to
    parse, the cache lookup yields nothing without throwing, and the call
    goes through the fresh fetch: the metadata request, the generation of
    ten identifiers from ten draws, the batch request for them, and then
    the records returned and the slot overwritten, or the failure signal of
    a batch request that delivers nothing. The call ends as the fresh fetch
    ends, and as the call on the world without the slot does: no error is
    raised for the corruption, which is seen in the console only. *)
Theorem missing_or_corrupt_is_a_miss w :
  (localStorage w !! CACHE_KEY = None ∨
   ∃ text e, localStorage w !! CACHE_KEY = Some text ∧ parse text = Throw e) →
  (∃ w0, fetchArtworksAndCache_cached w = (Normal None, w0)) ∧
  fresh_fetch w (fst (fetchArtworksAndCache w)) (snd (fetchArtworksAndCache w)) ∧
  fst (fetchArtworksAndCache w) = fst (fetchArtworksAndCache (without_cache w)) ∧
  requests (snd (fetchArtworksAndCache w)) =
    requests (snd (fetchArtworksAndCache (without_cache w))) ∧
  draws (snd (fetchArtworksAndCache w)) =
    draws (snd (fetchArtworksAndCache (without_cache w))) ∧
  document (snd (fetchArtworksAndCache w)) =
    document (snd (fetchArtworksAndCache (without_cache w))).
Proof.
  intros Hslot.
  assert (∃ entry, fetchArtworksAndCache_cached w = (Normal None, add_console entry w))
    as [entry Hmiss].
  { destruct Hslot as [Hs|(text & e & Hs & Hp)].
    - eexists. apply cached_absent. by rewrite Hs.
    - destruct (truthy (Some text)) eqn:Ht.
      + eexists. by rewrite (cached_present w text Hs Ht), Hp.
      + eexists. apply cached_absent. by rewrite Hs. }
  split; [eauto|]. split; [by eapply miss_fresh_fetch|].
  destruct (miss_like_absent w _ Hmiss) as (? & ? & ? & ? & _). done.
Qed.

End Cache.

(** ** The identifiers *)

Section RandomIDs.
Context `{Platform}.

(** C6: for every positive total that the metadata step reports (an
    integer, held by a double) and every value of the draws (doubles in
    [0, 1)), [getRandomIDs] returns exactly 10 identifiers, for ten draws;
    the [j]-th is [Math.floor(r_j * total) + 1], in the arithmetic of
    doubles, of its own draw [r_j] alone (nothing is removed, equal draws
    give equal identifiers), and it is an integer of [1, total]. *)
Theorem getRandomIDs_in_range w total :
  fst (getPageTotal w) = Normal (JNumber (num_of_Z total)) →
  0 < total →
  is_binary64 (inject_Z total) →
  (∀ i, is_binary64 (entropy w i) ∧ (0 <= entropy w i)%Q ∧ (entropy w i < 1)%Q) →
  ∃ ids w',
    getRandomIDs w = (Normal ids, w') ∧
    length ids = 10%nat ∧
    draws w' = (draws w + 10)%nat ∧
    ∀ j, (j < 10)%nat →
      ids !! j =
        Some (num_add
                (Math_floor (num_mul (Num (entropy w (draws w + j)%nat)) (num_of_Z total)))
                (Num 1)) ∧
      ∃ k, ids !! j = Some (num_of_Z k) ∧ 1 ≤ k ≤ total.
Proof.
  intros Hv Htotal Hdouble Hentropy.
  destruct (getPageTotal_run w) as (v & w1 & Hrun & Hw1).
  rewrite Hrun in Hv. cbn in Hv. injection Hv as ->.
  rewrite (getRandomIDs_run w _ w1 Hrun). cbn [coerce_number].
  eexists _, _. split; [reflexivity|]. split; [apply random_ids_length|]. split.
  { rewrite draws_after_draws, (fetched_draws _ _ _ Hw1). lia. }
  intros j Hj. rewrite (random_ids_lookup _ _ j Hj).
  rewrite (fetched_entropy _ _ _ Hw1), (fetched_draws _ _ _ Hw1).
  split; [reflexivity|].
  destruct (Hentropy (draws w + j)%nat) as (Hr & Hr0 & Hr1).
  fold (num_of_Z total).
  destruct (id_of_draw_in_range _ total Htotal Hdouble Hr Hr0 Hr1) as (k & -> & Hk).
  eauto.
Qed.



End RandomIDs.

(** ** The fetch from the API *)

Section Fetch.
Context `{Platform}.

(** C7: after every call whose batch request delivered a record
    sequence, the call returns that sequence and the cache slot, the key
    [aicArtworksCache] of [localStorage], holds the JSON text of the object
    [{timestamp, data}] whose [data] is that sequence and whose
    [timestamp] is a reading of the clock during the call, at least the
    time at which the call started (on a clock that does not go back); the
    slot holds that text whatever it held before, and no other key has
    changed. *)
Theorem successful_fetch_overwrites_cache w url response apiResponse artworks :
  requests (snd (fetchArtworksAndCache w)) !! batch_index w = Some url →
  network w (batch_index w) url = Responded response →
  ok response = true →
  body response = Some apiResponse →
  property apiResponse "data" = Normal artworks →
  (∀ i j, (i ≤ j)%nat → clock w i ≤ clock w j) →
  ∃ timestamp,
    fst (fetchArtworksAndCache w) = Normal artworks ∧
    localStorage (snd (fetchArtworksAndCache w)) =
      <["aicArtworksCache" :=
          JSON_stringify
            (JObject [("timestamp", JNumber (num_of_Z timestamp)); ("data", artworks)])]>
        (localStorage w) ∧
    localStorage (snd (fetchArtworksAndCache w)) !! "aicArtworksCache" =
      Some (JSON_stringify
              (JObject [("timestamp", JNumber (num_of_Z timestamp)); ("data", artworks)])) ∧
    (∃ t, (ticks w ≤ t)%nat ∧ timestamp = clock w t) ∧
    clock w (ticks w) ≤ timestamp.
Proof.
  intros Hurl Hresult Hok Hbody Hdata Hclock.
  pose proof (fetch_outcome w) as Hout. unfold batch_index in Hurl.
  destruct Hout as [text cache timestamp t data _ _ _ _ _ _ _ Hreq _
                   |[Hreq _ _|url' Hreq Hnone _ _|url' artworks' t Hreq Hsome Ht Hls Hc]].
  - rewrite Hreq in Hurl. apply lookup_lt_Some in Hurl. lia.
  - rewrite Hreq, batch_lookup in Hurl. discriminate.
  - rewrite Hreq, batch_lookup in Hurl. injection Hurl as ->.
    rewrite Hresult in Hnone. cbn in Hnone. rewrite Hok, Hbody, Hdata in Hnone. discriminate.
  - rewrite Hreq, batch_lookup in Hurl. injection Hurl as ->.
    rewrite Hresult in Hsome. cbn in Hsome. rewrite Hok, Hbody, Hdata in Hsome.
    injection Hsome as <-. exists (clock w t).
    split_and!; [done|exact Hls| |by eauto|by apply Hclock].
    rewrite Hls. apply lookup_insert_eq.
Qed.

(** C8: when the batch request is rejected or answered with a status
    that is not a success, the call fails: it ends with the failure signal
    ([null]; the [TypeError] of the [catch] clause on a page without the
    element [artworks-list]), [localStorage] is as it was, and the batch
    request was the last request: none is repeated. *)
Theorem batch_failure_fails w url :
  requests (snd (fetchArtworksAndCache w)) !! batch_index w = Some url →
  transport_failure (network w (batch_index w) url) →
  failure_signal w (fst (fetchArtworksAndCache w)) ∧
  localStorage (snd (fetchArtworksAndCache w)) = localStorage w ∧
  requests (snd (fetchArtworksAndCache w)) = requests w ++ [total_url; url].
Proof.
  intros Hurl Hfail.
  pose proof (fetch_outcome w) as Hout. unfold batch_index in Hurl.
  destruct Hout as [text cache timestamp t data _ _ _ _ _ _ _ Hreq _
                   |[Hreq _ _|url' Hreq Hnone Hls Hc|url' artworks' t Hreq Hsome Ht Hls Hc]].
  - rewrite Hreq in Hurl. apply lookup_lt_Some in Hurl. lia.
  - rewrite Hreq, batch_lookup in Hurl. discriminate.
  - rewrite Hreq, batch_lookup in Hurl. by injection Hurl as ->.
  - rewrite Hreq, batch_lookup in Hurl. injection Hurl as ->.
    rewrite (batch_data_transport_failure _ Hfail) in Hsome. discriminate.
Qed.

(** X26: on a page that has the element [artworks-list], for every
    content of the cache slot and every outcome of the requests,
    [fetchArtworksAndCache] returns and does not throw; what it returns is
    [null], or the [data] of the parsed cache entry, or the [data] of the
    body of the batch response, whatever value that is. *)
Theorem fetch_returns_data_or_null w :
  is_Some (document w !! "artworks-list") →
  ∃ v w',
    fetchArtworksAndCache w = (Normal v, w') ∧
    (v = JNull ∨
     (∃ text cache,
        localStorage w !! CACHE_KEY = Some text ∧ parse text = Normal cache ∧
        property cache "data" = Normal v) ∨
     (∃ url, batch_data (network w (batch_index w) url) = Some v)).
Proof.
  intros [html Hdoc].
  pose proof (fetch_outcome w) as Hout.
  destruct (fetchArtworksAndCache w) as [c w']. cbn [fst snd] in Hout.
  assert (failure_signal w c → c = Normal JNull) as Hnull.
  { unfold failure_signal. by rewrite Hdoc. }
  destruct Hout as [text cache timestamp t data Hs Hp _ _ _ Hd -> _ _
                   |[_ _ Hc|url _ _ _ Hc|url artworks t _ Hsome _ _ ->]].
  - eexists _, _. split; [done|]. right. left. eauto.
  - rewrite (Hnull Hc). eauto.
  - rewrite (Hnull Hc). eauto.
  - eexists _, _. split; [done|]. right. right. eauto.
Qed.

End Fetch.

(** ** The theorems at concrete worlds *)

Section Witnesses.
#[local] Existing Instance Demo.platform.
Import Demo.

Lemma demo_clock_monotone slot page first later start i j :
  (i ≤ j)%nat →
  clock (world slot page first later start) i ≤ clock (world slot page first later start) j.
Proof. cbn. lia. Qed.

Lemma fresh_entry_is_returned_witness :
  ∃ w', fetchArtworksAndCache fresh_world = (Normal artworks, w') ∧
        requests w' = requests fresh_world ∧
        localStorage w' = localStorage fresh_world.
Proof.
  apply (fresh_entry_is_returned fresh_world (stringify entry) entry 1000 artworks);
    vm_compute; reflexivity.
Defined.

Lemma stale_entry_is_ignored_witness :
  (∃ w0, fetchArtworksAndCache_cached stale_world = (Normal None, w0)) ∧
  fresh_fetch stale_world (fst (fetchArtworksAndCache stale_world))
    (snd (fetchArtworksAndCache stale_world)) ∧
  fst (fetchArtworksAndCache stale_world) =
    fst (fetchArtworksAndCache (without_cache stale_world)) ∧
  requests (snd (fetchArtworksAndCache stale_world)) =
    requests (snd (fetchArtworksAndCache (without_cache stale_world))) ∧
  draws (snd (fetchArtworksAndCache stale_world)) =
    draws (snd (fetchArtworksAndCache (without_cache stale_world))) ∧
  document (snd (fetchArtworksAndCache stale_world)) =
    document (snd (fetchArtworksAndCache (without_cache stale_world))).
Proof.
  apply (stale_entry_is_ignored stale_world (stringify entry) entry 1000).
  - vm_compute; reflexivity.
  - vm_compute; reflexivity.
  - vm_compute; reflexivity.
  - vm_compute. discriminate.
Defined.

Lemma missing_or_corrupt_is_a_miss_witness :
  (∃ w0, fetchArtworksAndCache_cached corrupt_world = (Normal None, w0)) ∧
  fresh_fetch corrupt_world (fst (fetchArtworksAndCache corrupt_world))
    (snd (fetchArtworksAndCache corrupt_world)) ∧
  fst (fetchArtworksAndCache corrupt_world) =
    fst (fetchArtworksAndCache (without_cache corrupt_world)) ∧
  requests (snd (fetchArtworksAndCache corrupt_world)) =
    requests (snd (fetchArtworksAndCache (without_cache corrupt_world))) ∧
  draws (snd (fetchArtworksAndCache corrupt_world)) =
    draws (snd (fetchArtworksAndCache (without_cache corrupt_world))) ∧
  document (snd (fetchArtworksAndCache corrupt_world)) =
    document (snd (fetchArtworksAndCache (without_cache corrupt_world))).
Proof.
  apply (missing_or_corrupt_is_a_miss corrupt_world).
  right. exists "not json", SyntaxError. split; vm_compute; reflexivity.
Defined.

Lemma getRandomIDs_in_range_witness :
  ∃ ids w',
    getRandomIDs Scenarios.rounding_world = (Normal ids, w') ∧
    length ids = 10%nat ∧
    draws w' = (draws Scenarios.rounding_world + 10)%nat ∧
    ∀ j, (j < 10)%nat →
      ids !! j =
        Some (num_add
                (Math_floor
                   (num_mul
                      (Num (entropy Scenarios.rounding_world
                              (draws Scenarios.rounding_world + j)%nat))
                      (num_of_Z 3)))
                (Num 1)) ∧
      ∃ k, ids !! j = Some (num_of_Z k) ∧ 1 ≤ k ≤ 3.
Proof.
  apply (getRandomIDs_in_range Scenarios.rounding_world 3).
  - vm_compute; reflexivity.
  - lia.
  - vm_compute; reflexivity.
  - intros i. split_and!; vm_compute; congruence.
Defined.


Lemma successful_fetch_overwrites_cache_witness :
  ∃ timestamp,
    fst (fetchArtworksAndCache empty_world) = Normal artworks ∧
    localStorage (snd (fetchArtworksAndCache empty_world)) =
      <["aicArtworksCache" :=
          JSON_stringify
            (JObject [("timestamp", JNumber (num_of_Z timestamp)); ("data", artworks)])]>
        (localStorage empty_world) ∧
    localStorage (snd (fetchArtworksAndCache empty_world)) !! "aicArtworksCache" =
      Some (JSON_stringify
              (JObject [("timestamp", JNumber (num_of_Z timestamp)); ("data", artworks)])) ∧
    (∃ t, (ticks empty_world ≤ t)%nat ∧ timestamp = clock empty_world t) ∧
    clock empty_world (ticks empty_world) ≤ timestamp.
Proof.
  apply (successful_fetch_overwrites_cache empty_world demo_batch_url
           {| status := 200; body := Some (JObject [("data", artworks)]) |}
           (JObject [("data", artworks)]) artworks).
  - vm_compute; reflexivity.
  - vm_compute; reflexivity.
  - vm_compute; reflexivity.
  - vm_compute; reflexivity.
  - vm_compute; reflexivity.
  - apply demo_clock_monotone.
Defined.

Lemma batch_failure_fails_witness :
  failure_signal batch_error_world (fst (fetchArtworksAndCache batch_error_world)) ∧
  localStorage (snd (fetchArtworksAndCache batch_error_world)) =
    localStorage batch_error_world ∧
  requests (snd (fetchArtworksAndCache batch_error_world)) =
    requests batch_error_world ++ [total_url; demo_batch_url].
Proof.
  apply (batch_failure_fails batch_error_world demo_batch_url); vm_compute; reflexivity.
Defined.

Lemma fetch_returns_data_or_null_witness :
  ∃ v w',
    fetchArtworksAndCache batch_error_world = (Normal v, w') ∧
    (v = JNull ∨
     (∃ text cache,
        localStorage batch_error_world !! CACHE_KEY = Some text ∧ parse text = Normal cache ∧
        property cache "data" = Normal v) ∨
     (∃ url, batch_data (network batch_error_world (batch_index batch_error_world) url) = Some v)).
Proof.
  apply (fetch_returns_data_or_null batch_error_world).
  exists EmptyString. vm_compute; reflexivity.
Defined.

(** C9, the code on a page without the element [artworks-list] when the
    network is down, and on a fresh cache entry whose [data] is the number
    5. In the first, the two requests are rejected and the [catch] clause
    of line 113, on its way to returning [null], throws a [TypeError] to
    the caller. In the second, the call returns 5. Neither call returns a
    record sequence or [null]. *)
Theorem fetch_may_return_other_or_throw :
  fetchArtworksAndCache_catch FetchRejected offline_world =
    (Throw TypeError,
     add_console
       (console_error_entry "An error occurred during API fetch:" (Some FetchRejected))
       offline_world) ∧
  fst (fetchArtworksAndCache offline_world) = Throw TypeError ∧
  requests (snd (fetchArtworksAndCache offline_world)) = [total_url; batch_url ones] ∧
  ¬ returns_sequence_or_null offline_world ∧
  fst (fetchArtworksAndCache number_world) = Normal (JNumber (Num 5)) ∧
  requests (snd (fetchArtworksAndCache number_world)) = [] ∧
  ¬ returns_sequence_or_null number_world.
Proof.
  assert (fst (fetchArtworksAndCache offline_world) = Throw TypeError) as Hthrow
    by (vm_compute; reflexivity).
  assert (fst (fetchArtworksAndCache number_world) = Normal (JNumber (Num 5))) as Hfive
    by (vm_compute; reflexivity).
  split_and!; try done; try (vm_compute; reflexivity).
  - intros (v & w' & Hrun & Hv). rewrite Hrun in Hthrow. discriminate.
  - intros (v & w' & Hrun & Hv). rewrite Hrun in Hfive. cbn in Hfive. injection Hfive as ->.
    destruct Hv as [Hv|[items Hv]]; discriminate.
Qed.

(** C3, the code at a metadata response that reports a total of zero:
    [getPageTotal] yields [null], yet the batch request for the ids
    1,1,1,1,1,1,1,1,1,1 is issued, the call returns the records of its
    response and the slot is overwritten with them. *)
Theorem total_zero_still_fetches :
  fst (getPageTotal total_zero_world) = Normal JNull ∧
  fst (fetchArtworksAndCache total_zero_world) = Normal artworks ∧
  requests (snd (fetchArtworksAndCache total_zero_world)) = [total_url; batch_url ones] ∧
  localStorage (snd (fetchArtworksAndCache total_zero_world)) !! CACHE_KEY =
    Some (stringify (cachePayload (Num 4000) artworks)).
Proof. vm_compute. done. Qed.

(** C4, the code at a metadata request answered with status 500, and at
    one that is rejected: [getPageTotal] yields [null], yet the batch
    request for the ids 1,1,1,1,1,1,1,1,1,1 is issued and the call returns
    the records of its response. *)
Theorem metadata_failure_still_fetches :
  fst (getPageTotal metadata_error_world) = Normal JNull ∧
  fst (fetchArtworksAndCache metadata_error_world) = Normal artworks ∧
  requests (snd (fetchArtworksAndCache metadata_error_world)) = [total_url; batch_url ones] ∧
  fst (getPageTotal metadata_rejected_world) = Normal JNull ∧
  fst (fetchArtworksAndCache metadata_rejected_world) = Normal artworks ∧
  requests (snd (fetchArtworksAndCache metadata_rejected_world)) = [total_url; batch_url ones].
Proof. vm_compute. done. Qed.
End Witnesses.

(** * More of the code: properties of the cache component *)

Section MoreRuns.
Context `{Platform}.

(** A call that issued a batch request: the lookup missed, the total
    coerced to a number, and the request is the one for the ten
    identifiers. *)
Lemma fetch_batch_run w url :
  requests (snd (fetchArtworksAndCache w)) !! batch_index w = Some url →
  ∃ w0 v w1 total,
    fetched [] w w0 ∧
    fetchArtworksAndCache w = fetchArtworksAndCache_remote w0 ∧
    getPageTotal w0 = (Normal v, w1) ∧
    fetched [total_url] w0 w1 ∧
    coerce_number v = Normal total ∧
    url = batch_url (join "," (random_ids w1 total)).
Proof.
  intros Hurl. unfold batch_index in Hurl.
  destruct (cached_run w) as (cached & w0 & Hcached & Hw0).
  unfold fetchArtworksAndCache, mbind, JS_bind in Hurl |- *. rewrite Hcached in Hurl |- *.
  pose proof (fetched_requests _ _ _ Hw0) as Hreq0. rewrite app_nil_r in Hreq0.
  destruct cached as [data|].
  { cbn in Hurl. rewrite Hreq0 in Hurl. apply lookup_lt_Some in Hurl. lia. }
  destruct (getPageTotal_run w0) as (v & w1 & Hv & Hw1).
  exists w0, v, w1. rewrite (remote_run w0 v w1 Hv) in Hurl.
  pose proof (fetched_requests _ _ _ Hw1) as Hreq1. rewrite Hreq0 in Hreq1.
  destruct (coerce_number v) as [total|e].
  2:{ rewrite (proj1 (catch_outcome _ _)) in Hurl. world_simpl.
      rewrite Hreq1, batch_lookup in Hurl. discriminate. }
  exists total. split_and!; try done.
  cbn zeta in Hurl. destruct (after_draws_fields 10 w1) as (_ & _ & _ & Hr & _).
  revert Hurl. generalize (join "," (random_ids w1 total)). intros idString.
  generalize dependent (after_draws 10 w1). intros w2 Hr.
  repeat case_match; rewrite ?(proj1 (catch_outcome _ _)); world_simpl;
    rewrite Hr, Hreq1, <- app_assoc, batch_lookup; cbn; congruence.
Qed.

(** The world a call leaves when its batch request delivered: the slot
    holds the entry stamped with the time of the write, which is the time
    at the end of the call. *)
Lemma fetch_stored_run w url artworks :
  requests (snd (fetchArtworksAndCache w)) !! batch_index w = Some url →
  batch_data (network w (batch_index w) url) = Some artworks →
  ∃ wf,
    fetchArtworksAndCache w = (Normal artworks, stored (now wf) artworks wf) ∧
    localStorage wf = localStorage w ∧
    document wf = document w ∧
    requests wf = requests w ++ [total_url; url] ∧
    clock wf = clock w ∧
    (ticks w ≤ ticks wf)%nat.
Proof.
  intros Hurl Hdata.
  destruct (fetch_batch_run w url Hurl)
    as (w0 & v & w1 & total & Hw0 & Hrun & Hv & Hw1 & Htotal & ->).
  rewrite Hrun, (remote_run w0 v w1 Hv), Htotal. cbn zeta.
  destruct Hw0 as [Hls0 Hdoc0 Hreq0 Hnet0 Hclock0 _ _ Hticks0]. rewrite app_nil_r in Hreq0.
  destruct Hw1 as [Hls1 Hdoc1 Hreq1 Hnet1 Hclock1 _ _ Hticks1].
  assert (length (requests w1) = batch_index w) as ->.
  { unfold batch_index. rewrite Hreq1, Hreq0, length_app. cbn. lia. }
  rewrite Hnet1, Hnet0.
  destruct (after_draws_fields 10 w1) as (Hls2 & Hdoc2 & _ & Hreq2 & _ & Hticks2 & Hclock2 & _).
  revert Hdata. generalize (join "," (random_ids w1 total)). intros idString.
  generalize dependent (after_draws 10 w1). intros w2 Hls2 Hdoc2 Hreq2 Hticks2 Hclock2 Hdata.
  unfold batch_data in Hdata.
  destruct (network w _ _) as [|response]; [discriminate|].
  destruct (ok response); [|discriminate].
  destruct (body response) as [apiResponse|]; [|discriminate].
  destruct (property apiResponse "data") as [a|e]; [|discriminate].
  injection Hdata as ->.
  match goal with |- ∃ wf, (_, stored _ _ ?W) = _ ∧ _ => exists W end. split.
  - unfold now. world_simpl. by rewrite Hticks2, Hclock2.
  - world_simpl. split_and!; try congruence.
    + by rewrite Hreq2, Hreq1, Hreq0, <- app_assoc.
    + lia.
Qed.



End MoreRuns.

Section MoreCache.
Context `{Platform}.

(** X1: a call whose batch request delivered stamps the entry with the
    time at its end; if that entry reads back from its JSON text, every
    later call that finds it in the slot less than one hour after the
    stamp returns the same records, makes no request and writes
    nothing. *)
Theorem refetch_is_served_from_cache w url artworks :
  requests (snd (fetchArtworksAndCache w)) !! batch_index w = Some url →
  batch_data (network w (batch_index w) url) = Some artworks →
  parse (JSON_stringify (cachePayload (now (snd (fetchArtworksAndCache w))) artworks)) =
    Normal (cachePayload (now (snd (fetchArtworksAndCache w))) artworks) →
  localStorage (snd (fetchArtworksAndCache w)) !! CACHE_KEY =
    Some (JSON_stringify (cachePayload (now (snd (fetchArtworksAndCache w))) artworks)) ∧
  ∀ later,
    localStorage later !! CACHE_KEY =
      localStorage (snd (fetchArtworksAndCache w)) !! CACHE_KEY →
    clock later (ticks later) -
      clock (snd (fetchArtworksAndCache w)) (ticks (snd (fetchArtworksAndCache w))) < TTL →
    ∃ later',
      fetchArtworksAndCache later = (Normal artworks, later') ∧
      requests later' = requests later ∧
      localStorage later' = localStorage later.
Proof.
  intros Hurl Hdata.
  destruct (fetch_stored_run w url artworks Hurl Hdata) as (wf & -> & _).
  world_simpl. unfold now. world_simpl. intros Hround.
  split; [apply lookup_insert_eq|].
  intros later Hslot Hfresh. rewrite lookup_insert_eq in Hslot.
  unfold fetchArtworksAndCache, mbind, JS_bind.
  rewrite (cached_present later _ Hslot (parse_truthy _ _ Hround)), Hround.
  cbn beta iota zeta delta
    [property cachePayload own_property String.eqb Ascii.eqb Bool.eqb coerce_number].
  unfold num_of_Z at 1. rewrite fresh_true; [eauto|].
  unfold Qminus, Qlt. cbn. unfold TTL in *. lia.
Qed.

(** X2: a call never writes or removes another key of [localStorage],
    and never removes its own slot: a slot that was there is still
    there. *)
Theorem fetch_touches_only_its_slot w :
  (∀ key, key ≠ CACHE_KEY →
     localStorage (snd (fetchArtworksAndCache w)) !! key = localStorage w !! key) ∧
  (is_Some (localStorage w !! CACHE_KEY) →
     is_Some (localStorage (snd (fetchArtworksAndCache w)) !! CACHE_KEY)).
Proof.
  destruct (fetch_outcome w) as [? ? ? ? ? _ _ _ _ _ _ _ _ Hls
                                |[_ Hls _|? _ _ Hls _|? ? ? _ _ _ Hls _]];
    rewrite Hls; split; try done.
  - intros key Hkey. by rewrite lookup_insert_ne.
  - intros _. rewrite lookup_insert_eq. eauto.
Qed.


(** X4: [getPageTotal] never throws and makes exactly one request, the
    metadata request; it leaves [localStorage], the page and the random
    source alone. It yields the value read at [pagination.total] when the
    response is a success that carries one and it is not the number 0, and
    [null] in every other case. *)
Theorem getPageTotal_reports w :
  ∃ w',
    getPageTotal w =
      (Normal
         match pagination_total (network w (length (requests w)) total_url) with
         | Some totalArtworks =>
             if strict_equals_zero totalArtworks then JNull else totalArtworks
         | None => JNull
         end, w') ∧
    requests w' = requests w ++ [total_url] ∧
    localStorage w' = localStorage w ∧
    document w' = document w ∧
    draws w' = draws w.
Proof.
  unfold getPageTotal, pagination_total. js_simpl. fold total_url.
  destruct (network w _ _) as [|r]; [by eexists|].
  destruct (ok r); cbn [negb]; [|by eexists].
  destruct (body r) as [countData|]; [|by eexists].
  destruct (property countData _) as [pagination|]; [|by eexists].
  destruct (property pagination _) as [totalArtworks|]; [|by eexists].
  destruct (strict_equals_zero totalArtworks); by eexists.
Qed.


(** X6: a slot whose content parses, but to something without a
    timestamp that coerces to a number ([null], an object without
    [timestamp], ...), is a miss: the lookup yields nothing without
    throwing and the call goes on as on the world without the slot. *)
Theorem entry_without_timestamp_is_a_miss w text cache :
  localStorage w !! CACHE_KEY = Some text →
  parse text = Normal cache →
  no_numeric_timestamp cache →
  (∃ w0, fetchArtworksAndCache_cached w = (Normal None, w0)) ∧
  fst (fetchArtworksAndCache w) = fst (fetchArtworksAndCache (without_cache w)) ∧
  requests (snd (fetchArtworksAndCache w)) =
    requests (snd (fetchArtworksAndCache (without_cache w))) ∧
  ∃ rest, requests (snd (fetchArtworksAndCache w)) = requests w ++ total_url :: rest.
Proof.
  intros Hs Hp Hts.
  assert (∃ entry, fetchArtworksAndCache_cached w = (Normal None, add_console entry w))
    as [entry Hmiss].
  { rewrite (cached_present w text Hs (parse_truthy _ _ Hp)), Hp. cbn zeta.
    unfold no_numeric_timestamp in Hts.
    destruct (property cache "timestamp") as [timestamp|e]; [|eauto].
    destruct (coerce_number timestamp) as [[|q]|e]; [|done|eauto].
    unfold fresh. cbn [num_sub now num_of_Z num_lt]. eauto. }
  split; [eauto|].
  destruct (miss_like_absent w entry Hmiss) as (? & ? & _ & _ & ?). done.
Qed.


(** X8: the cache is written only by a call whose batch request
    delivered: if a call leaves [localStorage] different from what it
    found, it made the two requests and returned the records of the batch
    response. *)
Theorem cache_written_only_on_delivery w :
  localStorage (snd (fetchArtworksAndCache w)) ≠ localStorage w →
  ∃ url artworks,
    batch_data (network w (batch_index w) url) = Some artworks ∧
    requests (snd (fetchArtworksAndCache w)) = requests w ++ [total_url; url] ∧
    fst (fetchArtworksAndCache w) = Normal artworks.
Proof.
  intros Hchanged.
  destruct (fetch_outcome w) as [? ? ? ? ? _ _ _ _ _ _ _ _ Hls
                                |[_ Hls _|? _ _ Hls _|url artworks ? Hreq Hdata _ _ Hc]];
    try done.
  eauto.
Qed.

End MoreCache.

(** ** These properties at concrete worlds *)

Section MoreWitnesses.
Import Demo Scenarios.

Lemma refetch_is_served_from_cache_witness :
  localStorage (snd (@fetchArtworksAndCache Demo.platform cold_world)) !! CACHE_KEY =
    Some (@JSON_stringify Demo.platform
            (cachePayload (now (snd (@fetchArtworksAndCache Demo.platform cold_world)))
               artworks)) ∧
  ∀ later,
    localStorage later !! CACHE_KEY =
      localStorage (snd (@fetchArtworksAndCache Demo.platform cold_world)) !! CACHE_KEY →
    clock later (ticks later) -
      clock (snd (@fetchArtworksAndCache Demo.platform cold_world))
        (ticks (snd (@fetchArtworksAndCache Demo.platform cold_world))) < TTL →
    ∃ later',
      @fetchArtworksAndCache Demo.platform later = (Normal artworks, later') ∧
      requests later' = requests later ∧
      localStorage later' = localStorage later.
Proof.
  apply (@refetch_is_served_from_cache Demo.platform cold_world demo_batch_url artworks);
    vm_compute; reflexivity.
Defined.


Lemma entry_without_timestamp_is_a_miss_witness :
  (∃ w0, @fetchArtworksAndCache_cached Scenarios.platform empty_object_world =
         (Normal None, w0)) ∧
  fst (@fetchArtworksAndCache Scenarios.platform empty_object_world) =
    fst (@fetchArtworksAndCache Scenarios.platform (without_cache empty_object_world)) ∧
  requests (snd (@fetchArtworksAndCache Scenarios.platform empty_object_world)) =
    requests (snd (@fetchArtworksAndCache Scenarios.platform
                     (without_cache empty_object_world))) ∧
  ∃ rest, requests (snd (@fetchArtworksAndCache Scenarios.platform empty_object_world)) =
          requests empty_object_world ++ total_url :: rest.
Proof.
  apply (@entry_without_timestamp_is_a_miss Scenarios.platform empty_object_world
           "{}" (JObject [])); vm_compute; done.
Defined.


Lemma cache_written_only_on_delivery_witness :
  ∃ url artworks,
    @batch_data (network empty_world (batch_index empty_world) url) = Some artworks ∧
    requests (snd (@fetchArtworksAndCache Demo.platform empty_world)) =
      requests empty_world ++ [total_url; url] ∧
    fst (@fetchArtworksAndCache Demo.platform empty_world) = Normal artworks.
Proof.
  apply (@cache_written_only_on_delivery Demo.platform empty_world).
  intros Heq. apply (f_equal (λ m, m !! CACHE_KEY)) in Heq.
  vm_compute in Heq. discriminate.
Defined.

End MoreWitnesses.

Ltac task_unfold :=
  unfold mbind, mret, Task_bind, Task_ret, Completion_bind, Completion_ret,
    task_throw, task_catch, in_browser, compute, read, update, assign,
    read_offsetHeight, start in *.

Ltac task_simpl := repeat (task_unfold; cbn beta iota zeta in * ).

Ltac page_simpl :=
  cbn [fst snd browser currentIndex isRevealed imageUrl PARAMS charColorBinding_hidden
       cellColorBinding_hidden assigned offsetHeight calls image_fetches
       set_browser set_currentIndex set_isRevealed set_imageUrl set_PARAMS
       set_charColorBinding_hidden set_cellColorBinding_hidden set_assigned
       add_call add_image_fetch] in *.

(** * The page *)

Section PageRuns.
Context `{Platform} `{PagePlatform}.

Lemma num_lt_of_nat (i n : nat) :
  num_lt (num_of_Z (Z.of_nat i)) (num_of_Z (Z.of_nat n)) = bool_decide (i < n)%nat.
Proof.
  unfold num_lt, num_of_Z. 
  destruct (Qle_bool (inject_Z (Z.of_nat n)) (inject_Z (Z.of_nat i))) eqn:E.
  - apply Qle_bool_iff in E. rewrite <- Zle_Qle in E.
    cbn. symmetry. apply bool_decide_eq_false. lia.
  - cbn. symmetry. apply bool_decide_eq_true.
    destruct (decide (i < n)%nat) as [|Hge]; [done|].
    assert (Qle_bool (inject_Z (Z.of_nat n)) (inject_Z (Z.of_nat i)) = true); [|congruence].
    apply Qle_bool_iff. rewrite <- Zle_Qle. lia.
Qed.

Lemma has_elements_array items :
  has_elements (JArray items) = Normal (bool_decide (0 < length items)%nat).
Proof.
  unfold has_elements. cbn [ToBoolean length_of]. 
  unfold mbind, Completion_bind, mret, Completion_ret. cbn [coerce_number].
  f_equal. apply (num_lt_of_nat 0).
Qed.

Lemma num_sub_one (n : nat) :
  num_sub (num_of_Z (Z.of_nat (S n))) (Num 1) = num_of_Z (Z.of_nat n).
Proof.
  unfold num_sub, num_of_Z, inject_Z, Qminus, Qplus. cbn [Qnum Qden Qopp].
  f_equal. f_equal. lia. 
Qed.

Lemma num_lt_minus_one (i : nat) : num_lt (num_of_Z (Z.of_nat i)) (num_sub (num_of_Z 0) (Num 1)) = false.
Proof.
  unfold num_lt, num_sub, num_of_Z. apply negb_false_iff, Qle_bool_iff.
  unfold Qle, Qminus, Qplus, inject_Z. cbn. lia.
Qed.

(** The index update on an array of [n] records. *)
Lemma advance_currentIndex_array items p :
  advance_currentIndex (JArray items) p =
  (Fulfilled tt,
   set_currentIndex
     (if bool_decide (S (currentIndex p) < length items)%nat then S (currentIndex p) else 0%nat)
     p).
Proof.
  unfold advance_currentIndex. task_simpl. cbn [length_of coerce_number].
  destruct items as [|item items].
  - cbn [length]. change (Z.of_nat 0) with 0. rewrite num_lt_minus_one.
    rewrite bool_decide_eq_false_2 by lia. done.
  - cbn [length]. rewrite num_sub_one, num_lt_of_nat.
    destruct (decide (currentIndex p < length items)%nat).
    + rewrite !bool_decide_eq_true_2 by lia. done.
    + rewrite !bool_decide_eq_false_2 by lia. done.
Qed.

(** X12: the index update of lines 161-165 and 370-374, on an array of
    records that is not empty, fulfils and leaves the index in range
    whatever it was before; from an index in range it moves to the successor
    modulo the number of records. *)
Theorem advance_currentIndex_stays_in_range items p :
  items ≠ [] →
  fst (advance_currentIndex (JArray items) p) = Fulfilled tt ∧
  (currentIndex (snd (advance_currentIndex (JArray items) p)) < length items)%nat ∧
  ((currentIndex p < length items)%nat →
   currentIndex (snd (advance_currentIndex (JArray items) p)) =
   (S (currentIndex p) mod length items)%nat).
Proof.
  intros Hne. rewrite advance_currentIndex_array. page_simpl.
  assert (0 < length items)%nat by (destruct items; [done|cbn; lia]).
  split; [done|]. case_bool_decide; split; try lia.
  - intros _. by rewrite Nat.mod_small.
  - intros Hi. replace (S (currentIndex p)) with (length items) by lia.
    by rewrite Nat.Div0.mod_same.
Qed.

Lemma currentIndex_iter items p k :
  items ≠ [] → (currentIndex p < length items)%nat →
  currentIndex (Nat.iter k (next_page items) p) = ((currentIndex p + k) mod length items)%nat.
Proof.
  intros Hne Hi. induction k as [|k IH].
  - cbn. rewrite Nat.add_0_r. by rewrite Nat.mod_small.
  - rewrite Nat.iter_succ.
    assert (0 < length items)%nat as Hn by (destruct items; [done|cbn; lia]).
    unfold next_page at 1. rewrite advance_currentIndex_array. page_simpl. rewrite IH.
    pose proof (Nat.mod_upper_bound (currentIndex p + k) (length items)) as Hlt.
    specialize (Hlt ltac:(lia)).
    case_bool_decide as Hcase.
    + replace (currentIndex p + S k)%nat with (1 + (currentIndex p + k))%nat by lia.
      rewrite <- (Nat.Div0.add_mod_idemp_r 1 (currentIndex p + k)).
      rewrite (Nat.mod_small (1 + _)); lia.
    + replace (currentIndex p + S k)%nat with (1 + (currentIndex p + k))%nat by lia.
      rewrite <- (Nat.Div0.add_mod_idemp_r 1 (currentIndex p + k)).
      replace (1 + (currentIndex p + k) mod length items)%nat with (length items) by lia.
      by rewrite Nat.Div0.mod_same.
Qed.

(** X13: from an index in range, as many index updates as there are
    records bring the index back to where it was, and every index is reached
    in fewer updates than that: the updates go round all the records. *)
Theorem advance_currentIndex_cycles items p :
  items ≠ [] →
  (currentIndex p < length items)%nat →
  currentIndex (Nat.iter (length items) (next_page items) p) = currentIndex p ∧
  ∀ j, (j < length items)%nat →
    ∃ k, (k < length items)%nat ∧ currentIndex (Nat.iter k (next_page items) p) = j.
Proof.
  intros Hne Hi.
  assert (0 < length items)%nat as Hn by (destruct items; [done|cbn; lia]).
  split.
  - rewrite currentIndex_iter by done.
    rewrite <- Nat.Div0.add_mod_idemp_r, Nat.Div0.mod_same, Nat.add_0_r.
    by apply Nat.mod_small.
  - intros j Hj. exists ((j + length items - currentIndex p) mod length items)%nat.
    split; [by apply Nat.mod_upper_bound; lia|].
    rewrite currentIndex_iter by done.
    rewrite Nat.Div0.add_mod_idemp_r.
    replace (currentIndex p + (j + length items - currentIndex p))%nat
      with (j + 1 * length items)%nat by lia.
    rewrite Nat.Div0.mod_add. by apply Nat.mod_small.
Qed.

(** What [getImageUrl] does after its call of [fetchArtworksAndCache]. *)
Lemma getImageUrl_run p :
  getImageUrl p =
  match fetchArtworksAndCache (browser p) with
  | (Throw e, w) => (Failed (Thrown e), set_browser w p)
  | (Normal artworkData, w) =>
      match has_elements artworkData with
      | Throw e => (Failed (Thrown e), set_browser w p)
      | Normal false => (Fulfilled JUndefined, set_browser w p)
      | Normal true =>
          match
            artwork ← element artworkData (currentIndex p);
            image_id ← property artwork "image_id";
            to_string image_id
          with
          | Normal id => (Fulfilled (JString (image_url id)), set_browser w p)
          | Throw e => (Failed (Thrown e), set_browser w p)
          end
      end
  end.
Proof.
  unfold getImageUrl. task_simpl.
  destruct (fetchArtworksAndCache (browser p)) as [[artworkData|e] w]; [|done].
  destruct (has_elements artworkData) as [[|]|e]; [|done|done].
  page_simpl. destruct (element artworkData (currentIndex p)) as [artwork|e]; [|done].
  destruct (property artwork "image_id") as [image_id|e]; [|done].
  by destruct (to_string image_id).
Qed.


(** X10: when [fetchArtworksAndCache] returns [null], [undefined] or an
    empty array, [getImageUrl] fulfils with [undefined], and sends no request
    of its own. *)
Theorem getImageUrl_without_data p v :
  fst (fetchArtworksAndCache (browser p)) = Normal v →
  v = JNull ∨ v = JUndefined ∨ v = JArray [] →
  fst (getImageUrl p) = Fulfilled JUndefined ∧
  requests (browser (snd (getImageUrl p))) =
    requests (snd (fetchArtworksAndCache (browser p))).
Proof.
  intros Hdata Hv. rewrite getImageUrl_run.
  destruct (fetchArtworksAndCache (browser p)) as [c w]. cbn in Hdata. subst c.
  by destruct Hv as [->|[->| ->]].
Qed.

(** X11: when the current index is beyond the end of the array of
    records that [fetchArtworksAndCache] returns, [getImageUrl] rejects with
    a TypeError (it reads [image_id] of [undefined]). *)
Theorem getImageUrl_out_of_range p items :
  fst (fetchArtworksAndCache (browser p)) = Normal (JArray items) →
  items ≠ [] →
  (length items ≤ currentIndex p)%nat →
  fst (getImageUrl p) = Failed (Thrown TypeError).
Proof.
  intros Hdata Hne Hrange. rewrite getImageUrl_run.
  destruct (fetchArtworksAndCache (browser p)) as [c w]. cbn in Hdata. subst c.
  rewrite has_elements_array.
  rewrite bool_decide_eq_true_2 by (destruct items; [done|cbn; lia]).
  cbn [element]. by rewrite lookup_ge_None_2.
Qed.

(** The [catch] clause of the fetch writes to the element
    [artworks-list] and to no other. *)
Lemma catch_document e w id :
  id ≠ "artworks-list" →
  document (snd (fetchArtworksAndCache_catch e w)) !! id = document w !! id.
Proof.
  intros Hid. rewrite catch_run. cbn zeta.
  destruct (document w !! "artworks-list"); world_simpl; [|done].
  by rewrite lookup_insert_ne.
Qed.

Lemma remote_document w id :
  id ≠ "artworks-list" →
  document (snd (fetchArtworksAndCache_remote w)) !! id = document w !! id.
Proof.
  intros Hid.
  destruct (getPageTotal_run w) as (v & w1 & Hv & Hw1).
  rewrite (remote_run w v w1 Hv).
  pose proof (fetched_document _ _ _ Hw1) as Hdoc1.
  destruct (coerce_number v) as [total|e].
  2:{ rewrite catch_document by done. world_simpl. by rewrite Hdoc1. }
  cbn zeta. destruct (after_draws_fields 10 w1) as (_ & Hdoc2 & _).
  generalize (join "," (random_ids w1 total)). intros idString.
  generalize dependent (after_draws 10 w1). intros w2 Hdoc2.
  repeat case_match; rewrite ?catch_document by done; world_simpl;
    by rewrite Hdoc2, Hdoc1.
Qed.

(** A call of [fetchArtworksAndCache] writes to no element of the page
    but [artworks-list]. *)
Lemma fetch_document w id :
  id ≠ "artworks-list" →
  document (snd (fetchArtworksAndCache w)) !! id = document w !! id.
Proof.
  intros Hid.
  destruct (cached_run w) as (cached & w0 & Hcached & Hw0).
  pose proof (fetched_document _ _ _ Hw0) as Hdoc0.
  unfold fetchArtworksAndCache, mbind, JS_bind. rewrite Hcached.
  destruct cached as [data|]; [unfold mret, JS_ret; cbn [snd]; by rewrite Hdoc0|].
  rewrite remote_document by done. by rewrite Hdoc0.
Qed.

Lemma getImageUrl_browser p :
  browser (snd (getImageUrl p)) = snd (fetchArtworksAndCache (browser p)) ∧
  currentIndex (snd (getImageUrl p)) = currentIndex p ∧
  calls (snd (getImageUrl p)) = calls p ∧
  image_fetches (snd (getImageUrl p)) = image_fetches p.
Proof.
  rewrite getImageUrl_run.
  destruct (fetchArtworksAndCache (browser p)) as [[artworkData|e] w]; [|done].
  destruct (has_elements artworkData) as [[|]|e]; [|done|done].
  by case_match.
Qed.

Lemma fetch_image_document tempImageUrl artworkData p :
  document (browser (snd (fetch_image tempImageUrl artworkData p))) = document (browser p).
Proof.
  unfold fetch_image. task_simpl. by destruct (to_string tempImageUrl).
Qed.

Lemma getElementById_run id p :
  in_browser (document_getElementById id) p =
  (Fulfilled (match document (browser p) !! id with Some _ => Some id | None => None end),
   set_browser (browser p) p).
Proof.
  unfold in_browser, document_getElementById.
  destruct (document (browser p) !! id) eqn:E.
  - by rewrite decide_True by eauto.
  - by rewrite decide_False by (intros [? ?]; congruence).
Qed.

Lemma set_browser_same p : set_browser (browser p) p = p.
Proof. by destruct p. Qed.

(** [renderArtworkData] when there is data at the current index and the
    page has the three elements: they are written, then comes the image. *)
Lemma renderArtworkData_run p items artwork v_title v_artist v_date
    title_html artist_html date_html :
  fst (fetchArtworksAndCache (browser p)) = Normal (JArray items) →
  items !! currentIndex p = Some artwork →
  is_Some (document (browser p) !! "artwork-title") →
  is_Some (document (browser p) !! "artwork-artist") →
  is_Some (document (browser p) !! "artwork-date") →
  property artwork "title" = Normal v_title →
  property artwork "artist_display" = Normal v_artist →
  property artwork "date_display" = Normal v_date →
  html_of v_title = Normal title_html →
  html_of (logical_or v_artist (JString "N/A")) = Normal artist_html →
  html_of (logical_or v_date (JString "N/A")) = Normal date_html →
  renderArtworkData p =
  (tempImageUrl ← getImageUrl; fetch_image tempImageUrl (JArray items))
    (shown title_html artist_html date_html
       (set_browser (snd (fetchArtworksAndCache (browser p))) p)).
Proof.
  intros Hdata Hitem [t0 Ht] [a0 Ha] [d0 Hd] Hvt Hva Hvd Hht Hha Hhd.
  unfold renderArtworkData.
  unfold mbind at 1, Task_bind at 1. unfold in_browser at 1.
  pose proof (fetch_document (browser p)) as Hframe.
  destruct (fetchArtworksAndCache (browser p)) as [c w]. cbn in Hdata. subst c.
  cbn [snd] in Hframe |- *.
  unfold mbind at 1, Task_bind at 1. unfold compute at 1.
  rewrite has_elements_array. apply lookup_lt_Some in Hitem as Hlt.
  rewrite bool_decide_eq_true_2 by lia.
  unfold mbind at 1, Task_bind at 1. unfold read at 1. page_simpl.
  unfold mbind at 1, Task_bind at 1. unfold compute at 1. cbn [element]. rewrite Hitem.
  cbn [default from_option id].
  rewrite <- (Hframe "artwork-title") in Ht by done.
  rewrite <- (Hframe "artwork-artist") in Ha by done.
  rewrite <- (Hframe "artwork-date") in Hd by done.
  change w with (browser (set_browser w p)) in Ht, Ha, Hd. clear Hframe.
  generalize dependent (set_browser w p). intros p0 Ht Ha Hd.
  unfold mbind at 1, Task_bind at 1. rewrite getElementById_run, Ht, set_browser_same.
  unfold mbind at 1, Task_bind at 1. rewrite getElementById_run, Ha, set_browser_same.
  unfold mbind at 1, Task_bind at 1. rewrite getElementById_run, Hd, set_browser_same.
  unfold mbind at 1, Task_bind at 1. unfold compute at 1. rewrite Hvt.
  unfold mbind at 1, Task_bind at 1. unfold assign_innerHTML at 1.
  unfold mbind at 1, Task_bind at 1. unfold compute at 1. rewrite Hht.
  unfold in_browser at 1, set_innerHTML at 1.
  unfold mbind at 1, Task_bind at 1. unfold compute at 1. rewrite Hva.
  unfold mbind at 1, Task_bind at 1. unfold assign_innerHTML at 1.
  unfold mbind at 1, Task_bind at 1. unfold compute at 1. rewrite Hha.
  unfold in_browser at 1, set_innerHTML at 1. page_simpl.
  unfold mbind at 1, Task_bind at 1. unfold compute at 1. rewrite Hvd.
  unfold mbind at 1, Task_bind at 1. unfold assign_innerHTML at 1.
  unfold mbind at 1, Task_bind at 1. unfold compute at 1. rewrite Hhd.
  unfold in_browser at 1, set_innerHTML at 1. page_simpl.
  reflexivity.
Qed.

Lemma shown_document title_html artist_html date_html p :
  document (browser (shown title_html artist_html date_html p)) !! "artwork-title" =
    Some title_html ∧
  document (browser (shown title_html artist_html date_html p)) !! "artwork-artist" =
    Some artist_html ∧
  document (browser (shown title_html artist_html date_html p)) !! "artwork-date" =
    Some date_html.
Proof.
  unfold shown. page_simpl. world_simpl. split_and!.
  - by rewrite lookup_insert_ne, lookup_insert_ne, lookup_insert_eq.
  - by rewrite lookup_insert_ne, lookup_insert_eq.
  - by rewrite lookup_insert_eq.
Qed.

Lemma image_step_document artworkData p id :
  id ≠ "artworks-list" →
  document (browser (snd ((getImageUrl ≫= λ tempImageUrl, fetch_image tempImageUrl artworkData) p)))
    !! id = document (browser p) !! id.
Proof.
  intros Hid. unfold mbind, Task_bind.
  destruct (getImageUrl_browser p) as (Hb & _).
  destruct (getImageUrl p) as [[tempImageUrl|e] p4]; cbn [snd] in Hb |- *.
  - by rewrite fetch_image_document, Hb, fetch_document.
  - by rewrite Hb, fetch_document.
Qed.

(** X16: when [fetchArtworksAndCache] returns an array with a record at
    the current index and the page has the elements [artwork-title],
    [artwork-artist] and [artwork-date], then after [renderArtworkData] the
    three elements hold the title, and artist and date or 'N/A', of that
    record: neither the second call of [fetchArtworksAndCache] (in
    [getImageUrl]) nor the image request overwrites them. *)
Theorem renderArtworkData_shows p items artwork v_title v_artist v_date
    title_html artist_html date_html :
  fst (fetchArtworksAndCache (browser p)) = Normal (JArray items) →
  items !! currentIndex p = Some artwork →
  is_Some (document (browser p) !! "artwork-title") →
  is_Some (document (browser p) !! "artwork-artist") →
  is_Some (document (browser p) !! "artwork-date") →
  property artwork "title" = Normal v_title →
  property artwork "artist_display" = Normal v_artist →
  property artwork "date_display" = Normal v_date →
  html_of v_title = Normal title_html →
  html_of (logical_or v_artist (JString "N/A")) = Normal artist_html →
  html_of (logical_or v_date (JString "N/A")) = Normal date_html →
  document (browser (snd (renderArtworkData p))) !! "artwork-title" = Some title_html ∧
  document (browser (snd (renderArtworkData p))) !! "artwork-artist" = Some artist_html ∧
  document (browser (snd (renderArtworkData p))) !! "artwork-date" = Some date_html.
Proof.
  intros Hdata Hitem Ht Ha Hd Hvt Hva Hvd Hht Hha Hhd.
  rewrite (renderArtworkData_run p items artwork v_title v_artist v_date
             title_html artist_html date_html) by done.
  rewrite !image_step_document by done. apply shown_document.
Qed.

(** X17: a record whose [artist_display] and [date_display] are falsy
    (missing, [null], the empty string, 0) is shown with 'N/A' for both. *)
Theorem renderArtworkData_falls_back_to_NA p items artwork v_title v_artist v_date title_html :
  fst (fetchArtworksAndCache (browser p)) = Normal (JArray items) →
  items !! currentIndex p = Some artwork →
  is_Some (document (browser p) !! "artwork-title") →
  is_Some (document (browser p) !! "artwork-artist") →
  is_Some (document (browser p) !! "artwork-date") →
  property artwork "title" = Normal v_title →
  html_of v_title = Normal title_html →
  property artwork "artist_display" = Normal v_artist →
  property artwork "date_display" = Normal v_date →
  ToBoolean v_artist = false →
  ToBoolean v_date = false →
  document (browser (snd (renderArtworkData p))) !! "artwork-artist" = Some "N/A" ∧
  document (browser (snd (renderArtworkData p))) !! "artwork-date" = Some "N/A".
Proof.
  intros Hdata Hitem Ht Ha Hd Hvt Hht Hva Hvd Hfa Hfd.
  rewrite (renderArtworkData_run p items artwork v_title v_artist v_date
             title_html "N/A" "N/A"); try done.
  - rewrite !image_step_document by done.
    destruct (shown_document title_html "N/A" "N/A"
                (set_browser (snd (fetchArtworksAndCache (browser p))) p)) as (_ & ? & ?).
    done.
  - unfold logical_or. by rewrite Hfa.
  - unfold logical_or. by rewrite Hfd.
Qed.

(** [renderArtworkData] when the fetch gave nothing to show. *)
Lemma renderArtworkData_nothing p v :
  fst (fetchArtworksAndCache (browser p)) = Normal v →
  has_elements v = Normal false →
  renderArtworkData p =
  assign_title_innerHTML
    (if negb (ToBoolean v)
     then "Could not retrieve artwork data due to an error. Check console for details."
     else "No artworks were found with the current query.")
    (set_browser (snd (fetchArtworksAndCache (browser p))) p).
Proof.
  intros Hdata Hnone. unfold renderArtworkData.
  unfold mbind at 1, Task_bind at 1. unfold in_browser at 1.
  destruct (fetchArtworksAndCache (browser p)) as [c w]. cbn in Hdata. subst c.
  unfold mbind at 1, Task_bind at 1. unfold compute at 1. rewrite Hnone.
  by destruct (negb (ToBoolean v)).
Qed.

Lemma assign_title_innerHTML_run text p :
  assign_title_innerHTML text p =
  match document (browser p) !! "title" with
  | Some _ => (Fulfilled tt, set_browser (set_document (insert "title" text) (browser p)) p)
  | None => (Failed (ReferenceError "title"), p)
  end.
Proof.
  unfold assign_title_innerHTML. unfold mbind, Task_bind. rewrite getElementById_run.
  rewrite set_browser_same. destruct (document (browser p) !! "title"); [|done].
  unfold in_browser, set_innerHTML. by destruct p.
Qed.

(** X18: when [fetchArtworksAndCache] returns [null], [undefined] or an
    empty array, and the page has no element with the id [title],
    [renderArtworkData] rejects with a ReferenceError: the two [else]
    branches assign to [title], which is declared inside the [if] block
    only. Nothing is written to the page. *)
Theorem renderArtworkData_without_data p v :
  fst (fetchArtworksAndCache (browser p)) = Normal v →
  v = JNull ∨ v = JUndefined ∨ v = JArray [] →
  document (browser p) !! "title" = None →
  fst (renderArtworkData p) = Failed (ReferenceError "title") ∧
  snd (renderArtworkData p) = set_browser (snd (fetchArtworksAndCache (browser p))) p.
Proof.
  intros Hdata Hv Htitle.
  rewrite (renderArtworkData_nothing p v Hdata) by (by destruct Hv as [->|[->| ->]]).
  rewrite assign_title_innerHTML_run. page_simpl.
  by rewrite fetch_document, Htitle.
Qed.

(** [renderArtworkData] with the index beyond the records. *)
Lemma renderArtworkData_beyond p items :
  fst (fetchArtworksAndCache (browser p)) = Normal (JArray items) →
  items ≠ [] →
  (length items ≤ currentIndex p)%nat →
  renderArtworkData p =
  (Failed (Thrown TypeError), set_browser (snd (fetchArtworksAndCache (browser p))) p).
Proof.
  intros Hdata Hne Hrange. unfold renderArtworkData.
  unfold mbind at 1, Task_bind at 1. unfold in_browser at 1.
  destruct (fetchArtworksAndCache (browser p)) as [c w]. cbn in Hdata. subst c.
  cbn [snd].
  unfold mbind at 1, Task_bind at 1. unfold compute at 1.
  rewrite has_elements_array.
  rewrite bool_decide_eq_true_2 by (destruct items; [done|cbn; lia]).
  unfold mbind at 1, Task_bind at 1. unfold read at 1. page_simpl.
  unfold mbind at 1, Task_bind at 1. unfold compute at 1. cbn [element].
  rewrite lookup_ge_None_2 by done. cbn [default from_option id].
  generalize (set_browser w p). intros p0.
  unfold mbind at 1, Task_bind at 1. rewrite getElementById_run, set_browser_same.
  unfold mbind at 1, Task_bind at 1. rewrite getElementById_run, set_browser_same.
  unfold mbind at 1, Task_bind at 1. rewrite getElementById_run, set_browser_same.
  unfold mbind at 1, Task_bind at 1. unfold compute at 1. done.
Qed.

(** X19: when the current index is beyond the end of the array of
    records that [fetchArtworksAndCache] returns, [renderArtworkData]
    rejects with a TypeError (it reads [title] of [undefined]) and has
    written nothing to the page; no image is requested. *)
Theorem renderArtworkData_out_of_range p items :
  fst (fetchArtworksAndCache (browser p)) = Normal (JArray items) →
  items ≠ [] →
  (length items ≤ currentIndex p)%nat →
  fst (renderArtworkData p) = Failed (Thrown TypeError) ∧
  snd (renderArtworkData p) = set_browser (snd (fetchArtworksAndCache (browser p))) p.
Proof.
  intros Hdata Hne Hrange.
  by rewrite (renderArtworkData_beyond p items Hdata Hne Hrange).
Qed.

Lemma in_browser_bind {A B : Type} (m : JS A) (k : A → Task B) p :
  (in_browser m ≫= k) p =
  match m (browser p) with
  | (Normal a, w) => k a (set_browser w p)
  | (Throw e, w) => (Failed (Thrown e), set_browser w p)
  end.
Proof. unfold mbind, Task_bind, in_browser. by destruct (m (browser p)) as [[a|e] w]. Qed.

(** X14: when [fetchArtworksAndCache] returns [null], the handler of the
    Next button rejects with a TypeError (it reads [length] of [null])
    before it has changed anything: the index, the revealed state and the
    overlay are as they were and no render is started. *)
Theorem nextBtn_click_without_data p :
  fst (fetchArtworksAndCache (browser p)) = Normal JNull →
  fst (nextBtn_click p) = Failed (Thrown TypeError) ∧
  snd (nextBtn_click p) = set_browser (snd (fetchArtworksAndCache (browser p))) p.
Proof.
  intros Hdata. unfold nextBtn_click. rewrite in_browser_bind.
  destruct (fetchArtworksAndCache (browser p)) as [c w]. cbn in Hdata. subst c.
  done.
Qed.

Lemma assign_run id prop v p :
  is_Some (document (browser p) !! id) →
  assign id prop v p = (Fulfilled tt, set_assigned (insert (id, prop) v) p).
Proof. intros [html Hid]. unfold assign. by rewrite Hid. Qed.

Lemma nextBtn_click_run p items :
  fst (fetchArtworksAndCache (browser p)) = Normal (JArray items) →
  is_Some (document (browser p) !! "image-container") →
  is_Some (document (browser p) !! "artwork-text") →
  is_Some (document (browser p) !! "overlay") →
  nextBtn_click p =
  (Fulfilled tt, after_next items (set_browser (snd (fetchArtworksAndCache (browser p))) p)).
Proof.
  intros Hdata Hcontainer Htext Hoverlay. unfold nextBtn_click. rewrite in_browser_bind.
  pose proof (fetch_document (browser p)) as Hframe.
  destruct (fetchArtworksAndCache (browser p)) as [c w]. cbn in Hdata. subst c.
  cbn [snd] in Hframe |- *.
  rewrite <- (Hframe "image-container") in Hcontainer by done.
  rewrite <- (Hframe "artwork-text") in Htext by done.
  rewrite <- (Hframe "overlay") in Hoverlay by done.
  unfold mbind at 1, Task_bind at 1. rewrite advance_currentIndex_array. page_simpl.
  unfold setIsRevealed.
  unfold mbind at 1, Task_bind at 1. unfold mbind at 1, Task_bind at 1.
  unfold update at 1.
  unfold mbind at 1, Task_bind at 1. rewrite assign_run by done.
  rewrite assign_run by done.
  unfold mbind at 1, Task_bind at 1. rewrite assign_run by done.
  reflexivity.
Qed.

(** X15: when [fetchArtworksAndCache] returns an array of records that
    is not empty and the page has the elements [image-container],
    [artwork-text] and [overlay], the handler of the Next button fulfils,
    leaves the index in range (the successor modulo the number of records
    when it was in range), hides the artwork, shows the overlay and starts
    one render. *)
Theorem nextBtn_click_advances p items :
  fst (fetchArtworksAndCache (browser p)) = Normal (JArray items) →
  items ≠ [] →
  is_Some (document (browser p) !! "image-container") →
  is_Some (document (browser p) !! "artwork-text") →
  is_Some (document (browser p) !! "overlay") →
  fst (nextBtn_click p) = Fulfilled tt ∧
  (currentIndex (snd (nextBtn_click p)) < length items)%nat ∧
  ((currentIndex p < length items)%nat →
   currentIndex (snd (nextBtn_click p)) = (S (currentIndex p) mod length items)%nat) ∧
  isRevealed (snd (nextBtn_click p)) = false ∧
  assigned (snd (nextBtn_click p)) !! ("overlay", "style.display") = Some (JString "flex") ∧
  calls (snd (nextBtn_click p)) = calls p ++ [call_renderArtworkData].
Proof.
  intros Hdata Hne Hcontainer Htext Hoverlay.
  rewrite (nextBtn_click_run p items) by done. unfold after_next. page_simpl.
  assert (0 < length items)%nat by (destruct items; [done|cbn; lia]).
  split_and!; try done.
  - case_bool_decide; lia.
  - intros Hi. case_bool_decide.
    + by rewrite Nat.mod_small.
    + replace (S (currentIndex p)) with (length items) by lia.
      by rewrite Nat.Div0.mod_same.
  - by rewrite lookup_insert_eq.
Qed.

Lemma console_error_run text e p :
  in_browser (console_error text e) p =
  (Fulfilled tt, set_browser (add_console (console_error_entry text e) (browser p)) p).
Proof. done. Qed.

Lemma image_settled_failed f response items p :
  ok response = false →
  captured_data f = JArray items →
  image_settled f (Responded response) p =
  (Fulfilled tt,
   set_browser
     (add_console
        (console_error_entry "Fetch error:"
           (Some (Error ("Error fetching image: " +:+ statusText response))))
        (browser p))
     (add_call call_renderArtworkData
        (set_currentIndex
           (if bool_decide (S (currentIndex p) < length items)%nat
            then S (currentIndex p) else 0%nat) p))).
Proof.
  intros Hok Hdata.
  unfold image_settled, task_catch. rewrite Hok, Hdata. cbn [negb].
  unfold mbind at 1, Task_bind at 1. rewrite advance_currentIndex_array.
  unfold mbind, Task_bind, start, update, task_throw. by rewrite console_error_run.
Qed.

(** X20: when the image request is answered with a status that is not
    a success, its promise chain fulfils; the index has moved on to the next
    record of the array the render had fetched (to 0 from the last, or from
    out of range), one render has been started, the image and the image
    address of the page are as they were, and 'Fetch error:' is logged with
    an Error whose message is 'Error fetching image: ' and the status text. *)
Theorem image_settled_retries f response items p :
  ok response = false →
  captured_data f = JArray items →
  fst (image_settled f (Responded response) p) = Fulfilled tt ∧
  currentIndex (snd (image_settled f (Responded response) p)) =
    (if bool_decide (S (currentIndex p) < length items)%nat
     then S (currentIndex p) else 0%nat) ∧
  calls (snd (image_settled f (Responded response) p)) = calls p ++ [call_renderArtworkData] ∧
  imageUrl (snd (image_settled f (Responded response) p)) = imageUrl p ∧
  assigned (snd (image_settled f (Responded response) p)) = assigned p ∧
  console_error_entry "Fetch error:"
    (Some (Error ("Error fetching image: " +:+ statusText response)))
    ∈ console (browser (snd (image_settled f (Responded response) p))).
Proof.
  intros Hok Hdata. rewrite (image_settled_failed f response items p Hok Hdata).
  page_simpl. world_simpl. split_and!; try done.
  apply elem_of_app. right. apply list_elem_of_here.
Qed.

(** X21: the promise chain of the image request never rejects, whatever
    the request settles with and whatever the page: every error of the
    [then] callback reaches the [catch] callback, which logs it. A request
    that is rejected (no answer of the network) changes nothing but the
    console: the index stays and no render is started. *)
Theorem image_chain_never_rejects f result p :
  fst (image_settled f result p) = Fulfilled tt ∧
  snd (image_settled f Rejected p) =
    set_browser
      (add_console (console_error_entry "Fetch error:" (Some FetchRejected)) (browser p)) p.
Proof.
  split; [|done].
  unfold image_settled, task_catch.
  match goal with |- context [match ?b p with _ => _ end] => destruct (b p) as [[[]|e] p'] end;
    done.
Qed.

(** A call on a fresh entry, as an equation. *)
Lemma fetch_hit_run w text cache timestamp data :
  localStorage w !! CACHE_KEY = Some text →
  parse text = Normal cache →
  property cache "timestamp" = Normal (JNumber (Num timestamp)) →
  property cache "data" = Normal data →
  fresh w (Num timestamp) = true →
  fetchArtworksAndCache w =
  (Normal data,
   add_console (console_log_time "Data retrieved from CACHE." (JNumber (Num timestamp))) w).
Proof.
  intros Hs Hp Hts Hd Hfresh. unfold fetchArtworksAndCache, mbind, JS_bind.
  rewrite (cached_present w text Hs (parse_truthy _ _ Hp)), Hp, Hts.
  cbn beta iota zeta delta [coerce_number]. by rewrite Hfresh, Hd.
Qed.

Lemma fresh_now w w' :
  clock w' = clock w → ticks w' = ticks w → fresh w' (now w) = true.
Proof.
  intros Hc Ht. unfold now, num_of_Z. apply fresh_true. rewrite Hc, Ht.
  unfold Qminus, Qlt, TTL. cbn. lia.
Qed.

Lemma html_of_or_NA s : html_of (logical_or (JString s) (JString "N/A")) = Normal (or_NA s).
Proof. by destruct s. Qed.

(** X22: a first render, on an empty cache. When the batch request
    delivers an array of records that the slot gives back as it was written,
    and the record at the current index has strings for title, artist, date
    and image id, [renderArtworkData] fulfils after exactly three requests
    (the total, the batch, the image): the second call of
    [fetchArtworksAndCache], in [getImageUrl], is served from the entry the
    first one wrote. The three elements show the record and the promise
    chain of the image request waits, with the array fetched. *)
Theorem renderArtworkData_cold_cache p url items title artist date image_id :
  let w := browser p in
  let w' := snd (fetchArtworksAndCache w) in
  requests w' !! batch_index w = Some url →
  batch_data (network w (batch_index w) url) = Some (JArray items) →
  parse (JSON_stringify (cachePayload (now w') (JArray items))) =
    Normal (cachePayload (now w') (JArray items)) →
  (∃ artwork, items !! currentIndex p = Some artwork ∧
     property artwork "title" = Normal (JString title) ∧
     property artwork "artist_display" = Normal (JString artist) ∧
     property artwork "date_display" = Normal (JString date) ∧
     property artwork "image_id" = Normal (JString image_id)) →
  is_Some (document w !! "artwork-title") →
  is_Some (document w !! "artwork-artist") →
  is_Some (document w !! "artwork-date") →
  fst (renderArtworkData p) = Fulfilled tt ∧
  requests (browser (snd (renderArtworkData p))) =
    requests w ++ [total_url; url; image_url image_id] ∧
  image_fetches (snd (renderArtworkData p)) =
    image_fetches p ++
    [{| request_index := S (S (length (requests w)));
        captured_url := JString (image_url image_id);
        captured_data := JArray items |}] ∧
  document (browser (snd (renderArtworkData p))) !! "artwork-title" = Some title ∧
  document (browser (snd (renderArtworkData p))) !! "artwork-artist" = Some (or_NA artist) ∧
  document (browser (snd (renderArtworkData p))) !! "artwork-date" = Some (or_NA date).
Proof.
  intros w w' Hurl Hdata Hround (artwork & Hitem & Htitle & Har & Hda & Hid) Ht Ha Hd.
  subst w w'.
  destruct (fetch_stored_run (browser p) url (JArray items) Hurl Hdata)
    as (wf & Hrun & Hlsf & Hdocf & Hreqf & Hclockf & Hticksf).
  rewrite (renderArtworkData_run p items artwork (JString title) (JString artist) (JString date)
             title (or_NA artist) (or_NA date)); try done.
  2:{ by rewrite Hrun. } 2,3: apply html_of_or_NA.
  rewrite Hrun in Hround |- *. cbn [snd] in Hround |- *.
  set (p3 := shown _ _ _ _).
  assert (fetchArtworksAndCache (browser p3) =
          (Normal (JArray items),
           add_console
             (console_log_time "Data retrieved from CACHE." (JNumber (now wf))) (browser p3)))
    as Hhit.
  { unfold now at 1, num_of_Z.
    apply (fetch_hit_run _ (JSON_stringify (cachePayload (now wf) (JArray items)))
             (cachePayload (now wf) (JArray items))); try done.
    - subst p3. unfold shown. page_simpl. world_simpl. apply lookup_insert_eq.
    - apply (fresh_now wf); done. }
  assert (getImageUrl p3 =
          (Fulfilled (JString (image_url image_id)),
           set_browser
             (add_console
                (console_log_time "Data retrieved from CACHE." (JNumber (now wf)))
                (browser p3)) p3)) as Himage.
  { rewrite getImageUrl_run, Hhit, has_elements_array.
    apply lookup_lt_Some in Hitem as Hlt. rewrite bool_decide_eq_true_2 by lia.
    replace (currentIndex p3) with (currentIndex p) by done.
    cbn [element]. rewrite Hitem. unfold mbind, Completion_bind. cbn [default from_option id].
    by rewrite Hid. }
  unfold mbind at 1 2 3 4 5 6, Task_bind at 1 2 3 4 5 6. rewrite Himage.
  unfold fetch_image. task_simpl. cbn [to_string]. page_simpl. world_simpl.
  subst p3. unfold shown. page_simpl. world_simpl.
  split_and!; try done.
  - rewrite Hreqf, <- app_assoc. done.
  - rewrite Hreqf, length_app. cbn. do 3 f_equal. lia.
  - rewrite Hdocf. by rewrite lookup_insert_ne, lookup_insert_ne, lookup_insert_eq.
  - by rewrite lookup_insert_ne, lookup_insert_eq.
  - by rewrite lookup_insert_eq.
Qed.

(** A render on a fresh entry: the three elements are written, the image
    of the current artwork is requested, nothing else changes. *)
Lemma render_on_fresh_entry p text cache timestamp items artwork title artist date image_id :
  localStorage (browser p) !! CACHE_KEY = Some text →
  parse text = Normal cache →
  property cache "timestamp" = Normal (JNumber (Num timestamp)) →
  property cache "data" = Normal (JArray items) →
  fresh (browser p) (Num timestamp) = true →
  items !! currentIndex p = Some artwork →
  property artwork "title" = Normal (JString title) →
  property artwork "artist_display" = Normal (JString artist) →
  property artwork "date_display" = Normal (JString date) →
  property artwork "image_id" = Normal (JString image_id) →
  is_Some (document (browser p) !! "artwork-title") →
  is_Some (document (browser p) !! "artwork-artist") →
  is_Some (document (browser p) !! "artwork-date") →
  ∃ p',
    renderArtworkData p = (Fulfilled tt, p') ∧
    localStorage (browser p') = localStorage (browser p) ∧
    clock (browser p') = clock (browser p) ∧
    ticks (browser p') = ticks (browser p) ∧
    network (browser p') = network (browser p) ∧
    requests (browser p') = requests (browser p) ++ [image_url image_id] ∧
    (∀ id, is_Some (document (browser p) !! id) → is_Some (document (browser p') !! id)) ∧
    currentIndex p' = currentIndex p ∧
    calls p' = calls p ∧
    image_fetches p' =
      image_fetches p ++
      [{| request_index := length (requests (browser p));
          captured_url := JString (image_url image_id);
          captured_data := JArray items |}].
Proof.
  intros Hs Hp Hts Hd Hfresh Hitem Htitle Har Hda Hid Ht Ha Hdt.
  pose proof (fetch_hit_run (browser p) text cache timestamp (JArray items) Hs Hp Hts Hd Hfresh)
    as Hhit.
  rewrite (renderArtworkData_run p items artwork (JString title) (JString artist) (JString date)
             title (or_NA artist) (or_NA date)); try done.
  2:{ by rewrite Hhit. } 2,3: apply html_of_or_NA.
  rewrite Hhit. cbn [snd].
  set (p3 := shown _ _ _ _).
  assert (fetchArtworksAndCache (browser p3) =
          (Normal (JArray items),
           add_console
             (console_log_time "Data retrieved from CACHE." (JNumber (Num timestamp)))
             (browser p3))) as Hhit3.
  { by apply (fetch_hit_run _ text cache). }
  assert (getImageUrl p3 =
          (Fulfilled (JString (image_url image_id)),
           set_browser
             (add_console
                (console_log_time "Data retrieved from CACHE." (JNumber (Num timestamp)))
                (browser p3)) p3)) as Himage.
  { rewrite getImageUrl_run, Hhit3, has_elements_array.
    apply lookup_lt_Some in Hitem as Hlt. rewrite bool_decide_eq_true_2 by lia.
    replace (currentIndex p3) with (currentIndex p) by done.
    cbn [element]. rewrite Hitem. unfold mbind, Completion_bind. cbn [default from_option id].
    by rewrite Hid. }
  unfold mbind at 1, Task_bind at 1. rewrite Himage.
  unfold fetch_image. task_simpl. cbn [to_string]. page_simpl. world_simpl.
  eexists. split; [reflexivity|].
  subst p3. unfold shown. page_simpl. world_simpl.
  split_and!; try done.
  intros id [html Hhtml].
  destruct (decide (id = "artwork-date")) as [->|]; [rewrite lookup_insert_eq; eauto|].
  rewrite lookup_insert_ne by done.
  destruct (decide (id = "artwork-artist")) as [->|]; [rewrite lookup_insert_eq; eauto|].
  rewrite lookup_insert_ne by done.
  destruct (decide (id = "artwork-title")) as [->|]; [rewrite lookup_insert_eq; eauto|].
  rewrite lookup_insert_ne by done. eauto.
Qed.

Lemma displayable_at items i :
  Forall displayable items → (i < length items)%nat →
  ∃ artwork, items !! i = Some artwork ∧ displayable artwork.
Proof.
  intros Hall Hi. destruct (lookup_lt_is_Some_2 items i Hi) as [artwork Hitem].
  exists artwork. split; [done|]. by eapply Forall_lookup_1.
Qed.

(** The turn of a waiting render while the entry is fresh: it fulfils,
    having requested the image of the current record. *)
Lemma render_turn items n0 timestamp p :
  gallery_with_broken_images items n0 timestamp p →
  render_pending p →
  fresh_at p timestamp 1 →
  ∃ p' url, turn p p' ∧
    gallery_with_broken_images items n0 timestamp p' ∧
    image_pending items n0 p' ∧
    image_of items url ∧
    requests (browser p') = requests (browser p) ++ [url] ∧
    ticks (browser p') = S (ticks (browser p)) ∧
    clock (browser p') = clock (browser p).
Proof.
  intros [(text & cache & Hs & Hp & Hts & Hd) Hitems Hindex
            Htitle Hartist Hdate Hnet Hreq] [Hcalls Hfetches] Hfresh.
  destruct (displayable_at items (currentIndex p) Hitems Hindex)
    as (artwork & Hitem & title & artist & date & image_id & Ht & Ha & Hdt & Hid).
  destruct (render_on_fresh_entry (set_calls [] (pass_time p)) text cache timestamp items
              artwork title artist date image_id)
    as (p' & Hrun & Hls & Hclock & Hticks & Hnetwork &
        Hrequests & Hdocument & Hcurrent & Hcalls' & Hfetches'); try done.
  { apply fresh_true. unfold fresh_at in Hfresh. rewrite Nat.add_1_r in Hfresh. done. }
  exists p', (image_url image_id). split_and!.
  - replace p' with (snd (renderArtworkData (set_calls [] (pass_time p))))
      by (by rewrite Hrun).
    by apply turn_render.
  - split; try (by apply Hdocument).
    + exists text, cache. split_and!; try done. by rewrite Hls.
    + done.
    + by rewrite Hcurrent.
    + intros n url Hn. rewrite Hnetwork. by apply Hnet.
    + rewrite Hrequests, length_app. cbn in *. lia.
  - split; [done|]. eexists. rewrite Hfetches'. unfold pass_time.
    cbn [image_fetches set_calls set_browser]. rewrite Hfetches.
    split; [done|]. split; [done|]. cbn [request_index].
    rewrite Hrequests, length_app. cbn in *. lia.
  - exists artwork, image_id. split_and!; [|done|done].
    by eapply list_elem_of_lookup_2.
  - by rewrite Hrequests.
  - by rewrite Hticks.
  - by rewrite Hclock.
Qed.

(** The turn of a waiting image request: the answer is not a success,
    the index moves on and a render is started. *)
Lemma image_turn items n0 timestamp p :
  gallery_with_broken_images items n0 timestamp p →
  image_pending items n0 p →
  ∃ p', turn p p' ∧
    gallery_with_broken_images items n0 timestamp p' ∧
    render_pending p' ∧
    requests (browser p') = requests (browser p) ∧
    ticks (browser p') = S (ticks (browser p)) ∧
    clock (browser p') = clock (browser p).
Proof.
  intros [(text & cache & Hs & Hp & Hts & Hd) Hitems Hindex
            Htitle Hartist Hdate Hnet Hreq] [Hcalls (f & Hfetches & Hdata & Hn0 & Hlt)].
  destruct (lookup_lt_is_Some_2 _ _ Hlt) as [url Hurl].
  destruct (Hnet (request_index f) url Hn0) as (response & Hresult & Hok).
  pose proof (image_settled_failed f response items
                (set_image_fetches [] (pass_time p)) Hok Hdata) as Hrun.
  eexists. split_and!.
  - eapply (turn_image p f [] url); done.
  - rewrite Hresult, Hrun. cbn [snd]. split; page_simpl; world_simpl; try done.
    + exists text, cache. done.
    + unfold pass_time. cbn [currentIndex set_image_fetches set_browser].
      clear Hrun. case_bool_decide; lia.
  - rewrite Hresult, Hrun. split; page_simpl; [|done].
    unfold pass_time. cbn [calls set_image_fetches set_browser]. by rewrite Hcalls.
  - by rewrite Hresult, Hrun.
  - by rewrite Hresult, Hrun.
  - by rewrite Hresult, Hrun.
Qed.

Lemma fresh_at_later p p' timestamp j k :
  clock (browser p') = clock (browser p) →
  ticks (browser p') = (ticks (browser p) + j)%nat →
  fresh_at p timestamp (j + k) → fresh_at p' timestamp k.
Proof.
  unfold fresh_at. intros -> ->. by rewrite Nat.add_assoc.
Qed.

(** X23: images that cannot be fetched are retried at once and without
    a limit, as long as the cache entry is fresh. On a gallery whose image
    requests are all answered with a status that is not a success, with a
    render waiting, and for every [n]: if the entry is fresh at the next
    [2 n] readings of the clock, the event loop reaches, in [2 n] turns, a
    page on which [n] more requests have been sent, each for the image of
    one of the records, and a render is waiting again. *)
Theorem broken_images_are_retried_while_fresh items n0 timestamp p n :
  gallery_with_broken_images items n0 timestamp p →
  render_pending p →
  (∀ k, (k ≤ 2 * n)%nat → fresh_at p timestamp k) →
  ∃ p' urls,
    rtc turn p p' ∧
    requests (browser p') = requests (browser p) ++ urls ∧
    length urls = n ∧
    Forall (image_of items) urls ∧
    ticks (browser p') = (ticks (browser p) + 2 * n)%nat ∧
    render_pending p' ∧
    gallery_with_broken_images items n0 timestamp p'.
Proof.
  revert p. induction n as [|n IH]; intros p Hgallery Hpending Hfresh.
  - exists p, []. rewrite app_nil_r, Nat.add_0_r. split_and!; done.
  - destruct (render_turn items n0 timestamp p Hgallery Hpending)
      as (p1 & url & Hturn1 & Hg1 & Hi1 & Hurl & Hreq1 & Hticks1 & Hclock1).
    { apply Hfresh. lia. }
    destruct (image_turn items n0 timestamp p1 Hg1 Hi1)
      as (p2 & Hturn2 & Hg2 & Hr2 & Hreq2 & Hticks2 & Hclock2).
    destruct (IH p2 Hg2 Hr2) as (p' & urls & Hsteps & Hreq & Hlen & Hurls & Hticks & Hr & Hg).
    { intros k Hk. apply (fresh_at_later p p2 timestamp 2 k).
      - by rewrite Hclock2, Hclock1.
      - rewrite Hticks2, Hticks1. lia.
      - apply Hfresh. lia. }
    exists p', (url :: urls). split_and!; try done.
    + eapply rtc_l; [exact Hturn1|]. eapply rtc_l; [exact Hturn2|exact Hsteps].
    + rewrite Hreq, Hreq2, Hreq1, <- app_assoc. done.
    + cbn. by rewrite Hlen.
    + by constructor.
    + rewrite Hticks, Hticks2, Hticks1. lia.
Qed.

(** [renderArtworkData] on a fetch that gives [null] or throws: no image
    is requested and no call is started. *)
Lemma renderArtworkData_quiet p :
  fst (fetchArtworksAndCache (browser p)) = Normal JNull ∨
  (∃ e, fst (fetchArtworksAndCache (browser p)) = Throw e) →
  calls (snd (renderArtworkData p)) = calls p ∧
  image_fetches (snd (renderArtworkData p)) = image_fetches p ∧
  requests (browser (snd (renderArtworkData p))) =
    requests (snd (fetchArtworksAndCache (browser p))).
Proof.
  intros [Hnull|[e He]].
  - rewrite (renderArtworkData_nothing p JNull Hnull) by done.
    rewrite assign_title_innerHTML_run. page_simpl.
    by destruct (document (snd (fetchArtworksAndCache (browser p))) !! "title").
  - unfold renderArtworkData. rewrite in_browser_bind.
    destruct (fetchArtworksAndCache (browser p)) as [c w]. cbn in He. by subst c.
Qed.

(** A call on a stale entry when the two requests are answered with a
    status that is not a success: the metadata request, the batch request
    for the ids 1,...,1, and the failure signal. *)
Lemma fetch_on_broken_network w text cache timestamp r1 r2 :
  localStorage w !! CACHE_KEY = Some text →
  parse text = Normal cache →
  property cache "timestamp" = Normal (JNumber (Num timestamp)) →
  (inject_Z TTL <= inject_Z (clock w (ticks w)) - timestamp)%Q →
  network w (length (requests w)) total_url = Responded r1 → ok r1 = false →
  network w (S (length (requests w))) (batch_url "1,1,1,1,1,1,1,1,1,1") = Responded r2 →
  ok r2 = false →
  failure_signal w (fst (fetchArtworksAndCache w)) ∧
  requests (snd (fetchArtworksAndCache w)) =
    requests w ++ [total_url; batch_url "1,1,1,1,1,1,1,1,1,1"].
Proof.
  intros Hs Hp Hts Hle Hn1 Hok1 Hn2 Hok2.
  assert (fetchArtworksAndCache_cached w =
          (Normal None,
           add_console
             (console_log_entry "Cached data found but has EXPIRED. Fetching new data...") w))
    as Hmiss.
  { rewrite (cached_present w text Hs (parse_truthy _ _ Hp)), Hp, Hts.
    cbn beta iota zeta delta [coerce_number]. by rewrite (fresh_false w timestamp Hle). }
  pose proof (miss_fresh_fetch w _ Hmiss) as Hfetch. unfold fresh_fetch in Hfetch.
  change "https://api.artic.edu/api/v1/artworks?limit=0" with total_url in Hfetch.
  rewrite Hn1 in Hfetch. unfold reported_total, pagination_total in Hfetch.
  rewrite Hok1 in Hfetch. cbn beta iota zeta delta [coerce_number] in Hfetch.
  fold (random_ids w (Num 0)) in Hfetch. rewrite random_ids_zero, join_ones in Hfetch.
  change ("https://api.artic.edu/api/v1/artworks?ids=" +:+ "1,1,1,1,1,1,1,1,1,1" +:+
          "&fields=id,title,image_id,artist_display,date_display")
    with (batch_url "1,1,1,1,1,1,1,1,1,1") in Hfetch.
  rewrite Hn2 in Hfetch. cbn [batch_data] in Hfetch. rewrite Hok2 in Hfetch.
  destruct Hfetch as (Hreq & _ & Hsignal & _). done.
Qed.

(** X27: the retries end when the cache entry expires. On the same
    gallery, with a render waiting, if the entry is stale at the next
    reading of the clock, the one turn there is sends the metadata request
    and the batch request for the ids 1,...,1, which fail as all requests
    do, and leaves nothing waiting: no image is requested, no render is
    started, and the event loop has no further turn. *)
Theorem retries_end_when_entry_expires items n0 timestamp p :
  gallery_with_broken_images items n0 timestamp p →
  render_pending p →
  stale_at p timestamp 1 →
  ∃ p', turn p p' ∧
    (∀ p'', turn p p'' → p'' = p') ∧
    requests (browser p') =
      requests (browser p) ++
      ["https://api.artic.edu/api/v1/artworks?limit=0";
       "https://api.artic.edu/api/v1/artworks?ids=1,1,1,1,1,1,1,1,1,1" +:+
       "&fields=id,title,image_id,artist_display,date_display"] ∧
    at_rest p' ∧
    (∀ p'', ¬ turn p' p'').
Proof.
  intros [(text & cache & Hs & Hp & Hts & Hd) Hitems Hindex
            Htitle Hartist Hdate Hnet Hreq] [Hcalls Hfetches] Hstale.
  set (q := set_calls [] (pass_time p)).
  destruct (Hnet (length (requests (browser q))) total_url) as (r1 & Hn1 & Hok1); [done|].
  destruct (Hnet (S (length (requests (browser q)))) (batch_url "1,1,1,1,1,1,1,1,1,1"))
    as (r2 & Hn2 & Hok2); [cbn in *; lia|].
  destruct (fetch_on_broken_network (browser q) text cache timestamp r1 r2)
    as (Hsignal & Hrequests); try done.
  { unfold stale_at in Hstale. rewrite Nat.add_1_r in Hstale. done. }
  destruct (renderArtworkData_quiet q) as (Hcalls' & Hfetches' & Hreq').
  { unfold failure_signal in Hsignal.
    destruct (document (browser q) !! "artworks-list"); eauto. }
  assert (at_rest (snd (renderArtworkData q))) as Hrest.
  { split; [by rewrite Hcalls'|]. rewrite Hfetches'. subst q. cbn. done. }
  exists (snd (renderArtworkData q)). split_and!.
  - by apply turn_render.
  - intros p'' Hturn. inversion Hturn as [? rest Hc|? c rest Hc Hne|? f rest url Hf]; subst.
    + rewrite Hcalls in Hc. by injection Hc as <-.
    + rewrite Hcalls in Hc. by injection Hc as <- <-.
    + by rewrite Hfetches in Hf.
  - by rewrite Hreq', Hrequests.
  - done.
  - destruct Hrest as [Hc' Hf'].
    intros p'' Hturn. inversion Hturn as [? rest Hc|? c rest Hc Hne|? f rest url Hf]; subst.
    + by rewrite Hc' in Hc.
    + by rewrite Hc' in Hc.
    + by rewrite Hf' in Hf.
Qed.

End PageRuns.

(** * The panel *)

Section PagePanel.
Context `{Platform} `{PagePlatform}.

(** X24: the four handlers of the colour settings keep the panel
    consistent: after each of them, for whatever value the event carries,
    the colour field of a mode is hidden exactly when that mode is
    'sampled'; a change of one mode leaves the other mode, its field and
    both colours as they were, and each handler starts one [renderImage]
    with the settings as they then are. *)
Theorem panel_handlers_keep_consistency p value :
  panel_consistent p →
  panel_consistent (snd (charColorMode_change value p)) ∧
  panel_consistent (snd (cellColorMode_change value p)) ∧
  panel_consistent (snd (charColor_change p)) ∧
  panel_consistent (snd (cellColor_change p)) ∧
  PARAMS (snd (charColorMode_change value p)) = with_charColorMode value (PARAMS p) ∧
  PARAMS (snd (cellColorMode_change value p)) = with_cellColorMode value (PARAMS p) ∧
  calls (snd (charColorMode_change value p)) =
    calls p ++ [call_renderImage (renderImage_args (snd (charColorMode_change value p)))] ∧
  calls (snd (cellColorMode_change value p)) =
    calls p ++ [call_renderImage (renderImage_args (snd (cellColorMode_change value p)))].
Proof.
  intros [Hchar Hcell].
  unfold panel_consistent, charColorMode_change, cellColorMode_change,
    charColor_change, cellColor_change.
  task_simpl. page_simpl. unfold with_charColorMode, with_cellColorMode.
  cbn [charColorMode cellColorMode charColor cellColor].
  split_and!; done.
Qed.

(** X25: the handler of Reset Colors sets the modes to 'sampled' and
    'fixed' and keeps the two colours of the settings, whatever they are;
    the [renderImage] it starts gets four arguments, so that the image is
    drawn with the default colours 'ffffff' and '000000' and not with the
    colours of the settings. *)
Theorem resetBtn_click_draws_default_colours p :
  fst (resetBtn_click p) = Fulfilled tt ∧
  charColorMode (PARAMS (snd (resetBtn_click p))) = JString "sampled" ∧
  cellColorMode (PARAMS (snd (resetBtn_click p))) = JString "fixed" ∧
  charColor (PARAMS (snd (resetBtn_click p))) = charColor (PARAMS p) ∧
  cellColor (PARAMS (snd (resetBtn_click p))) = cellColor (PARAMS p) ∧
  ∃ args,
    calls (snd (resetBtn_click p)) = calls p ++ [call_renderImage args; call_pane_refresh] ∧
    renderImage args =
      [t_loadImage (imageUrl p);
       myImage_characters (JString characters);
       myImage_charColorMode (JString "sampled");
       myImage_cellColorMode (JString "fixed");
       myImage_charColor (JString "ffffff");
       myImage_cellColor (JString "000000");
       t_resizeCanvas 600 600;
       t_image].
Proof.
  unfold resetBtn_click. task_simpl. page_simpl.
  unfold with_charColorMode, with_cellColorMode.
  cbn [charColorMode cellColorMode charColor cellColor].
  split_and!; try done.
  eexists. split; [by rewrite <- app_assoc|done].
Qed.

End PagePanel.

(** * The page, on concrete pages *)

Section PageWitnesses.
#[local] Existing Instance Demo.platform.
#[local] Existing Instance PageDemo.platform.


Lemma getImageUrl_without_data_witness :
  fst (getImageUrl (PageDemo.page PageDemo.failing_world 0)) = Fulfilled JUndefined ∧
  requests (browser (snd (getImageUrl (PageDemo.page PageDemo.failing_world 0)))) =
    requests (snd (fetchArtworksAndCache (browser (PageDemo.page PageDemo.failing_world 0)))).
Proof.
  apply (getImageUrl_without_data (PageDemo.page PageDemo.failing_world 0) JNull).
  - vm_compute; reflexivity.
  - left; reflexivity.
Defined.

Lemma getImageUrl_out_of_range_witness :
  fst (getImageUrl (PageDemo.page PageDemo.fresh_world 3)) = Failed (Thrown TypeError).
Proof.
  apply (getImageUrl_out_of_range (PageDemo.page PageDemo.fresh_world 3) [Demo.artwork]).
  - vm_compute; reflexivity.
  - discriminate.
  - cbn; lia.
Defined.

Lemma advance_currentIndex_stays_in_range_witness :
  fst (advance_currentIndex (JArray [Demo.artwork; PageDemo.anonymous])
         (PageDemo.page PageDemo.fresh_world 7)) = Fulfilled tt ∧
  (currentIndex (snd (advance_currentIndex (JArray [Demo.artwork; PageDemo.anonymous])
                        (PageDemo.page PageDemo.fresh_world 7))) <
   length [Demo.artwork; PageDemo.anonymous])%nat ∧
  ((currentIndex (PageDemo.page PageDemo.fresh_world 7) <
    length [Demo.artwork; PageDemo.anonymous])%nat →
   currentIndex (snd (advance_currentIndex (JArray [Demo.artwork; PageDemo.anonymous])
                        (PageDemo.page PageDemo.fresh_world 7))) =
   (S (currentIndex (PageDemo.page PageDemo.fresh_world 7)) mod
    length [Demo.artwork; PageDemo.anonymous])%nat).
Proof.
  apply (advance_currentIndex_stays_in_range [Demo.artwork; PageDemo.anonymous]
           (PageDemo.page PageDemo.fresh_world 7)).
  discriminate.
Defined.

Lemma advance_currentIndex_cycles_witness :
  currentIndex (Nat.iter (length [Demo.artwork; PageDemo.anonymous])
                  (next_page [Demo.artwork; PageDemo.anonymous])
                  (PageDemo.page PageDemo.fresh_world 1)) =
    currentIndex (PageDemo.page PageDemo.fresh_world 1) ∧
  ∀ j, (j < length [Demo.artwork; PageDemo.anonymous])%nat →
    ∃ k, (k < length [Demo.artwork; PageDemo.anonymous])%nat ∧
         currentIndex (Nat.iter k (next_page [Demo.artwork; PageDemo.anonymous])
                         (PageDemo.page PageDemo.fresh_world 1)) = j.
Proof.
  apply (advance_currentIndex_cycles [Demo.artwork; PageDemo.anonymous]
           (PageDemo.page PageDemo.fresh_world 1)).
  - discriminate.
  - cbn; lia.
Defined.

Lemma nextBtn_click_without_data_witness :
  fst (nextBtn_click (PageDemo.page PageDemo.failing_world 0)) = Failed (Thrown TypeError) ∧
  snd (nextBtn_click (PageDemo.page PageDemo.failing_world 0)) =
    set_browser (snd (fetchArtworksAndCache (browser (PageDemo.page PageDemo.failing_world 0))))
      (PageDemo.page PageDemo.failing_world 0).
Proof.
  apply (nextBtn_click_without_data (PageDemo.page PageDemo.failing_world 0)).
  vm_compute; reflexivity.
Defined.

Lemma nextBtn_click_advances_witness :
  fst (nextBtn_click (PageDemo.page PageDemo.fresh_world 0)) = Fulfilled tt ∧
  (currentIndex (snd (nextBtn_click (PageDemo.page PageDemo.fresh_world 0))) <
   length [Demo.artwork])%nat ∧
  ((currentIndex (PageDemo.page PageDemo.fresh_world 0) < length [Demo.artwork])%nat →
   currentIndex (snd (nextBtn_click (PageDemo.page PageDemo.fresh_world 0))) =
   (S (currentIndex (PageDemo.page PageDemo.fresh_world 0)) mod length [Demo.artwork])%nat) ∧
  isRevealed (snd (nextBtn_click (PageDemo.page PageDemo.fresh_world 0))) = false ∧
  assigned (snd (nextBtn_click (PageDemo.page PageDemo.fresh_world 0)))
    !! ("overlay", "style.display") = Some (JString "flex") ∧
  calls (snd (nextBtn_click (PageDemo.page PageDemo.fresh_world 0))) =
    calls (PageDemo.page PageDemo.fresh_world 0) ++ [call_renderArtworkData].
Proof.
  apply (nextBtn_click_advances (PageDemo.page PageDemo.fresh_world 0) [Demo.artwork]).
  - vm_compute; reflexivity.
  - discriminate.
  - exists EmptyString. vm_compute; reflexivity.
  - exists EmptyString. vm_compute; reflexivity.
  - exists EmptyString. vm_compute; reflexivity.
Defined.

Lemma renderArtworkData_shows_witness :
  document (browser (snd (renderArtworkData (PageDemo.page PageDemo.fresh_world 0))))
    !! "artwork-title" = Some "Untitled" ∧
  document (browser (snd (renderArtworkData (PageDemo.page PageDemo.fresh_world 0))))
    !! "artwork-artist" = Some "Unknown" ∧
  document (browser (snd (renderArtworkData (PageDemo.page PageDemo.fresh_world 0))))
    !! "artwork-date" = Some "1900".
Proof.
  apply (renderArtworkData_shows (PageDemo.page PageDemo.fresh_world 0)
           [Demo.artwork] Demo.artwork
           (JString "Untitled") (JString "Unknown") (JString "1900")).
  - vm_compute; reflexivity.
  - reflexivity.
  - exists EmptyString. vm_compute; reflexivity.
  - exists EmptyString. vm_compute; reflexivity.
  - exists EmptyString. vm_compute; reflexivity.
  - vm_compute; reflexivity.
  - vm_compute; reflexivity.
  - vm_compute; reflexivity.
  - reflexivity.
  - reflexivity.
  - reflexivity.
Defined.

Lemma renderArtworkData_falls_back_to_NA_witness :
  document (browser (snd (renderArtworkData (PageDemo.page PageDemo.anonymous_world 0))))
    !! "artwork-artist" = Some "N/A" ∧
  document (browser (snd (renderArtworkData (PageDemo.page PageDemo.anonymous_world 0))))
    !! "artwork-date" = Some "N/A".
Proof.
  apply (renderArtworkData_falls_back_to_NA (PageDemo.page PageDemo.anonymous_world 0)
           [PageDemo.anonymous] PageDemo.anonymous
           (JString "Study") JUndefined JUndefined "Study").
  - vm_compute; reflexivity.
  - reflexivity.
  - exists EmptyString. vm_compute; reflexivity.
  - exists EmptyString. vm_compute; reflexivity.
  - exists EmptyString. vm_compute; reflexivity.
  - vm_compute; reflexivity.
  - reflexivity.
  - vm_compute; reflexivity.
  - vm_compute; reflexivity.
  - reflexivity.
  - reflexivity.
Defined.

Lemma renderArtworkData_without_data_witness :
  fst (renderArtworkData (PageDemo.page PageDemo.failing_world 0)) =
    Failed (ReferenceError "title") ∧
  snd (renderArtworkData (PageDemo.page PageDemo.failing_world 0)) =
    set_browser (snd (fetchArtworksAndCache (browser (PageDemo.page PageDemo.failing_world 0))))
      (PageDemo.page PageDemo.failing_world 0).
Proof.
  apply (renderArtworkData_without_data (PageDemo.page PageDemo.failing_world 0) JNull).
  - vm_compute; reflexivity.
  - left; reflexivity.
  - vm_compute; reflexivity.
Defined.

Lemma renderArtworkData_out_of_range_witness :
  fst (renderArtworkData (PageDemo.page PageDemo.fresh_world 3)) = Failed (Thrown TypeError) ∧
  snd (renderArtworkData (PageDemo.page PageDemo.fresh_world 3)) =
    set_browser (snd (fetchArtworksAndCache (browser (PageDemo.page PageDemo.fresh_world 3))))
      (PageDemo.page PageDemo.fresh_world 3).
Proof.
  apply (renderArtworkData_out_of_range (PageDemo.page PageDemo.fresh_world 3) [Demo.artwork]).
  - vm_compute; reflexivity.
  - discriminate.
  - cbn; lia.
Defined.

Lemma image_settled_retries_witness :
  fst (image_settled PageDemo.image_request (Responded PageDemo.not_found_response)
         (PageDemo.page PageDemo.fresh_world 0)) = Fulfilled tt ∧
  currentIndex (snd (image_settled PageDemo.image_request
                       (Responded PageDemo.not_found_response)
                       (PageDemo.page PageDemo.fresh_world 0))) =
    (if bool_decide (S (currentIndex (PageDemo.page PageDemo.fresh_world 0)) <
                     length [Demo.artwork; PageDemo.anonymous])%nat
     then S (currentIndex (PageDemo.page PageDemo.fresh_world 0)) else 0%nat) ∧
  calls (snd (image_settled PageDemo.image_request (Responded PageDemo.not_found_response)
                (PageDemo.page PageDemo.fresh_world 0))) =
    calls (PageDemo.page PageDemo.fresh_world 0) ++ [call_renderArtworkData] ∧
  imageUrl (snd (image_settled PageDemo.image_request (Responded PageDemo.not_found_response)
                   (PageDemo.page PageDemo.fresh_world 0))) =
    imageUrl (PageDemo.page PageDemo.fresh_world 0) ∧
  assigned (snd (image_settled PageDemo.image_request (Responded PageDemo.not_found_response)
                   (PageDemo.page PageDemo.fresh_world 0))) =
    assigned (PageDemo.page PageDemo.fresh_world 0) ∧
  console_error_entry "Fetch error:"
    (Some (Error ("Error fetching image: " +:+ statusText PageDemo.not_found_response)))
    ∈ console (browser (snd (image_settled PageDemo.image_request
                               (Responded PageDemo.not_found_response)
                               (PageDemo.page PageDemo.fresh_world 0)))).
Proof.
  apply (image_settled_retries PageDemo.image_request PageDemo.not_found_response
           [Demo.artwork; PageDemo.anonymous] (PageDemo.page PageDemo.fresh_world 0));
    reflexivity.
Defined.

Lemma renderArtworkData_cold_cache_witness :
  fst (renderArtworkData (PageDemo.page PageDemo.cold_world 0)) = Fulfilled tt ∧
  requests (browser (snd (renderArtworkData (PageDemo.page PageDemo.cold_world 0)))) =
    requests (browser (PageDemo.page PageDemo.cold_world 0)) ++
    [total_url; Demo.demo_batch_url; image_url "e966799b"] ∧
  image_fetches (snd (renderArtworkData (PageDemo.page PageDemo.cold_world 0))) =
    image_fetches (PageDemo.page PageDemo.cold_world 0) ++
    [{| request_index :=
          S (S (length (requests (browser (PageDemo.page PageDemo.cold_world 0)))));
        captured_url := JString (image_url "e966799b");
        captured_data := JArray [Demo.artwork] |}] ∧
  document (browser (snd (renderArtworkData (PageDemo.page PageDemo.cold_world 0))))
    !! "artwork-title" = Some "Untitled" ∧
  document (browser (snd (renderArtworkData (PageDemo.page PageDemo.cold_world 0))))
    !! "artwork-artist" = Some (or_NA "Unknown") ∧
  document (browser (snd (renderArtworkData (PageDemo.page PageDemo.cold_world 0))))
    !! "artwork-date" = Some (or_NA "1900").
Proof.
  apply (renderArtworkData_cold_cache (PageDemo.page PageDemo.cold_world 0)
           Demo.demo_batch_url [Demo.artwork] "Untitled" "Unknown" "1900" "e966799b").
  - vm_compute; reflexivity.
  - vm_compute; reflexivity.
  - vm_compute; reflexivity.
  - exists Demo.artwork. split_and!; vm_compute; reflexivity.
  - exists EmptyString. vm_compute; reflexivity.
  - exists EmptyString. vm_compute; reflexivity.
  - exists EmptyString. vm_compute; reflexivity.
Defined.

Lemma broken_images_are_retried_while_fresh_witness :
  ∃ p' urls,
    rtc turn PageDemo.waiting_page p' ∧
    requests (browser p') = requests (browser PageDemo.waiting_page) ++ urls ∧
    length urls = 3%nat ∧
    Forall (image_of [Demo.artwork]) urls ∧
    ticks (browser p') = (ticks (browser PageDemo.waiting_page) + 2 * 3)%nat ∧
    render_pending p' ∧
    gallery_with_broken_images [Demo.artwork] 0 1000 p'.
Proof.
  apply (broken_images_are_retried_while_fresh [Demo.artwork] 0 1000 PageDemo.waiting_page 3).
  - split.
    + exists (Demo.stringify Demo.entry), Demo.entry. split_and!; vm_compute; reflexivity.
    + repeat constructor.
      exists "Untitled", "Unknown", "1900", "e966799b". split_and!; vm_compute; reflexivity.
    + cbn; lia.
    + exists EmptyString. vm_compute; reflexivity.
    + exists EmptyString. vm_compute; reflexivity.
    + exists EmptyString. vm_compute; reflexivity.
    + intros n url _. exists PageDemo.not_found_response.
      split; [by destruct n|reflexivity].
    + cbn; lia.
  - split; reflexivity.
  - intros k Hk. unfold fresh_at, Qlt, TTL. cbn. lia.
Defined.

Lemma retries_end_when_entry_expires_witness :
  ∃ p', turn PageDemo.expiring_page p' ∧
    (∀ p'', turn PageDemo.expiring_page p'' → p'' = p') ∧
    requests (browser p') =
      requests (browser PageDemo.expiring_page) ++
      ["https://api.artic.edu/api/v1/artworks?limit=0";
       "https://api.artic.edu/api/v1/artworks?ids=1,1,1,1,1,1,1,1,1,1" +:+
       "&fields=id,title,image_id,artist_display,date_display"] ∧
    at_rest p' ∧
    (∀ p'', ¬ turn p' p'').
Proof.
  apply (retries_end_when_entry_expires [Demo.artwork] 0 1000 PageDemo.expiring_page).
  - split.
    + exists (Demo.stringify Demo.entry), Demo.entry. split_and!; vm_compute; reflexivity.
    + repeat constructor.
      exists "Untitled", "Unknown", "1900", "e966799b". split_and!; vm_compute; reflexivity.
    + cbn; lia.
    + exists EmptyString. vm_compute; reflexivity.
    + exists EmptyString. vm_compute; reflexivity.
    + exists EmptyString. vm_compute; reflexivity.
    + intros n url _. exists PageDemo.not_found_response.
      split; [by destruct n|reflexivity].
    + cbn; lia.
  - split; reflexivity.
  - unfold stale_at, Qle, TTL. cbn. lia.
Defined.

Lemma panel_handlers_keep_consistency_witness :
  panel_consistent
    (snd (charColorMode_change (JString "fixed") (PageDemo.page PageDemo.fresh_world 0))) ∧
  panel_consistent
    (snd (cellColorMode_change (JString "fixed") (PageDemo.page PageDemo.fresh_world 0))) ∧
  panel_consistent (snd (charColor_change (PageDemo.page PageDemo.fresh_world 0))) ∧
  panel_consistent (snd (cellColor_change (PageDemo.page PageDemo.fresh_world 0))) ∧
  PARAMS (snd (charColorMode_change (JString "fixed")
                 (PageDemo.page PageDemo.fresh_world 0))) =
    with_charColorMode (JString "fixed") (PARAMS (PageDemo.page PageDemo.fresh_world 0)) ∧
  PARAMS (snd (cellColorMode_change (JString "fixed")
                 (PageDemo.page PageDemo.fresh_world 0))) =
    with_cellColorMode (JString "fixed") (PARAMS (PageDemo.page PageDemo.fresh_world 0)) ∧
  calls (snd (charColorMode_change (JString "fixed")
                (PageDemo.page PageDemo.fresh_world 0))) =
    calls (PageDemo.page PageDemo.fresh_world 0) ++
    [call_renderImage
       (renderImage_args
          (snd (charColorMode_change (JString "fixed")
                  (PageDemo.page PageDemo.fresh_world 0))))] ∧
  calls (snd (cellColorMode_change (JString "fixed")
                (PageDemo.page PageDemo.fresh_world 0))) =
    calls (PageDemo.page PageDemo.fresh_world 0) ++
    [call_renderImage
       (renderImage_args
          (snd (cellColorMode_change (JString "fixed")
                  (PageDemo.page PageDemo.fresh_world 0))))].
Proof.
  apply (panel_handlers_keep_consistency (PageDemo.page PageDemo.fresh_world 0)
           (JString "fixed")).
  split; reflexivity.
Defined.

End PageWitnesses.
